(** * Passwordless client: a shallow embedding of [dist/passwordlessclient.mjs]

    The development follows the layout of the source file:
    - [Js]: the JavaScript values and completions the client manipulates;
    - [Base64]: the host functions [window.atob] and [window.btoa];
    - [Codec]: [coerceToArrayBuffer] and [coerceToBase64Url];
    - [Cookies]: [setCookie], [getCookie] and the [document.cookie] jar;
    - [Client]: the class [PasswordlessClient] with [register] and [signin],
      run against an explicit host (fetch, [navigator.credentials], the
      [window.PublicKeyCredential] global);
    - [Scenario]: concrete hosts, among them the sign-in example of the
      specification.
    The theorems follow the definitions. *)

From Stdlib Require Import List String Ascii NArith ZArith Lia Bool.
From Stdlib.Strings Require Import Byte.
Import ListNotations.

Ltac Zify.zify_post_hook ::= Z.to_euclidean_division_equations.
Set Warnings "-register-all".

(* ================================================================= *)
(** ** JavaScript values and completions *)

Module Js.

(** The values that flow through the client.  Objects keep their own
    properties in insertion order.  A [VUint8Array] is a view over the whole
    of its buffer.  A [VFunction] is a host function, abstracted by what a
    call without arguments returns. *)
Inductive value : Type :=
| VUndefined
| VNull
| VBool (b : bool)
| VNum (n : Z)
| VStr (s : string)
| VArray (elems : list value)
| VObject (props : list (string * value))
| VUint8Array (bytes : list byte)
| VArrayBuffer (bytes : list byte)
| VFunction (ret : value).

(** What a [throw] (or a rejected promise) carries. *)
Inductive error : Type :=
| JsError (msg : string)        (* new Error(msg) *)
| JsTypeError (msg : string)    (* new TypeError(msg), thrown by the program *)
| NativeTypeError               (* TypeError raised by the engine itself *)
| InvalidCharacterError         (* the DOMException of atob *)
| HostError (detail : string).  (* a rejection reason chosen by the host *)

(** How an evaluation ends.  [OutOfModel] marks behaviour of the host or of
    the language that the embedding does not describe (number parsing,
    array-likes, percent-escapes); it is neither a return nor a throw, and no
    [catch] intercepts it. *)
Inductive completion (A : Type) : Type :=
| Normal (a : A)
| Throw (e : error)
| OutOfModel.

Arguments Normal {A} a.
Arguments Throw {A} e.
Arguments OutOfModel {A}.

Definition cbind {A B} (c : completion A) (k : A -> completion B) : completion B :=
  match c with
  | Normal a => k a
  | Throw e => Throw e
  | OutOfModel => OutOfModel
  end.

(** [typeof v] *)
Definition typeof (v : value) : string :=
  match v with
  | VUndefined => "undefined"
  | VNull => "object"
  | VBool _ => "boolean"
  | VNum _ => "number"
  | VStr _ => "string"
  | VFunction _ => "function"
  | VArray _ | VObject _ | VUint8Array _ | VArrayBuffer _ => "object"
  end.

(** [v === "s"] for a string literal. *)
Definition is_string_literal (v : value) (s : string) : bool :=
  match v with
  | VStr t => String.eqb t s
  | _ => false
  end.

Definition is_null (v : value) : bool :=
  match v with VNull => true | _ => false end.

Definition is_undefined (v : value) : bool :=
  match v with VUndefined => true | _ => false end.

(** Own properties of an object literal or of a parsed JSON object. *)
Fixpoint lookup (k : string) (props : list (string * value)) : option value :=
  match props with
  | [] => None
  | (k', v) :: rest => if String.eqb k k' then Some v else lookup k rest
  end.

Fixpoint update (k : string) (v : value) (props : list (string * value))
  : list (string * value) :=
  match props with
  | [] => [(k, v)]
  | (k', v') :: rest =>
      if String.eqb k k' then (k, v) :: rest else (k', v') :: update k v rest
  end.

(** [o.k] read.  Reading from [undefined] or [null] throws; the property
    names the client reads exist on no prototype of the other values, so
    there the read yields [undefined]. *)
Definition get (o : value) (k : string) : completion value :=
  match o with
  | VUndefined | VNull => Throw NativeTypeError
  | VObject props =>
      match lookup k props with
      | Some v => Normal v
      | None => Normal VUndefined
      end
  | _ => Normal VUndefined
  end.

(** [o.k = v].  The module is strict code: assigning to a property of a
    primitive throws.  Named properties on arrays, buffers and functions
    have no place in [value]. *)
Definition set (o : value) (k : string) (v : value) : completion value :=
  match o with
  | VObject props => Normal (VObject (update k v props))
  | VUndefined | VNull | VBool _ | VNum _ | VStr _ => Throw NativeTypeError
  | VArray _ | VUint8Array _ | VArrayBuffer _ | VFunction _ => OutOfModel
  end.

(** [k in o] for own properties of an object. *)
Definition has_own (o : value) (k : string) : bool :=
  match o with
  | VObject props =>
      match lookup k props with Some _ => true | None => false end
  | _ => false
  end.

(** [o.m()] for a method held in a property. *)
Definition call_method (o : value) (m : string) : completion value :=
  cbind (get o m) (fun f =>
    match f with
    | VFunction ret => Normal ret
    | _ => Throw NativeTypeError
    end).

(** ToUint8 of an integral number: reduction modulo 2^8. *)
Definition byte_of_Z (z : Z) : byte :=
  match Byte.of_N (Z.to_N (z mod 256)) with
  | Some b => b
  | None => x00
  end.

(** Conversion of one array element stored into a [Uint8Array]: ToNumber,
    then ToUint8.  On a string or an object ToNumber parses or runs the
    object's own conversion, which may return or throw; the embedding says
    neither and answers [OutOfModel]. *)
Definition to_uint8 (v : value) : completion byte :=
  match v with
  | VNum z => Normal (byte_of_Z z)
  | VUndefined | VNull => Normal x00
  | VBool b => Normal (if b then x01 else x00)
  | _ => OutOfModel
  end.

Fixpoint to_uint8_list (l : list value) : completion (list byte) :=
  match l with
  | [] => Normal []
  | v :: rest =>
      cbind (to_uint8 v) (fun b =>
      cbind (to_uint8_list rest) (fun bs => Normal (b :: bs)))
  end.

(** [new Uint8Array(v)]: the bytes of the new view. *)
Definition new_Uint8Array (v : value) : completion (list byte) :=
  match v with
  | VUndefined | VNull => Normal []
  | VArray l => to_uint8_list l
  | VUint8Array bs | VArrayBuffer bs => Normal bs
  | _ => OutOfModel
  end.

End Js.

Export Js.

Declare Scope js_scope.
Delimit Scope js_scope with js.
Notation "x <- c ;; k" := (cbind c (fun x => k))
  (at level 61, c at next level, right associativity) : js_scope.

(* ================================================================= *)
(** ** Strings as sequences of code units

    A string is a sequence of eight-bit code units: this is what a binary
    string is for [atob] and [btoa], and the texts of the codec, the URLs,
    the header names and the cookies are ASCII. *)

Module Str.

Definition chars : string -> list ascii := list_ascii_of_string.
Definition str : list ascii -> string := string_of_list_ascii.

(** [s.replace(/a/g, "b")] for single characters. *)
Definition replace_char (a b : ascii) (s : string) : string :=
  str (map (fun c => if Ascii.eqb c a then b else c) (chars s)).

Fixpoint drop_while (p : ascii -> bool) (l : list ascii) : list ascii :=
  match l with
  | [] => []
  | c :: rest => if p c then drop_while p rest else l
  end.

(** [s.replace(/=*$/g, "")]: the trailing run of [=] is removed. *)
Definition strip_trailing_eq (s : string) : string :=
  str (rev (drop_while (Ascii.eqb "=") (rev (chars s)))).

Definition contains (c : ascii) (s : string) : bool :=
  existsb (Ascii.eqb c) (chars s).

Definition ends_with (c : ascii) (s : string) : bool :=
  match rev (chars s) with
  | d :: _ => Ascii.eqb c d
  | [] => false
  end.

End Str.

Export Str.

(* ================================================================= *)
(** ** The host's base64 functions

    [window.btoa] and [window.atob] are host functions; they are modelled
    after the HTML standard: [btoa] is RFC 4648 base64 with padding, [atob]
    is the forgiving base64 decoder (white space ignored, padding optional,
    unused trailing bits dropped). *)

Module Base64.

Open Scope N_scope.

Definition alphabet : string :=
  "ABCDEFGHIJKLMNOPQRSTUVWXYZabcdefghijklmnopqrstuvwxyz0123456789+/".

(** The character of a six-bit group. *)
Definition b64_char (n : N) : ascii :=
  match String.get (N.to_nat n) alphabet with
  | Some c => c
  | None => "="%char
  end.

Fixpoint index_in (c : ascii) (s : string) : option N :=
  match s with
  | EmptyString => None
  | String d rest =>
      if Ascii.eqb c d then Some 0 else option_map N.succ (index_in c rest)
  end.

(** The six-bit group of a character of the alphabet. *)
Definition b64_index (c : ascii) : option N := index_in c alphabet.

(** Three octets make four six-bit groups; a last group of one or two
    octets is completed with zero bits. *)
Fixpoint sextets_of_octets (l : list N) : list N :=
  match l with
  | [] => []
  | [a] => [a / 4; (a mod 4) * 16]
  | [a; b] => [a / 4; (a mod 4) * 16 + b / 16; (b mod 16) * 4]
  | a :: b :: c :: rest =>
      a / 4 :: (a mod 4) * 16 + b / 16 :: (b mod 16) * 4 + c / 64 :: c mod 64
        :: sextets_of_octets rest
  end.

(** Four six-bit groups make three octets; a last group of two or three
    gives one or two octets and its unused low bits are discarded. *)
Fixpoint octets_of_sextets (l : list N) : list N :=
  match l with
  | s :: t :: u :: v :: rest =>
      s * 4 + t / 16 :: (t mod 16) * 16 + u / 4 :: (u mod 4) * 64 + v
        :: octets_of_sextets rest
  | [s; t; u] => [s * 4 + t / 16; (t mod 16) * 16 + u / 4]
  | [s; t] => [s * 4 + t / 16]
  | _ => []
  end.

Definition padding (octets : nat) : list ascii :=
  match (octets mod 3)%nat with
  | 1%nat => ["="; "="]%char
  | 2%nat => ["="]%char
  | _ => []
  end.

(** [window.btoa(s)] on a binary string. *)
Definition btoa (s : string) : string :=
  let octets := map N_of_ascii (chars s) in
  str (map b64_char (sextets_of_octets octets) ++ padding (List.length octets)).

Definition is_ascii_whitespace (c : ascii) : bool :=
  let n := N_of_ascii c in
  (n =? 9) || (n =? 10) || (n =? 12) || (n =? 13) || (n =? 32).

(** At most two trailing [=] are removed, and only from a text whose
    length is a multiple of four. *)
Definition strip_padding (l : list ascii) : list ascii :=
  if (List.length l mod 4 =? 0)%nat then
    match rev l with
    | c1 :: c2 :: r =>
        if Ascii.eqb c1 "=" then
          if Ascii.eqb c2 "=" then rev r else rev (c2 :: r)
        else l
    | _ => l
    end
  else l.

Fixpoint sextets_of_text (l : list ascii) : option (list N) :=
  match l with
  | [] => Some []
  | c :: rest =>
      match b64_index c, sextets_of_text rest with
      | Some n, Some ns => Some (n :: ns)
      | _, _ => None
      end
  end.

(** [window.atob(data)] *)
Definition atob (data : string) : completion string :=
  let l := filter (fun c => negb (is_ascii_whitespace c)) (chars data) in
  let l := strip_padding l in
  if (List.length l mod 4 =? 1)%nat then Throw InvalidCharacterError
  else
    match sextets_of_text l with
    | None => Throw InvalidCharacterError
    | Some ns => Normal (str (map ascii_of_N (octets_of_sextets ns)))
    end.

End Base64.

Export Base64.

(* ================================================================= *)
(** ** The codec: [coerceToArrayBuffer] and [coerceToBase64Url] *)

Module Codec.

Open Scope js_scope.

(** The loop [bytes[i] = str.charCodeAt(i)] over a binary string. *)
Definition bytes_of_binary_string (s : string) : list byte :=
  map byte_of_ascii (chars s).

(** The loop [str += String.fromCharCode(thing[i])]. *)
Definition binary_string_of_bytes (bs : list byte) : string :=
  str (map ascii_of_byte bs).

Definition coerceToArrayBuffer (thing : value) : completion value :=
  thing <- match thing with
           | VStr s =>
               (* base64url to base64 *)
               let s := replace_char "_" "/" (replace_char "-" "+" s) in
               (* base64 to Uint8Array *)
               b <- atob s ;;
               Normal (VUint8Array (bytes_of_binary_string b))
           | _ => Normal thing
           end ;;
  (* Array to Uint8Array *)
  thing <- match thing with
           | VArray _ => bs <- new_Uint8Array thing ;; Normal (VUint8Array bs)
           | _ => Normal thing
           end ;;
  (* Uint8Array to ArrayBuffer *)
  let thing := match thing with
               | VUint8Array bs => VArrayBuffer bs
               | _ => thing
               end in
  (* error if none of the above worked *)
  match thing with
  | VArrayBuffer _ => Normal thing
  | _ => Throw (JsTypeError "could not coerce to ArrayBuffer")
  end.

Definition coerceToBase64Url (thing : value) : completion value :=
  (* Array or ArrayBuffer to Uint8Array *)
  thing <- match thing with
           | VArray _ => bs <- new_Uint8Array thing ;; Normal (VUint8Array bs)
           | _ => Normal thing
           end ;;
  let thing := match thing with
               | VArrayBuffer bs => VUint8Array bs
               | _ => thing
               end in
  (* Uint8Array to base64 *)
  let thing := match thing with
               | VUint8Array bs => VStr (btoa (binary_string_of_bytes bs))
               | _ => thing
               end in
  match thing with
  | VStr s =>
      (* base64 to base64url; the "=" at the end is stripped off *)
      Normal (VStr (strip_trailing_eq
                      (replace_char "/" "_" (replace_char "+" "-" s))))
  | _ => Throw (JsError "could not coerce to string")
  end.

(** The URL-safe alphabet that [coerceToBase64Url] writes. *)
Definition url_alphabet : string :=
  "ABCDEFGHIJKLMNOPQRSTUVWXYZabcdefghijklmnopqrstuvwxyz0123456789-_".

Definition b64url_index (c : ascii) : option N := index_in c url_alphabet.

Definition b64url_char (n : N) : ascii :=
  match String.get (N.to_nat n) url_alphabet with
  | Some c => c
  | None => "="%char
  end.

Fixpoint sextets_of_url_text (l : list ascii) : option (list N) :=
  match l with
  | [] => Some []
  | c :: rest =>
      match b64url_index c, sextets_of_url_text rest with
      | Some n, Some ns => Some (n :: ns)
      | _, _ => None
      end
  end.

(** A text over the URL-safe alphabet (so without padding) that
    [coerceToArrayBuffer] accepts: its length is not 1 modulo 4. *)
Definition valid_text (t : string) : bool :=
  match sextets_of_url_text (chars t) with
  | Some ns => negb (List.length ns mod 4 =? 1)%nat
  | None => false
  end.

(** The unused low bits of a last, incomplete group are zero. *)
Fixpoint canonical_sextets (l : list N) : bool :=
  match l with
  | [] => true
  | [_] => false
  | [_; t] => (t mod 16 =? 0)%N
  | [_; _; u] => (u mod 4 =? 0)%N
  | _ :: _ :: _ :: _ :: rest => canonical_sextets rest
  end.

(** A valid text that is moreover the encoding of some byte sequence. *)
Definition canonical_text (t : string) : bool :=
  match sextets_of_url_text (chars t) with
  | Some ns => canonical_sextets ns
  | None => false
  end.

(** The inputs [coerceToBase64Url] is meant for: a buffer, a view, or an
    array of numbers. *)
Definition bytes_like (v : value) : bool :=
  match v with
  | VUint8Array _ | VArrayBuffer _ => true
  | VArray l => forallb (fun x => match x with VNum _ => true | _ => false end) l
  | _ => false
  end.

(** The two directions on their intended domains. *)
Definition encode (b : list byte) : completion value :=
  coerceToBase64Url (VArrayBuffer b).

Definition decode (t : string) : completion value :=
  coerceToArrayBuffer (VStr t).

End Codec.

Export Codec.

(* ================================================================= *)
(** ** The hint store: [setCookie], [getCookie] and [document.cookie] *)

Module Cookies.

Open Scope string_scope.
Open Scope js_scope.

(** The cookies visible to the document, name and value, oldest first.
    The jar is that of a single path, so a name occurs once. *)
Definition jar : Type := list (string * string).

Fixpoint join (sep : string) (l : list string) : string :=
  match l with
  | [] => ""
  | [x] => x
  | x :: rest => x ++ sep ++ join sep rest
  end.

(** Reading [document.cookie]. *)
Definition document_cookie (j : jar) : string :=
  join "; " (map (fun p => fst p ++ "=" ++ snd p) j).

Fixpoint is_prefix (p l : list ascii) : bool :=
  match p, l with
  | [], _ => true
  | a :: p', b :: l' => Ascii.eqb a b && is_prefix p' l'
  | _ :: _, [] => false
  end.

(** [s.split(sep)] for a separator that is not empty: [skip] counts the
    characters of a separator still to be passed over, [cur] holds the
    current piece, last character first. *)
Fixpoint split_from (sep : list ascii) (skip : nat) (cur s : list ascii)
  : list string :=
  match s with
  | [] => [str (rev cur)]
  | c :: rest =>
      match skip with
      | S k => split_from sep k cur rest
      | O =>
          if is_prefix sep s
          then str (rev cur) :: split_from sep (List.length sep - 1) [] rest
          else split_from sep 0 (c :: cur) rest
      end
  end.

Definition split (sep s : string) : list string :=
  split_from (chars sep) 0 [] (chars s).

Definition is_alphanumeric (c : ascii) : bool :=
  let n := N_of_ascii c in
  ((48 <=? n) && (n <=? 57) || (65 <=? n) && (n <=? 90)
   || (97 <=? n) && (n <=? 122))%N.

(** The characters [encodeURIComponent] leaves alone. *)
Definition is_unreserved (c : ascii) : bool :=
  is_alphanumeric c || contains c "-_.!~*'()".

(** [encodeURIComponent(s)]: the identity on unreserved characters; the
    escaping of the others is not described. *)
Definition encodeURIComponent (s : string) : completion string :=
  if forallb is_unreserved (chars s) then Normal s else OutOfModel.

(** [decodeURIComponent(s)]: the identity on a string without escapes. *)
Definition decodeURIComponent (s : string) : completion string :=
  if contains "%" s then OutOfModel else Normal s.

(** A cookie name the jar stores as it is written. *)
Definition is_cookie_name (name : string) : bool :=
  negb (String.eqb name "")
  && forallb (fun c => is_alphanumeric c || contains c "-_.") (chars name).

(** The jar after a cookie is stored: the cookie of that name is replaced
    where it stands, a new one is added last. *)
Fixpoint store (name v : string) (j : jar) : jar :=
  match j with
  | [] => [(name, v)]
  | (n, w) :: rest =>
      if String.eqb name n then (name, v) :: rest
      else (n, w) :: store name v rest
  end.

(** [setCookie(name, value, days, path)].  The assignment to
    [document.cookie] of [name=value; expires=...; path=...] stores the
    cookie when the expiry date lies ahead and the path is the root. *)
Definition setCookie (name value : string) (days : Z) (path : string) (j : jar)
  : completion jar :=
  v <- encodeURIComponent value ;;
  if is_cookie_name name && (0 <? days)%Z && String.eqb path "/"
  then Normal (store name v j)
  else OutOfModel.

(** One step of the [reduce] in [getCookie]. *)
Definition getCookie_step (name : string) (r : completion string) (v : string)
  : completion string :=
  r <- r ;;
  let parts := split "=" v in
  if String.eqb (nth 0 parts "") name
  then match nth_error parts 1 with
       | Some p => decodeURIComponent p
       | None => Normal "undefined"
       end
  else Normal r.

Definition getCookie (name : string) (j : jar) : completion string :=
  fold_left (getCookie_step name) (split "; " (document_cookie j)) (Normal "").

(** Names are cookie names and occur once; values hold no [;]. *)
Fixpoint well_formed (j : jar) : bool :=
  match j with
  | [] => true
  | (n, v) :: rest =>
      is_cookie_name n && negb (contains ";" v)
      && negb (existsb (fun p => String.eqb (fst p) n) rest)
      && well_formed rest
  end.

End Cookies.

Export Cookies.

(* ================================================================= *)
(** ** The client: [PasswordlessClient] *)

Module Client.

Open Scope string_scope.

(** [this.config] *)
Record config : Type := {
  apiUrl : string;
  apiKey : string;
  Origin : string;
  RPID : string;
  useHints : value;
}.

(** The argument of the constructor: the fields it overrides. *)
Record overrides : Type := {
  with_apiUrl : option string;
  with_apiKey : option string;
  with_Origin : option string;
  with_RPID : option string;
  with_useHints : option value;
}.

(** The second argument of [fetch].  [body] is the object handed to
    [JSON.stringify]. *)
Record request : Type := {
  method : string;
  body : value;
  headers : list (string * string);
}.

(** What the client reads of a [Response]: its status and the outcome of
    [response.json()]. *)
Record response : Type := {
  status : Z;
  json : completion value;
}.

(** The environment the module runs in. *)
Record host : Type := {
  location_origin : string;
  location_hostname : string;
  PublicKeyCredential : value;            (* window.PublicKeyCredential *)
  fetch : string -> request -> completion response;
  credentials_create : value -> completion value;
  credentials_get : value -> completion value;
}.

(** What a ceremony does to the outside, in order. *)
Inductive event : Type :=
| Fetch (url : string) (init : request)
| CredentialsCreate (arg : value)
| CredentialsGet (arg : value)
| Console (level msg : string) (detail : option error).

Record world : Type := {
  cookies : jar;
  events : list event;   (* oldest first *)
}.

(** Computations of the client: they may throw and they act on the world. *)
Definition M (A : Type) : Type := world -> completion A * world.

Definition ret {A} (a : A) : M A := fun w => (Normal a, w).

Definition bind {A B} (m : M A) (k : A -> M B) : M B :=
  fun w =>
    match m w with
    | (Normal a, w') => k a w'
    | (Throw e, w') => (Throw e, w')
    | (OutOfModel, w') => (OutOfModel, w')
    end.

Definition throw {A} (e : error) : M A := fun w => (Throw e, w).

Definition lift {A} (c : completion A) : M A := fun w => (c, w).

(** [try { m } catch (e) { handler e }] *)
Definition try_catch {A} (m : M A) (handler : error -> M A) : M A :=
  fun w =>
    match m w with
    | (Throw e, w') => handler e w'
    | r => r
    end.

Definition emit (ev : event) : M unit :=
  fun w => (Normal tt, {| cookies := cookies w; events := events w ++ [ev] |}).

Declare Scope client_scope.
Delimit Scope client_scope with client.
Notation "x <- m ;; k" := (bind m (fun x => k))
  (at level 61, m at next level, right associativity) : client_scope.
Notation "m ;; k" := (bind m (fun _ => k))
  (at level 61, right associativity) : client_scope.
Notation "' ( x , y ) <- m ;; k" := (bind m (fun p => let '(x, y) := p in k))
  (at level 61, x name, y name, m at next level, right associativity)
  : client_scope.

Open Scope client_scope.

Definition console (level msg : string) (detail : option error) : M unit :=
  emit (Console level msg detail).

(** [await fetch(url, init)] *)
Definition do_fetch (h : host) (url : string) (init : request) : M response :=
  emit (Fetch url init) ;; lift (fetch h url init).

(** [await navigator.credentials.create(arg)] *)
Definition do_create (h : host) (arg : value) : M value :=
  emit (CredentialsCreate arg) ;; lift (credentials_create h arg).

(** [await navigator.credentials.get(arg)] *)
Definition do_get (h : host) (arg : value) : M value :=
  emit (CredentialsGet arg) ;; lift (credentials_get h arg).

Definition default {A} (d : A) (o : option A) : A :=
  match o with Some a => a | None => d end.

(** [new PasswordlessClient(config)]: the defaults, then the overrides. *)
Definition new_Client (h : host) (o : overrides) : config :=
  {| apiUrl := default "https://api.passwordless.dev/" (with_apiUrl o);
     apiKey := default "" (with_apiKey o);
     Origin := default (location_origin h) (with_Origin o);
     RPID := default (location_hostname h) (with_RPID o);
     useHints := default (VStr "cookie") (with_useHints o) |}.

(** Returns true if the browser supports PublicKeyCredential. *)
Definition isBrowserSupported (h : host) : bool :=
  if is_undefined (PublicKeyCredential h)
     || negb (String.eqb (typeof (PublicKeyCredential h)) "function")
  then false
  else true.

Definition unsupported : error :=
  JsError "WebAuthn and PublicKeyCredentials are not supported on this browser/device".

(** Throws if browser does not support PublicKeyCredential. *)
Definition checkSupport (h : host) : completion unit :=
  if negb (isBrowserSupported h) then Throw unsupported else Normal tt.

Fixpoint map_completion {A B} (f : A -> completion B) (l : list A)
  : completion (list B) :=
  match l with
  | [] => Normal []
  | a :: rest =>
      cbind (f a) (fun b =>
      cbind (map_completion f rest) (fun bs => Normal (b :: bs)))
  end.

(** [arr.map(f)] and [arr.forEach(f)], for an [f] that updates its element
    in place: the array afterwards.  On an array the elements are visited in
    order; a typed array has both methods but is not described; a value
    without the method [m] makes the call throw. *)
Definition array_map (m : string) (arr : value) (f : value -> completion value)
  : completion value :=
  match arr with
  | VArray l => cbind (map_completion f l) (fun l' => Normal (VArray l'))
  | VUint8Array _ => OutOfModel
  | VObject props =>
      match lookup m props with
      | Some (VFunction _) => OutOfModel
      | _ => Throw NativeTypeError
      end
  | _ => Throw NativeTypeError
  end.

(** [o.k = coerceToArrayBuffer(o.k)] *)
Definition coerce_field (o : value) (k : string) : completion value :=
  cbind (get o k) (fun v =>
  cbind (coerceToArrayBuffer v) (fun b => set o k b)).

Section WithHostAndConfig.

Variable h : host.
Variable this : config.

Definition _params : list (string * value) :=
  [("RPID", VStr (RPID this)); ("Origin", VStr (Origin this))].

Definition setHint (hint : string) : M unit :=
  fun w =>
    if is_string_literal (useHints this) "cookie" then
      match setCookie hint "1" 365 "/" (cookies w) with
      | Normal j => (Normal tt, {| cookies := j; events := events w |})
      | Throw e => (Throw e, w)
      | OutOfModel => (OutOfModel, w)
      end
    else (Normal tt, w).

(** Returns true if device has been used for passwordless signin before. *)
Definition hasPasswordlessHint (w : world) : completion value :=
  if is_string_literal (useHints this) "cookie" then
    cbind (getCookie "hint-passwordless" (cookies w)) (fun c =>
      Normal (VBool (String.eqb c "1")))
  else Normal VUndefined.

Definition registerBegin (token : value) : M value :=
  response <- do_fetch h (apiUrl this ++ "register/begin")
    {| method := "POST";
       body := VObject (("token", token) :: _params);
       headers := [("Accept", "application/json");
                   ("Content-Type", "application/json");
                   ("ApiKey", apiKey this)] |} ;;
  lift (json response).

Definition registerComplete (newCredential sessionId : value) : M value :=
  (* Move data into Arrays incase it is super long *)
  attestationObject <- lift (cbind (get newCredential "response") (fun r =>
                             cbind (get r "attestationObject") new_Uint8Array)) ;;
  clientDataJSON <- lift (cbind (get newCredential "response") (fun r =>
                          cbind (get r "clientDataJSON") new_Uint8Array)) ;;
  rawId <- lift (cbind (get newCredential "rawId") new_Uint8Array) ;;
  id <- lift (get newCredential "id") ;;
  rawId' <- lift (coerceToBase64Url (VUint8Array rawId)) ;;
  type <- lift (get newCredential "type") ;;
  extensions <- lift (call_method newCredential "getClientExtensionResults") ;;
  attestationObject' <- lift (coerceToBase64Url (VUint8Array attestationObject)) ;;
  clientDataJSON' <- lift (coerceToBase64Url (VUint8Array clientDataJSON)) ;;
  let data := VObject [("id", id); ("rawId", rawId'); ("type", type);
                       ("extensions", extensions);
                       ("response",
                        VObject [("AttestationObject", attestationObject');
                                 ("clientDataJson", clientDataJSON')])] in
  response <- do_fetch h (apiUrl this ++ "register/complete")
    {| method := "POST";
       body := VObject (("response", data) :: ("sessionId", sessionId) :: _params);
       headers := [("Accept", "application/json");
                   ("Content-Type", "application/json");
                   ("ApiKey", apiKey this)] |} ;;
  (if (status response =? 200)%Z then setHint "hint-passwordless" else ret tt) ;;
  lift (json response).

(** Lines 40 to 50 of [register]: the options of the begin response are
    turned into what [navigator.credentials.create] takes. *)
Definition register_adapt (options : value) : completion value :=
  (* Turn the challenge back into the accepted format of padded base64 *)
  cbind (coerce_field options "challenge") (fun options =>
  (* Turn ID into a UInt8Array Buffer for some reason *)
  cbind (get options "user") (fun user =>
  cbind (coerce_field user "id") (fun user =>
  cbind (set options "user" user) (fun options =>
  cbind (get options "excludeCredentials") (fun excluded =>
  cbind (array_map "map" excluded (fun c => coerce_field c "id")) (fun excluded =>
  cbind (set options "excludeCredentials" excluded) (fun options =>
  cbind (get options "authenticatorSelection") (fun selection =>
  cbind (get selection "authenticatorAttachment") (fun attachment =>
  if is_null attachment then
    cbind (set selection "authenticatorAttachment" VUndefined) (fun selection =>
    set options "authenticatorSelection" selection)
  else Normal options))))))))).

Definition create_failed : string :=
  "Failed during credentials.create in browser. One reason could be because the username is already registered with your authenticator. Please change username or authenticator.".

(** Register a new credential to a user. *)
Definition register (token : value) : M unit :=
  lift (checkSupport h) ;;
  '(options, session) <-
     try_catch
       (r <- registerBegin token ;;
        data <- lift (get r "data") ;;
        sessionId <- lift (get r "sessionId") ;;
        ret (data, sessionId))
       (fun e => console "error" "Failed during register/begin" None ;; throw e) ;;
  options <- lift (register_adapt options) ;;
  newCredential <-
     try_catch
       (do_create h (VObject [("publicKey", options)]))
       (fun e => console "warn" create_failed (Some e) ;; throw e) ;;
  try_catch
    (registerComplete newCredential session ;;
     setHint "hint-passwordless")
    (fun e => console "warn" "Failed during register/complete" (Some e)).

Definition signinBegin (username : value) : M value :=
  res <- do_fetch h (apiUrl this ++ "signin/begin")
    {| method := "POST";
       body := VObject (("username", username) :: _params);
       headers := [("Accept", "application/json");
                   ("ApiKey", apiKey this)] |} ;;
  lift (json res).

Definition signinComplete (credential sessionId : value) : M value :=
  (* Move data into Arrays incase it is super long *)
  authData <- lift (cbind (get credential "response") (fun r =>
                    cbind (get r "authenticatorData") new_Uint8Array)) ;;
  clientDataJSON <- lift (cbind (get credential "response") (fun r =>
                          cbind (get r "clientDataJSON") new_Uint8Array)) ;;
  rawId <- lift (cbind (get credential "rawId") new_Uint8Array) ;;
  sig <- lift (cbind (get credential "response") (fun r =>
               cbind (get r "signature") new_Uint8Array)) ;;
  id <- lift (get credential "id") ;;
  rawId' <- lift (coerceToBase64Url (VUint8Array rawId)) ;;
  type <- lift (get credential "type") ;;
  extensions <- lift (call_method credential "getClientExtensionResults") ;;
  authData' <- lift (coerceToBase64Url (VUint8Array authData)) ;;
  clientDataJSON' <- lift (coerceToBase64Url (VUint8Array clientDataJSON)) ;;
  sig' <- lift (coerceToBase64Url (VUint8Array sig)) ;;
  let data := VObject [("id", id); ("rawId", rawId'); ("type", type);
                       ("extensions", extensions);
                       ("response",
                        VObject [("authenticatorData", authData');
                                 ("clientDataJson", clientDataJSON');
                                 ("signature", sig')])] in
  response <- do_fetch h (apiUrl this ++ "signin/complete")
    {| method := "POST";
       body := VObject (("response", data) :: ("sessionId", sessionId) :: _params);
       headers := [("Accept", "application/json");
                   ("ApiKey", apiKey this)] |} ;;
  (if (status response =? 200)%Z then setHint "hint-passwordless" else ret tt) ;;
  lift (json response).

(** Lines 156 to 160 of [signin].  [forEach] changes the elements where
    they are; for a value that is a tree this is the array written back. *)
Definition signin_adapt (options : value) : completion value :=
  cbind (coerce_field options "challenge") (fun options =>
  cbind (get options "allowCredentials") (fun allowed =>
  cbind (array_map "forEach" allowed (fun listItem => coerce_field listItem "id"))
    (fun allowed => set options "allowCredentials" allowed))).

(** Sign in a user. *)
Definition signin (username : value) : M value :=
  lift (checkSupport h) ;;
  '(options, sessionId) <-
     try_catch
       (r <- signinBegin username ;;
        data <- lift (get r "data") ;;
        sessionId <- lift (get r "sessionId") ;;
        ret (data, sessionId))
       (fun e => console "warn" "Failed during signin/begin" (Some e) ;; throw e) ;;
  options <- lift (signin_adapt options) ;;
  credential <-
     try_catch
       (do_get h (VObject [("publicKey", options)]))
       (fun e => console "warn" "Failed during credentials.get in browser." (Some e) ;;
                 throw e) ;;
  try_catch
    (response <- signinComplete credential sessionId ;;
     lift (get response "data"))
    (fun e => console "warn" "Failed during signin/complete" (Some e) ;; throw e).

End WithHostAndConfig.

(** A world in which nothing has happened yet. *)
Definition fresh (j : jar) : world := {| cookies := j; events := [] |}.

(** The requests sent to an endpoint during a run. *)
Definition requests_to (url : string) (evs : list event) : list request :=
  flat_map (fun ev => match ev with
                      | Fetch u init => if String.eqb u url then [init] else []
                      | _ => []
                      end) evs.

(** The arguments [navigator.credentials.create] was called with. *)
Definition create_calls (evs : list event) : list value :=
  flat_map (fun ev => match ev with
                      | CredentialsCreate arg => [arg]
                      | _ => []
                      end) evs.

(** What the host answers to the requests sent to an endpoint. *)
Definition answers (h : host) (url : string) (evs : list event)
  : list (completion response) :=
  map (fetch h url) (requests_to url evs).

Definition header (name : string) (r : request) : option string :=
  option_map snd (find (fun p => String.eqb (fst p) name) (headers r)).

(** [o.a.b.c] along a path of property names. *)
Fixpoint get_path (o : value) (path : list string) : completion value :=
  match path with
  | [] => Normal o
  | k :: rest => cbind (get o k) (fun v => get_path v rest)
  end.

(** The jar after [setHint "hint-passwordless"]. *)
Definition hinted (this : config) (j : jar) : jar :=
  if is_string_literal (useHints this) "cookie"
  then store "hint-passwordless" "1" j
  else j.

End Client.

Export Client.

(* ================================================================= *)
(** ** Auxiliary definitions for the proofs *)

Module Aux.

Open Scope N_scope.

(** What the two replacements of [coerceToArrayBuffer] do to a character. *)
Definition to_std (c : ascii) : ascii :=
  let c := if Ascii.eqb c "-" then "+"%char else c in
  if Ascii.eqb c "_" then "/"%char else c.

(** What the two character replacements of [coerceToBase64Url] do. *)
Definition to_url (c : ascii) : ascii :=
  let c := if Ascii.eqb c "+" then "-"%char else c in
  if Ascii.eqb c "/" then "_"%char else c.

(** Everything the proofs need to know of one character of the URL-safe
    alphabet, as a test that can be run on each of the 256 characters. *)
Definition url_char_ok (c : ascii) : bool :=
  match b64url_index c with
  | None => true
  | Some n =>
      (n <? 64)
      && Ascii.eqb (b64url_char n) c
      && match b64_index (to_std c) with Some m => m =? n | None => false end
      && negb (is_ascii_whitespace (to_std c))
      && negb (Ascii.eqb (to_std c) "=")
  end.

(** The same for a six-bit group. *)
Definition sextet_ok (n : N) : bool :=
  match b64url_index (b64url_char n) with Some m => m =? n | None => false end
  && Ascii.eqb (to_url (b64_char n)) (b64url_char n)
  && negb (Ascii.eqb "=" (b64url_char n))
  && negb (Ascii.eqb "+" (b64url_char n))
  && negb (Ascii.eqb "/" (b64url_char n)).

Definition std_char_ok (c : ascii) : bool :=
  match b64_index c with
  | None => true
  | Some n => negb (is_ascii_whitespace c) && negb (Ascii.eqb c "=")
  end.

Definition all_sextets : list N := map N.of_nat (seq 0 64).

(** The byte that [charCodeAt] reads off the character of an octet. *)
Definition byte_of_octet (n : N) : byte := byte_of_ascii (ascii_of_N n).

(** Induction on lists three, respectively four, elements at a time. *)
Definition list_ind3 {A} (P : list A -> Prop)
  (H0 : P []) (H1 : forall a, P [a]) (H2 : forall a b, P [a; b])
  (H3 : forall a b c l, P l -> P (a :: b :: c :: l)) : forall l, P l :=
  fix F l :=
    match l with
    | [] => H0
    | [a] => H1 a
    | [a; b] => H2 a b
    | a :: b :: c :: r => H3 a b c r (F r)
    end.

Definition list_ind4 {A} (P : list A -> Prop)
  (H0 : P []) (H1 : forall a, P [a]) (H2 : forall a b, P [a; b])
  (H3 : forall a b c, P [a; b; c])
  (H4 : forall a b c d l, P l -> P (a :: b :: c :: d :: l)) : forall l, P l :=
  fix F l :=
    match l with
    | [] => H0
    | [a] => H1 a
    | [a; b] => H2 a b
    | [a; b; c] => H3 a b c
    | a :: b :: c :: d :: r => H4 a b c d r (F r)
    end.

(** A string without the character [c]. *)
Definition free_of (c : ascii) (s : string) : Prop :=
  Forall (fun d => Ascii.eqb c d = false) (chars s).

(** How a cookie shows in [document.cookie]. *)
Definition render (p : string * string) : string :=
  (fst p ++ "=" ++ snd p)%string.

End Aux.

Export Aux.

(* ================================================================= *)
(** ** Scenarios: concrete hosts on which the ceremonies are run *)

Module Scenario.

Open Scope string_scope.

Definition api : string := "https://api.passwordless.dev/".

(** The credential of the sign-in example. *)
Definition stub_credential : value :=
  VObject [("id", VStr "cred1");
           ("rawId", VArray [VNum 1; VNum 2; VNum 3]);
           ("type", VStr "public-key");
           ("response",
            VObject [("authenticatorData", VArray [VNum 4; VNum 5]);
                     ("clientDataJSON", VArray [VNum 6; VNum 7]);
                     ("signature", VArray [VNum 8; VNum 9])]);
           ("getClientExtensionResults", VFunction (VObject []))].

(** A credential as [navigator.credentials.create] returns it. *)
Definition new_credential : value :=
  VObject [("id", VStr "cred2");
           ("rawId", VArrayBuffer [x0a; x0b]);
           ("type", VStr "public-key");
           ("response",
            VObject [("attestationObject", VArrayBuffer [x01]);
                     ("clientDataJSON", VArrayBuffer [x02])]);
           ("getClientExtensionResults", VFunction (VObject []))].

Definition signin_options : value :=
  VObject [("challenge", VStr "AQID");
           ("allowCredentials",
            VArray [VObject [("id", VStr "AQID"); ("type", VStr "public-key")]])].

Definition register_options : value :=
  VObject [("challenge", VStr "AQID");
           ("user", VObject [("id", VStr "BAU"); ("name", VStr "alice")]);
           ("excludeCredentials", VArray []);
           ("authenticatorSelection",
            VObject [("authenticatorAttachment", VNull)])].

Definition answer (st : Z) (payload : value) : completion response :=
  Normal {| status := st; json := Normal payload |}.

Definition begin_answer (options : value) : completion response :=
  answer 200 (VObject [("data", options); ("sessionId", VStr "s-123")]).

Definition ends_in (suffix url : string) : bool :=
  String.eqb url (api ++ suffix).

(** A browser with WebAuthn whose server answers the complete calls with
    the status [st] and a JSON body, and whose authenticator does what
    [create] and [get] say. *)
Definition browser (st : Z) (create get : completion value) : host :=
  {| location_origin := "https://example.com";
     location_hostname := "example.com";
     PublicKeyCredential := VFunction VUndefined;
     fetch := fun url _ =>
       if ends_in "register/begin" url then begin_answer register_options
       else if ends_in "signin/begin" url then begin_answer signin_options
       else if (st =? 200)%Z
            then answer st (VObject [("data", VStr "jwt")])
            else answer st (VObject [("error", VStr "rejected")]);
     credentials_create := fun _ => create;
     credentials_get := fun _ => get |}.

(** A browser without WebAuthn. *)
Definition old_browser : host :=
  {| location_origin := "https://example.com";
     location_hostname := "example.com";
     PublicKeyCredential := VUndefined;
     fetch := fun _ _ => Throw (HostError "offline");
     credentials_create := fun _ => Throw (HostError "no authenticator");
     credentials_get := fun _ => Throw (HostError "no authenticator") |}.

Definition no_overrides : overrides :=
  {| with_apiUrl := None; with_apiKey := None; with_Origin := None;
     with_RPID := None; with_useHints := None |}.

Definition without_hints : overrides :=
  {| with_apiUrl := None; with_apiKey := None; with_Origin := None;
     with_RPID := None; with_useHints := Some (VBool false) |}.

Definition cancelled : completion value := Throw (HostError "NotAllowedError").

(** The user approves a registration; the server answers [st]. *)
Definition enrolling (st : Z) : host :=
  browser st (Normal new_credential) cancelled.

(** The user approves a sign-in; the server answers [st]. *)
Definition asserting (st : Z) : host :=
  browser st cancelled (Normal stub_credential).

(** The user cancels the platform dialog. *)
Definition refusing : host := browser 200 cancelled cancelled.

(** A client built with the defaults. *)
Definition client (h : host) : config := new_Client h no_overrides.

Definition register_run (h : host) : completion unit * world :=
  register h (client h) (VStr "token") (fresh []).

Definition signin_run (h : host) : completion value * world :=
  signin h (client h) (VStr "alice") (fresh []).

(** The request [signinBegin] sends for the user [alice]. *)
Definition signin_begin_request : request :=
  {| method := "POST";
     body := VObject [("username", VStr "alice");
                      ("RPID", VStr "example.com");
                      ("Origin", VStr "https://example.com")];
     headers := [("Accept", "application/json"); ("ApiKey", "")] |}.

(** The options [register] hands to the platform in these scenarios. *)
Definition adapted_register_options : value :=
  VObject [("challenge", VArrayBuffer [x01; x02; x03]);
           ("user", VObject [("id", VArrayBuffer [x04; x05]);
                             ("name", VStr "alice")]);
           ("excludeCredentials", VArray []);
           ("authenticatorSelection",
            VObject [("authenticatorAttachment", VUndefined)])].

End Scenario.

(* ================================================================= *)
(** ** Observations on texts, jars and runs *)

Module Observe.

Open Scope string_scope.

(** The text without its ASCII white space. *)
Definition remove_whitespace (t : string) : string :=
  str (filter (fun c => negb (is_ascii_whitespace c)) (chars t)).

(** Every character is of the URL-safe alphabet. *)
Definition url_safe (t : string) : bool :=
  forallb (fun c => match b64url_index c with Some _ => true | None => false end)
    (chars t).

(** A character of neither alphabet that is no white space and no [=]. *)
Definition foreign (c : ascii) : bool :=
  negb (is_ascii_whitespace c) && negb (Ascii.eqb c "=")
  && match b64_index c with Some _ => false | None => true end
  && match b64url_index c with Some _ => false | None => true end.

(** The values the two coercions know how to read bytes from. *)
Definition is_binary_shape (v : value) : bool :=
  match v with
  | VStr _ | VArray _ | VUint8Array _ | VArrayBuffer _ => true
  | _ => false
  end.

(** The first cookie of a name. *)
Fixpoint jar_lookup (name : string) (j : jar) : option string :=
  match j with
  | [] => None
  | (n, v) :: rest => if String.eqb n name then Some v else jar_lookup name rest
  end.

(** [v.split("=")[0]] *)
Definition first_piece (v : string) : string := nth 0 (split "=" v) "".

Definition is_console (ev : event) : bool :=
  match ev with Console _ _ _ => true | _ => false end.

(** The requests and platform calls of a run, without the log. *)
Definition effects (evs : list event) : list event :=
  filter (fun ev => negb (is_console ev)) evs.

(** The arguments [navigator.credentials.get] was called with. *)
Definition get_calls (evs : list event) : list value :=
  flat_map (fun ev => match ev with
                      | CredentialsGet arg => [arg]
                      | _ => []
                      end) evs.

(** A credential descriptor before and after its [id] is decoded: the
    other properties stay. *)
Definition decoded_id (c c' : value) : Prop :=
  get c' "id" = cbind (get c "id") coerceToArrayBuffer
  /\ forall k, String.eqb k "id" = false -> get c' k = get c k.

(** [new Uint8Array(credential.response.k)] *)
Definition response_bytes (credential : value) (k : string)
  : completion (list byte) :=
  cbind (get credential "response") (fun r => cbind (get r k) new_Uint8Array).

(** The tests run on each character and each six-bit group. *)
Definition std_sextet_ok (n : N) : bool :=
  match b64_index (b64_char n) with Some m => (m =? n)%N | None => false end
  && Ascii.eqb (to_std (b64_char n)) (b64_char n)
  && negb (is_ascii_whitespace (b64_char n))
  && negb (Ascii.eqb (b64_char n) "=").

Definition to_std_ok (c : ascii) : bool :=
  Bool.eqb (is_ascii_whitespace (to_std c)) (is_ascii_whitespace c)
  && (if foreign c
      then Ascii.eqb (to_std c) c
      else true)
  && (if Ascii.eqb c "+" || Ascii.eqb c "/" then true
      else Ascii.eqb (to_url c) c)
  && (if is_unreserved c
      then negb (Ascii.eqb c "=") && negb (Ascii.eqb c "%")
           && negb (Ascii.eqb c ";")
      else true).

End Observe.

Export Observe.

(* ================================================================= *)
(** ** Further scenarios *)

Module Cases.

Import Scenario.

Open Scope string_scope.

(** A browser with WebAuthn and a given network. *)
Definition with_network (net : string -> request -> completion response) : host :=
  {| location_origin := "https://example.com";
     location_hostname := "example.com";
     PublicKeyCredential := VFunction VUndefined;
     fetch := net;
     credentials_create := fun _ => Normal new_credential;
     credentials_get := fun _ => Normal stub_credential |}.

(** No request gets through. *)
Definition offline : host :=
  with_network (fun _ _ => Throw (HostError "Failed to fetch")).

(** The server answers every request with an error object. *)
Definition failing_server : host :=
  with_network (fun _ _ => answer 500 (VObject [("error", VStr "unknown token")])).

(** Registration options that ask for a platform authenticator. *)
Definition platform_options : value :=
  VObject [("challenge", VStr "AQID");
           ("user", VObject [("id", VStr "BAU"); ("name", VStr "alice")]);
           ("excludeCredentials",
            VArray [VObject [("id", VStr "Cgs"); ("type", VStr "public-key")]]);
           ("authenticatorSelection",
            VObject [("authenticatorAttachment", VStr "platform")])].

Definition platform_site : host :=
  with_network (fun url _ =>
    if ends_in "register/begin" url then begin_answer platform_options
    else answer 200 (VObject [("data", VStr "jwt")])).

(** The platform resolves with [null]. *)
Definition null_credential : host := browser 200 (Normal VNull) (Normal VNull).


Definition register_begin_request : request :=
  {| method := "POST";
     body := VObject [("token", VStr "token");
                      ("RPID", VStr "example.com");
                      ("Origin", VStr "https://example.com")];
     headers := [("Accept", "application/json");
                 ("Content-Type", "application/json");
                 ("ApiKey", "")] |}.

End Cases.

(* ================================================================= *)
(** * Theorems *)

(** ** Base64: octets and six-bit groups *)

Section Groups.

Open Scope N_scope.

Lemma sextets_of_octets_3 a b c l :
  sextets_of_octets (a :: b :: c :: l) =
  a / 4 :: (a mod 4) * 16 + b / 16 :: (b mod 16) * 4 + c / 64 :: c mod 64
    :: sextets_of_octets l.
Proof. reflexivity. Qed.

Lemma octets_of_sextets_4 s t u v l :
  octets_of_sextets (s :: t :: u :: v :: l) =
  s * 4 + t / 16 :: (t mod 16) * 16 + u / 4 :: (u mod 4) * 64 + v
    :: octets_of_sextets l.
Proof. reflexivity. Qed.

Lemma canonical_sextets_4 s t u v l :
  canonical_sextets (s :: t :: u :: v :: l) = canonical_sextets l.
Proof. reflexivity. Qed.

Lemma sextets_bounded l :
  Forall (fun x => x < 256) l -> Forall (fun x => x < 64) (sextets_of_octets l).
Proof.
  induction l as [| a | a b | a b c l IH] using list_ind3; intros H.
  - constructor.
  - inversion_clear H. cbn [sextets_of_octets].
    repeat constructor; lia.
  - inversion_clear H as [| ? ? Ha H']. inversion_clear H' as [| ? ? Hb _].
    cbn [sextets_of_octets]. repeat constructor; lia.
  - inversion_clear H as [| ? ? Ha H']. inversion_clear H' as [| ? ? Hb H''].
    inversion_clear H'' as [| ? ? Hc Hl].
    rewrite sextets_of_octets_3.
    repeat (constructor; [lia |]). auto.
Qed.

Lemma octets_bounded l :
  Forall (fun x => x < 64) l -> Forall (fun x => x < 256) (octets_of_sextets l).
Proof.
  induction l as [| a | a b | a b c | a b c d l IH] using list_ind4; intros H.
  - constructor.
  - constructor.
  - inversion_clear H as [| ? ? Ha H']. inversion_clear H' as [| ? ? Hb _].
    cbn [octets_of_sextets]. repeat constructor; lia.
  - inversion_clear H as [| ? ? Ha H']. inversion_clear H' as [| ? ? Hb H''].
    inversion_clear H'' as [| ? ? Hc _].
    cbn [octets_of_sextets]. repeat constructor; lia.
  - inversion_clear H as [| ? ? Ha H']. inversion_clear H' as [| ? ? Hb H''].
    inversion_clear H'' as [| ? ? Hc H3]. inversion_clear H3 as [| ? ? Hd Hl].
    rewrite octets_of_sextets_4.
    repeat (constructor; [lia |]). auto.
Qed.

(** Decoding the groups of some octets gives the octets back. *)
Lemma octets_of_sextets_of_octets l :
  Forall (fun x => x < 256) l -> octets_of_sextets (sextets_of_octets l) = l.
Proof.
  induction l as [| a | a b | a b c l IH] using list_ind3; intros H.
  - reflexivity.
  - inversion_clear H. cbn [sextets_of_octets octets_of_sextets].
    f_equal. lia.
  - inversion_clear H as [| ? ? Ha H']. inversion_clear H' as [| ? ? Hb _].
    cbn [sextets_of_octets octets_of_sextets].
    f_equal; [lia | f_equal; lia].
  - inversion_clear H as [| ? ? Ha H']. inversion_clear H' as [| ? ? Hb H''].
    inversion_clear H'' as [| ? ? Hc Hl].
    rewrite sextets_of_octets_3, octets_of_sextets_4, (IH Hl).
    f_equal; [lia | f_equal; [lia | f_equal; lia]].
Qed.

(** The groups of some octets are canonical. *)
Lemma sextets_canonical l :
  canonical_sextets (sextets_of_octets l) = true.
Proof.
  induction l as [| a | a b | a b c l IH] using list_ind3.
  - reflexivity.
  - cbn [sextets_of_octets canonical_sextets]. apply N.eqb_eq. lia.
  - cbn [sextets_of_octets canonical_sextets]. apply N.eqb_eq. lia.
  - rewrite sextets_of_octets_3, canonical_sextets_4. exact IH.
Qed.

(** Encoding the octets of canonical groups gives the groups back. *)
Lemma sextets_of_octets_of_sextets l :
  Forall (fun x => x < 64) l -> canonical_sextets l = true ->
  sextets_of_octets (octets_of_sextets l) = l.
Proof.
  induction l as [| a | a b | a b c | a b c d l IH] using list_ind4;
    intros H Hc.
  - reflexivity.
  - discriminate.
  - inversion_clear H as [| ? ? Ha H']. inversion_clear H' as [| ? ? Hb _].
    cbn [canonical_sextets] in Hc. apply N.eqb_eq in Hc.
    cbn [sextets_of_octets octets_of_sextets].
    f_equal; [lia | f_equal; lia].
  - inversion_clear H as [| ? ? Ha H']. inversion_clear H' as [| ? ? Hb H''].
    inversion_clear H'' as [| ? ? Hc' _].
    cbn [canonical_sextets] in Hc. apply N.eqb_eq in Hc.
    cbn [sextets_of_octets octets_of_sextets].
    f_equal; [lia | f_equal; [lia | f_equal; lia]].
  - inversion_clear H as [| ? ? Ha H']. inversion_clear H' as [| ? ? Hb H''].
    inversion_clear H'' as [| ? ? Hc' H3]. inversion_clear H3 as [| ? ? Hd Hl].
    rewrite canonical_sextets_4 in Hc.
    rewrite octets_of_sextets_4, sextets_of_octets_3, (IH Hl Hc).
    f_equal; [lia | f_equal; [lia | f_equal; [lia | f_equal; lia]]].
Qed.

Lemma canonical_length l :
  canonical_sextets l = true -> (List.length l mod 4 =? 1)%nat = false.
Proof.
  induction l as [| a | a b | a b c | a b c d l IH] using list_ind4; intros H;
    try reflexivity; try discriminate.
  rewrite canonical_sextets_4 in H. specialize (IH H).
  change (List.length (a :: b :: c :: d :: l)) with (4 + List.length l)%nat.
  apply Nat.eqb_neq. apply Nat.eqb_neq in IH.
  rewrite Nat.Div0.add_mod by lia. 
  intros E. apply IH. 
  change (4 mod 4)%nat with 0%nat in E. rewrite Nat.add_0_l, Nat.Div0.mod_mod in E. exact E.
Qed.

End Groups.

(** ** Characters of the two alphabets *)

Section Alphabets.

Open Scope N_scope.

Lemma url_char_ok_all c : url_char_ok c = true.
Proof. destruct c as [[] [] [] [] [] [] [] []]; vm_compute; reflexivity. Qed.

Lemma std_char_ok_all c : std_char_ok c = true.
Proof. destruct c as [[] [] [] [] [] [] [] []]; vm_compute; reflexivity. Qed.

Lemma sextet_ok_all n : n < 64 -> sextet_ok n = true.
Proof.
  intros H.
  assert (Hall : forallb sextet_ok all_sextets = true) by (vm_compute; reflexivity).
  rewrite forallb_forall in Hall. apply Hall.
  unfold all_sextets. apply in_map_iff. exists (N.to_nat n). split.
  - apply N2Nat.id.
  - apply in_seq. lia.
Qed.

Lemma url_index_spec c n :
  b64url_index c = Some n ->
  n < 64 /\ b64url_char n = c /\ b64_index (to_std c) = Some n.
Proof.
  intros H. pose proof (url_char_ok_all c) as Hok.
  unfold url_char_ok in Hok. rewrite H in Hok.
  destruct (b64_index (to_std c)) as [m |] eqn:Hm.
  - repeat rewrite andb_true_iff in Hok.
    destruct Hok as [[[[H1 H2] H3] _] _].
    apply N.ltb_lt in H1. apply Ascii.eqb_eq in H2. apply N.eqb_eq in H3.
    subst m. auto.
  - repeat rewrite andb_true_iff in Hok.
    destruct Hok as [[[[_ _] H3] _] _]. discriminate.
Qed.

Lemma std_index_spec c n :
  b64_index c = Some n -> is_ascii_whitespace c = false /\ Ascii.eqb c "=" = false.
Proof.
  intros H. pose proof (std_char_ok_all c) as Hok.
  unfold std_char_ok in Hok. rewrite H in Hok.
  apply andb_true_iff in Hok. destruct Hok as [H1 H2].
  apply negb_true_iff in H1, H2. auto.
Qed.

Lemma sextet_spec n :
  n < 64 ->
  b64url_index (b64url_char n) = Some n
  /\ to_url (b64_char n) = b64url_char n
  /\ Ascii.eqb "=" (b64url_char n) = false
  /\ Ascii.eqb "+" (b64url_char n) = false
  /\ Ascii.eqb "/" (b64url_char n) = false.
Proof.
  intros H. pose proof (sextet_ok_all n H) as Hok. unfold sextet_ok in Hok.
  repeat rewrite andb_true_iff in Hok.
  destruct Hok as [[[[H1 H2] H3] H4] H5].
  apply Ascii.eqb_eq in H2. apply negb_true_iff in H3, H4, H5.
  destruct (b64url_index (b64url_char n)) as [m |]; [| discriminate].
  apply N.eqb_eq in H1. subst m. auto.
Qed.

End Alphabets.

(** ** Strings *)

Section Strings.

Lemma chars_str l : chars (str l) = l.
Proof. apply list_ascii_of_string_of_list_ascii. Qed.

Lemma str_chars s : str (chars s) = s.
Proof. apply string_of_list_ascii_of_string. Qed.

Lemma chars_replace_char a b s :
  chars (replace_char a b s) =
  map (fun c => if Ascii.eqb c a then b else c) (chars s).
Proof. unfold replace_char. apply chars_str. Qed.

Lemma chars_to_std s :
  chars (replace_char "_" "/" (replace_char "-" "+" s)) = map to_std (chars s).
Proof.
  rewrite !chars_replace_char, map_map. reflexivity.
Qed.

Lemma chars_to_url s :
  chars (replace_char "/" "_" (replace_char "+" "-" s)) = map to_url (chars s).
Proof.
  rewrite !chars_replace_char, map_map. reflexivity.
Qed.

Lemma drop_while_all p l1 l2 :
  Forall (fun c => p c = true) l1 -> drop_while p (l1 ++ l2) = drop_while p l2.
Proof.
  induction 1 as [| c l Hc _ IH]; [reflexivity |].
  cbn [app drop_while]. rewrite Hc. exact IH.
Qed.

Lemma drop_while_head p c l : p c = false -> drop_while p (c :: l) = c :: l.
Proof. intros H. cbn [drop_while]. rewrite H. reflexivity. Qed.

(** Stripping touches nothing but a run of [=] at the end. *)
Lemma strip_after l pad :
  Forall (fun c => Ascii.eqb "=" c = false) l ->
  Forall (fun c => Ascii.eqb "=" c = true) pad ->
  strip_trailing_eq (str (l ++ pad)) = str l.
Proof.
  intros Hl Hpad. unfold strip_trailing_eq. rewrite chars_str, rev_app_distr.
  rewrite drop_while_all by (apply Forall_rev; exact Hpad).
  f_equal. destruct (rev l) as [| c r] eqn:E.
  - apply (f_equal (@rev _)) in E. rewrite rev_involutive in E. subst l. reflexivity.
  - rewrite drop_while_head.
    + rewrite <- E. apply rev_involutive.
    + rewrite Forall_forall in Hl. apply Hl. apply in_rev. rewrite E. left. reflexivity.
Qed.

Lemma drop_while_incl p l c : In c (drop_while p l) -> In c l.
Proof.
  induction l as [| d l IH]; [auto |].
  cbn [drop_while]. destruct (p d); [right; auto | auto].
Qed.

Lemma drop_while_hd p l c r : drop_while p l = c :: r -> p c = false.
Proof.
  induction l as [| d l IH]; [discriminate |].
  cbn [drop_while]. destruct (p d) eqn:E; [exact IH |].
  intros H. injection H as -> _. exact E.
Qed.

End Strings.

(** ** The codec *)

Section CodecFacts.

Open Scope N_scope.

Lemma octets_of_binary_string bs :
  map N_of_ascii (chars (binary_string_of_bytes bs)) = map Byte.to_N bs.
Proof.
  unfold binary_string_of_bytes. rewrite chars_str, map_map.
  apply map_ext. intros b. rewrite ascii_of_byte_via_N.
  apply N_ascii_embedding. pose proof (Byte.to_N_bounded b). lia.
Qed.

Lemma bytes_bounded bs : Forall (fun x => x < 256) (map Byte.to_N bs).
Proof.
  apply Forall_forall. intros x Hx. apply in_map_iff in Hx.
  destruct Hx as [b [<- _]]. pose proof (Byte.to_N_bounded b). lia.
Qed.

Lemma padding_all_eq n : Forall (fun c => Ascii.eqb "=" c = true) (padding n).
Proof.
  unfold padding. destruct (n mod 3)%nat as [| [| [| k]]]; repeat constructor.
Qed.

Lemma url_text_of_sextets ns :
  Forall (fun x => x < 64) ns ->
  sextets_of_url_text (map b64url_char ns) = Some ns.
Proof.
  induction 1 as [| n ns Hn _ IH]; [reflexivity |].
  cbn [map sextets_of_url_text].
  destruct (sextet_spec n Hn) as [-> _]. rewrite IH. reflexivity.
Qed.

Lemma sextets_of_url_text_inv l ns :
  sextets_of_url_text l = Some ns ->
  Forall (fun x => x < 64) ns /\ map b64url_char ns = l
  /\ sextets_of_text (map to_std l) = Some ns.
Proof.
  revert ns. induction l as [| c l IH]; intros ns H.
  - injection H as <-. repeat split. constructor.
  - cbn [sextets_of_url_text] in H.
    destruct (b64url_index c) as [n |] eqn:Hc; [| discriminate].
    destruct (sextets_of_url_text l) as [ms |]; [| discriminate].
    injection H as <-.
    destruct (IH ms eq_refl) as [Hb [Hm Hs]].
    destruct (url_index_spec c n Hc) as [Hn [Hch Hstd]].
    repeat split.
    + constructor; assumption.
    + cbn [map]. rewrite Hch, Hm. reflexivity.
    + cbn [map sextets_of_text]. rewrite Hstd, Hs. reflexivity.
Qed.

Lemma sextets_of_text_chars l ns :
  sextets_of_text l = Some ns ->
  List.length l = List.length ns
  /\ Forall (fun c => is_ascii_whitespace c = false) l
  /\ Forall (fun c => Ascii.eqb c "=" = false) l.
Proof.
  revert ns. induction l as [| c l IH]; intros ns H.
  - injection H as <-. repeat split; constructor.
  - cbn [sextets_of_text] in H.
    destruct (b64_index c) as [n |] eqn:Hc; [| discriminate].
    destruct (sextets_of_text l) as [ms |]; [| discriminate].
    injection H as <-.
    destruct (IH ms eq_refl) as [Hlen [Hw He]].
    destruct (std_index_spec c n Hc) as [Hcw Hce].
    repeat split.
    + cbn [List.length]. rewrite Hlen. reflexivity.
    + constructor; assumption.
    + constructor; assumption.
Qed.

Lemma filter_all {A} (p : A -> bool) l :
  Forall (fun c => p c = true) l -> filter p l = l.
Proof.
  induction 1 as [| c l Hc _ IH]; [reflexivity |].
  cbn [filter]. rewrite Hc, IH. reflexivity.
Qed.

Lemma strip_padding_none l :
  Forall (fun c => Ascii.eqb c "=" = false) l -> strip_padding l = l.
Proof.
  intros H. unfold strip_padding.
  destruct (List.length l mod 4 =? 0)%nat; [| reflexivity].
  destruct (rev l) as [| c1 [| c2 r]] eqn:E; try reflexivity.
  assert (Hc : Ascii.eqb c1 "=" = false).
  { rewrite Forall_forall in H. apply H. apply in_rev. rewrite E. left. reflexivity. }
  rewrite Hc. reflexivity.
Qed.

(** [atob] on a text without white space and padding. *)
Lemma atob_plain l ns :
  sextets_of_text l = Some ns ->
  (List.length ns mod 4 =? 1)%nat = false ->
  atob (str l) = Normal (str (map ascii_of_N (octets_of_sextets ns))).
Proof.
  intros H Hlen. destruct (sextets_of_text_chars l ns H) as [Hl [Hw He]].
  unfold atob. rewrite chars_str.
  rewrite filter_all.
  2:{ eapply Forall_impl; [| exact Hw]. cbn. intros c Hc. rewrite Hc. reflexivity. }
  rewrite (strip_padding_none l He), Hl, Hlen, H. reflexivity.
Qed.

Lemma byte_of_octet_to_N b : byte_of_octet (Byte.to_N b) = b.
Proof.
  unfold byte_of_octet. rewrite <- ascii_of_byte_via_N.
  apply byte_of_ascii_of_byte.
Qed.

Lemma to_N_byte_of_octet n : n < 256 -> Byte.to_N (byte_of_octet n) = n.
Proof.
  intros H. unfold byte_of_octet.
  apply Byte.to_of_N. rewrite byte_of_ascii_via_N.
  rewrite N_ascii_embedding by exact H. reflexivity.
Qed.

(** What [coerceToArrayBuffer] computes on a text of the URL-safe alphabet. *)
Lemma decode_spec t ns :
  sextets_of_url_text (chars t) = Some ns ->
  (List.length ns mod 4 =? 1)%nat = false ->
  decode t = Normal (VArrayBuffer (map byte_of_octet (octets_of_sextets ns))).
Proof.
  intros H Hlen.
  destruct (sextets_of_url_text_inv _ _ H) as [_ [_ Hstd]].
  unfold decode, coerceToArrayBuffer.
  rewrite <- (str_chars (replace_char "_" "/" (replace_char "-" "+" t))).
  rewrite chars_to_std, (atob_plain _ _ Hstd Hlen).
  cbn [cbind]. unfold bytes_of_binary_string.
  rewrite chars_str, map_map. reflexivity.
Qed.

(** What [coerceToBase64Url] computes on bytes. *)
Lemma encode_spec bs :
  encode bs =
  Normal (VStr (str (map b64url_char (sextets_of_octets (map Byte.to_N bs))))).
Proof.
  unfold encode, coerceToBase64Url. cbn [cbind].
  do 2 f_equal.
  rewrite <- (str_chars (replace_char "/" "_" (replace_char "+" "-" _))).
  rewrite chars_to_url. unfold btoa.
  rewrite chars_str, octets_of_binary_string, map_app.
  pose proof (sextets_bounded _ (bytes_bounded bs)) as Hb.
  set (ns := sextets_of_octets (map Byte.to_N bs)) in *.
  assert (Hm : map to_url (map b64_char ns) = map b64url_char ns).
  { rewrite map_map. apply map_ext_in. intros n Hn.
    rewrite Forall_forall in Hb. apply (sextet_spec n (Hb n Hn)). }
  assert (Hp : map to_url (padding (List.length (map Byte.to_N bs)))
               = padding (List.length (map Byte.to_N bs))).
  { unfold padding.
    destruct (List.length (map Byte.to_N bs) mod 3)%nat as [| [| [| k]]]; reflexivity. }
  rewrite Hm, Hp. apply strip_after.
  - apply Forall_forall. intros c Hc. apply in_map_iff in Hc.
    destruct Hc as [n [<- Hn]]. rewrite Forall_forall in Hb.
    apply (sextet_spec n (Hb n Hn)).
  - apply padding_all_eq.
Qed.

Lemma encode_view bs : coerceToBase64Url (VUint8Array bs) = encode bs.
Proof. reflexivity. Qed.

Lemma decode_encode bs t :
  encode bs = Normal (VStr t) -> decode t = Normal (VArrayBuffer bs).
Proof.
  rewrite encode_spec. intros H. injection H as <-.
  pose proof (sextets_bounded _ (bytes_bounded bs)) as Hb.
  rewrite (decode_spec _ (sextets_of_octets (map Byte.to_N bs))).
  - rewrite octets_of_sextets_of_octets by apply bytes_bounded.
    rewrite map_map. do 2 f_equal.
    rewrite <- (map_id bs) at 2. apply map_ext. apply byte_of_octet_to_N.
  - rewrite chars_str. apply url_text_of_sextets, Hb.
  - apply canonical_length, sextets_canonical.
Qed.

Lemma encode_decode t :
  canonical_text t = true ->
  exists bs, decode t = Normal (VArrayBuffer bs) /\ encode bs = Normal (VStr t).
Proof.
  unfold canonical_text. intros H.
  destruct (sextets_of_url_text (chars t)) as [ns |] eqn:Hns; [| discriminate].
  destruct (sextets_of_url_text_inv _ _ Hns) as [Hb [Hm _]].
  exists (map byte_of_octet (octets_of_sextets ns)). split.
  - apply decode_spec; [exact Hns | apply canonical_length, H].
  - rewrite encode_spec. do 2 f_equal.
    rewrite map_map.
    assert (E : map (fun x => Byte.to_N (byte_of_octet x)) (octets_of_sextets ns)
                = octets_of_sextets ns).
    { rewrite <- (map_id (octets_of_sextets ns)) at 2.
      apply map_ext_in. intros n Hn. apply to_N_byte_of_octet.
      pose proof (octets_bounded _ Hb) as Ho. rewrite Forall_forall in Ho. auto. }
    rewrite E, (sextets_of_octets_of_sextets _ Hb H), Hm. apply str_chars.
Qed.

(** The texts [coerceToBase64Url] produces are the canonical ones. *)
Lemma canonical_iff_encoded t :
  canonical_text t = true <-> exists bs, encode bs = Normal (VStr t).
Proof.
  split.
  - intros H. destruct (encode_decode t H) as [bs [_ E]]. exists bs. exact E.
  - intros [bs E]. rewrite encode_spec in E. injection E as <-.
    unfold canonical_text. rewrite chars_str.
    rewrite url_text_of_sextets by apply sextets_bounded, bytes_bounded.
    apply sextets_canonical.
Qed.

Lemma canonical_valid t : canonical_text t = true -> valid_text t = true.
Proof.
  unfold canonical_text, valid_text.
  destruct (sextets_of_url_text (chars t)); [| discriminate].
  intros H. rewrite (canonical_length _ H). reflexivity.
Qed.

End CodecFacts.

Section UrlSafeOutput.

Open Scope string_scope.

Lemma to_url_safe c :
  Ascii.eqb "+" (to_url c) = false /\ Ascii.eqb "/" (to_url c) = false.
Proof. destruct c as [[] [] [] [] [] [] [] []]; vm_compute; auto. Qed.

(** The last step of [coerceToBase64Url], whatever the string it is given. *)
Lemma url_form s :
  let t := strip_trailing_eq (replace_char "/" "_" (replace_char "+" "-" s)) in
  contains "+" t = false /\ contains "/" t = false /\ ends_with "=" t = false.
Proof.
  cbn zeta. unfold contains, ends_with, strip_trailing_eq.
  rewrite chars_str, chars_to_url, rev_involutive.
  set (l := drop_while (Ascii.eqb "=") (rev (map to_url (chars s)))).
  assert (Hin : forall c, In c (rev l) -> exists x, c = to_url x).
  { intros c Hc. apply in_rev in Hc. apply drop_while_incl in Hc.
    apply in_rev in Hc. apply in_map_iff in Hc. destruct Hc as [x [<- _]].
    exists x. reflexivity. }
  repeat split.
  - destruct (existsb (Ascii.eqb "+") (rev l)) eqn:E; [| reflexivity].
    apply existsb_exists in E. destruct E as [c [Hc Hp]].
    destruct (Hin c Hc) as [x ->].
    destruct (to_url_safe x) as [H _]. congruence.
  - destruct (existsb (Ascii.eqb "/") (rev l)) eqn:E; [| reflexivity].
    apply existsb_exists in E. destruct E as [c [Hc Hp]].
    destruct (Hin c Hc) as [x ->].
    destruct (to_url_safe x) as [_ H]. congruence.
  - destruct l as [| c r] eqn:E; [reflexivity |].
    apply (drop_while_hd _ _ _ _ E).
Qed.

Lemma to_uint8_list_numbers l :
  forallb (fun x => match x with VNum _ => true | _ => false end) l = true ->
  exists bs, to_uint8_list l = Normal bs.
Proof.
  induction l as [| v l IH]; intros H.
  - exists []. reflexivity.
  - cbn [forallb] in H. apply andb_true_iff in H. destruct H as [Hv Hl].
    destruct v; try discriminate. destruct (IH Hl) as [bs E].
    exists (byte_of_Z n :: bs). cbn [to_uint8_list to_uint8 cbind].
    rewrite E. reflexivity.
Qed.

End UrlSafeOutput.

Section CodecClaims.

Open Scope string_scope.

(** C1, as amended.  Encoding then decoding gives back every byte sequence;
    decoding then encoding gives back every text that is canonical, that is,
    every text [coerceToBase64Url] can produce: URL-safe alphabet, no
    padding, the unused low bits of the last group zero. *)
Theorem codec_round_trip :
  (forall b : list byte,
     exists t, encode b = Normal (VStr t)
               /\ coerceToBase64Url (VUint8Array b) = Normal (VStr t)
               /\ decode t = Normal (VArrayBuffer b))
  /\ (forall t : string,
        canonical_text t = true ->
        exists b, decode t = Normal (VArrayBuffer b)
                  /\ encode b = Normal (VStr t)).
Proof.
  split.
  - intros b. eexists. split; [apply encode_spec |].
    split; [rewrite encode_view; apply encode_spec |].
    apply decode_encode, encode_spec.
  - apply encode_decode.
Qed.

Lemma codec_round_trip_witness :
  canonical_text "AQID" = true
  /\ exists b, decode "AQID" = Normal (VArrayBuffer b)
               /\ encode b = Normal (VStr "AQID").
Proof.
  split; [reflexivity |].
  apply (proj2 codec_round_trip "AQID"). reflexivity.
Defined.

(** C1, as stated, fails: ["QR"] is a text of the URL-safe alphabet without
    padding that [coerceToArrayBuffer] accepts, yet encoding its bytes
    gives ["QQ"]. *)
Lemma codec_round_trip_counterexample :
  valid_text "QR" = true
  /\ decode "QR" = Normal (VArrayBuffer ["A"%byte])
  /\ encode ["A"%byte] = Normal (VStr "QQ")
  /\ ~ (exists b, decode "QR" = Normal (VArrayBuffer b)
                  /\ encode b = Normal (VStr "QR")).
Proof.
  split; [reflexivity |]. split; [reflexivity |]. split; [reflexivity |].
  intros [b [Hd He]].
  assert (E : decode "QR" = Normal (VArrayBuffer ["A"%byte])) by reflexivity.
  rewrite E in Hd. injection Hd as <-.
  vm_compute in He. discriminate He.
Qed.

(** C9.  On a buffer, a view or an array of numbers [coerceToBase64Url]
    returns a text, and that text contains no [+], no [/] and does not end
    in [=]. *)
Theorem encode_output_is_url_safe (v : value) :
  bytes_like v = true ->
  exists t, coerceToBase64Url v = Normal (VStr t)
            /\ contains "+" t = false
            /\ contains "/" t = false
            /\ ends_with "=" t = false.
Proof.
  intros H.
  assert (Hb : exists bs, coerceToBase64Url v
                          = Normal (VStr (strip_trailing_eq
                              (replace_char "/" "_" (replace_char "+" "-"
                                 (btoa (binary_string_of_bytes bs))))))).
  { destruct v; try discriminate.
    - destruct (to_uint8_list_numbers _ H) as [bs E]. exists bs.
      unfold coerceToBase64Url, new_Uint8Array. rewrite E. reflexivity.
    - exists bytes. reflexivity.
    - exists bytes. reflexivity. }
  destruct Hb as [bs E]. eexists. split; [exact E |]. apply url_form.
Qed.

Lemma encode_output_is_url_safe_witness :
  bytes_like (VArray [VNum 251; VNum 255; VNum 191; VNum 62]) = true
  /\ exists t, coerceToBase64Url (VArray [VNum 251; VNum 255; VNum 191; VNum 62])
               = Normal (VStr t)
               /\ contains "+" t = false
               /\ contains "/" t = false
               /\ ends_with "=" t = false.
Proof.
  split; [reflexivity |].
  apply (encode_output_is_url_safe
           (VArray [VNum 251; VNum 255; VNum 191; VNum 62])).
  reflexivity.
Defined.

End CodecClaims.

(** ** The cookie jar *)

Section CookieFacts.

Open Scope string_scope.

Lemma chars_append a b : chars (a ++ b) = (chars a ++ chars b)%list.
Proof.
  induction a as [| c a IH]; [reflexivity |].
  cbn [append]. unfold chars in *. cbn [list_ascii_of_string].
  rewrite IH. reflexivity.
Qed.

Lemma is_prefix_mismatch c sep d l :
  Ascii.eqb c d = false -> is_prefix (c :: sep) (d :: l) = false.
Proof. intros H. cbn [is_prefix]. rewrite H. reflexivity. Qed.

Lemma is_prefix_app p l : is_prefix p (p ++ l) = true.
Proof.
  induction p as [| c p IH]; [reflexivity |].
  cbn [app is_prefix]. rewrite Ascii.eqb_refl, IH. reflexivity.
Qed.

(** A piece without the first character of the separator is passed over. *)
Lemma split_from_piece c sep x cur rest :
  Forall (fun d => Ascii.eqb c d = false) x ->
  split_from (c :: sep) 0 cur (x ++ rest)
  = split_from (c :: sep) 0 (rev x ++ cur) rest.
Proof.
  intros H. revert cur. induction H as [| d x Hd _ IH]; intros cur.
  - reflexivity.
  - cbn [app split_from]. rewrite (is_prefix_mismatch _ _ _ _ Hd).
    rewrite IH. cbn [rev]. rewrite <- app_assoc. reflexivity.
Qed.

Lemma split_from_skip sep k cur rest :
  split_from sep (List.length k) cur (k ++ rest) = split_from sep 0 cur rest.
Proof.
  induction k as [| d k IH]; [reflexivity |].
  cbn [List.length app split_from]. exact IH.
Qed.

Lemma split_last c sep x :
  Forall (fun d => Ascii.eqb c d = false) x ->
  split_from (c :: sep) 0 [] x = [str x].
Proof.
  intros H. rewrite <- (app_nil_r x) at 1.
  rewrite split_from_piece by exact H.
  cbn [split_from]. rewrite app_nil_r, rev_involutive. reflexivity.
Qed.

Lemma split_cons c sep x rest :
  Forall (fun d => Ascii.eqb c d = false) x ->
  split_from (c :: sep) 0 [] (x ++ (c :: sep) ++ rest)
  = str x :: split_from (c :: sep) 0 [] rest.
Proof.
  intros H. rewrite split_from_piece by exact H.
  rewrite app_nil_r.
  cbn [app split_from].
  change (c :: (sep ++ rest)%list) with ((c :: sep) ++ rest)%list.
  rewrite is_prefix_app, rev_involutive.
  replace (List.length (c :: sep) - 1)%nat with (List.length sep)
    by (cbn [List.length]; lia).
  f_equal. apply split_from_skip.
Qed.

Lemma free_of_contains c s : contains c s = false -> free_of c s.
Proof.
  unfold contains, free_of. intros H. apply Forall_forall. intros d Hd.
  destruct (Ascii.eqb c d) eqn:E; [| reflexivity].
  rewrite <- H. symmetry. apply existsb_exists. exists d. auto.
Qed.

Lemma cookie_name_free n c :
  is_cookie_name n = true ->
  (is_alphanumeric c || contains c "-_.") = false ->
  free_of c n.
Proof.
  unfold is_cookie_name, free_of. intros H Hc.
  apply andb_true_iff in H. destruct H as [_ H].
  rewrite forallb_forall in H. apply Forall_forall. intros d Hd.
  destruct (Ascii.eqb c d) eqn:E; [| reflexivity].
  apply Ascii.eqb_eq in E. subst d. rewrite (H c Hd) in Hc. discriminate.
Qed.

Lemma free_of_append c a b : free_of c a -> free_of c b -> free_of c (a ++ b).
Proof.
  unfold free_of. intros Ha Hb. rewrite chars_append.
  apply Forall_app. auto.
Qed.

Lemma split_join_pieces x l :
  Forall (free_of ";") (x :: l) -> split "; " (join "; " (x :: l)) = x :: l.
Proof.
  revert x. induction l as [| y l IH]; intros x H.
  - inversion_clear H as [| ? ? Hx _]. cbn [join]. unfold split.
    change (chars "; ") with [";"%char; " "%char].
    rewrite (split_last _ _ _ Hx). rewrite str_chars. reflexivity.
  - inversion_clear H as [| ? ? Hx Hl].
    change (join "; " (x :: y :: l)) with (x ++ "; " ++ join "; " (y :: l)).
    unfold split. rewrite !chars_append.
    change (chars "; ") with [";"%char; " "%char].
    rewrite (split_cons _ _ _ _ Hx), str_chars. f_equal.
    apply (IH y Hl).
Qed.

(** A cookie of another name leaves the result of the search as it is. *)
Lemma getCookie_step_other name r n v :
  is_cookie_name n = true -> String.eqb n name = false ->
  getCookie_step name (Normal r) (n ++ "=" ++ v) = Normal r.
Proof.
  intros Hn Hne. unfold getCookie_step, split. cbn [cbind].
  rewrite !chars_append. change (chars "=") with ["="%char].
  rewrite split_cons by (apply (cookie_name_free n "=" Hn); reflexivity).
  cbn [nth]. rewrite str_chars, Hne. reflexivity.
Qed.

(** The cookie of the name sought, when its value is [1]. *)
Lemma getCookie_step_hit name r :
  is_cookie_name name = true ->
  getCookie_step name (Normal r) (name ++ "=" ++ "1") = Normal "1".
Proof.
  intros Hn. unfold getCookie_step, split. cbn [cbind].
  rewrite !chars_append. change (chars "=") with ["="%char].
  rewrite split_cons by (apply (cookie_name_free name "=" Hn); reflexivity).
  cbn [nth]. rewrite str_chars, String.eqb_refl. reflexivity.
Qed.

Lemma fold_others name l r :
  Forall (fun p => is_cookie_name (fst p) = true
                   /\ String.eqb (fst p) name = false) l ->
  fold_left (getCookie_step name) (map render l) (Normal r) = Normal r.
Proof.
  induction 1 as [| [n v] l [Hn Hne] _ IH]; [reflexivity |].
  cbn [fst] in Hn, Hne.
  cbn [map fold_left]. change (render (n, v)) with (n ++ "=" ++ v).
  rewrite (getCookie_step_other _ _ _ _ Hn Hne). exact IH.
Qed.

Lemma well_formed_pieces j :
  well_formed j = true -> Forall (free_of ";") (map render j).
Proof.
  induction j as [| [n v] j IH]; intros H; [constructor |].
  cbn [well_formed] in H. repeat rewrite andb_true_iff in H.
  destruct H as [[[Hn Hv] _] Hj].
  cbn [map]. constructor; [| auto].
  unfold render. cbn [fst snd].
  apply free_of_append; [apply (cookie_name_free n ";" Hn); reflexivity |].
  apply free_of_append; [repeat constructor |].
  apply free_of_contains. apply negb_true_iff. exact Hv.
Qed.

Lemma existsb_name_false (name : string) (j : jar) :
  existsb (fun p => String.eqb (fst p) name) j = false ->
  Forall (fun p => String.eqb (fst p) name = false) j.
Proof.
  induction j as [| p j IH]; intros H; [constructor |].
  cbn [existsb] in H. apply orb_false_iff in H. destruct H as [Hp Hj].
  constructor; auto.
Qed.

Lemma well_formed_names j :
  well_formed j = true -> Forall (fun p => is_cookie_name (fst p) = true) j.
Proof.
  induction j as [| [n v] j IH]; intros H; [constructor |].
  cbn [well_formed] in H. repeat rewrite andb_true_iff in H.
  destruct H as [[[Hn _] _] Hj]. constructor; auto.
Qed.

(** Where the stored cookie stands in the jar. *)
Lemma store_shape name v j :
  well_formed j = true ->
  exists l1 l2 old,
    store name v j = (l1 ++ (name, v) :: l2)%list
    /\ (j = (l1 ++ l2)%list \/ j = (l1 ++ (name, old) :: l2)%list)
    /\ Forall (fun p => String.eqb (fst p) name = false) l1
    /\ Forall (fun p => String.eqb (fst p) name = false) l2.
Proof.
  induction j as [| [n w] j IH]; intros H.
  - exists [], [], "". repeat split; auto.
  - cbn [well_formed] in H. repeat rewrite andb_true_iff in H.
    destruct H as [[[Hn Hv] Hu] Hj]. cbn [store].
    destruct (String.eqb name n) eqn:E.
    + apply String.eqb_eq in E. subst n.
      exists [], j, w. repeat split; auto.
      apply existsb_name_false. apply negb_true_iff. exact Hu.
    + destruct (IH Hj) as [l1 [l2 [old [Hs [Hj' [H1 H2]]]]]].
      exists ((n, w) :: l1), l2, old. repeat split; auto.
      * cbn [app]. rewrite Hs. reflexivity.
      * destruct Hj' as [-> | ->]; [left | right]; reflexivity.
      * constructor; [| exact H1]. cbn [fst].
        rewrite String.eqb_sym. exact E.
Qed.

Lemma Forall_and_names (name : string) (l j : jar) :
  Forall (fun p => is_cookie_name (fst p) = true) j ->
  incl l j ->
  Forall (fun p => String.eqb (fst p) name = false) l ->
  Forall (fun p => is_cookie_name (fst p) = true
                   /\ String.eqb (fst p) name = false) l.
Proof.
  intros Hj Hi Hl. rewrite Forall_forall in *. intros p Hp. split; auto.
Qed.

(** After the hint is stored, the search for it finds [1]. *)
Lemma getCookie_after_store j :
  well_formed j = true ->
  getCookie "hint-passwordless" (store "hint-passwordless" "1" j) = Normal "1".
Proof.
  intros H. set (name := "hint-passwordless").
  assert (Hname : is_cookie_name name = true) by reflexivity.
  destruct (store_shape name "1" j H) as [l1 [l2 [old [Hs [Hj [H1 H2]]]]]].
  pose proof (well_formed_names j H) as Hnames.
  pose proof (well_formed_pieces j H) as Hpieces.
  assert (Hi1 : incl l1 j) by (destruct Hj as [-> | ->]; apply incl_appl, incl_refl).
  assert (Hi2 : incl l2 j).
  { destruct Hj as [-> | ->]; [apply incl_appr, incl_refl |].
    apply incl_appr, incl_tl, incl_refl. }
  assert (Hfree : Forall (free_of ";") (map render (l1 ++ (name, "1") :: l2))).
  { rewrite Forall_forall in Hpieces. apply Forall_forall. intros x Hx.
    apply in_map_iff in Hx. destruct Hx as [p [<- Hp]].
    apply in_app_or in Hp. destruct Hp as [Hp | [<- | Hp]].
    - apply Hpieces, in_map, Hi1, Hp.
    - unfold render. cbn [fst snd].
      apply free_of_append;
        [apply (cookie_name_free name ";" Hname); reflexivity |].
      repeat constructor.
    - apply Hpieces, in_map, Hi2, Hp. }
  unfold getCookie, document_cookie. fold render. rewrite Hs.
  destruct (map render (l1 ++ (name, "1") :: l2)) as [| x l] eqn:E.
  { destruct l1; discriminate E. }
  rewrite (split_join_pieces x l Hfree), <- E.
  rewrite map_app, fold_left_app.
  rewrite (fold_others name l1 "")
    by (apply (Forall_and_names name l1 j); assumption).
  cbn [map fold_left]. change (render (name, "1")) with (name ++ "=" ++ "1").
  rewrite (getCookie_step_hit name "" Hname).
  apply fold_others. apply (Forall_and_names name l2 j); assumption.
Qed.

End CookieFacts.

(** ** The ceremonies *)

Section Objects.

Open Scope string_scope.

Lemma lookup_update_same k v props : lookup k (update k v props) = Some v.
Proof.
  induction props as [| [k' v'] props IH]; cbn [update lookup].
  - rewrite String.eqb_refl. reflexivity.
  - destruct (String.eqb k k') eqn:E; cbn [lookup]; rewrite ?String.eqb_refl, ?E; auto.
Qed.

Lemma lookup_update_other k k' v props :
  String.eqb k' k = false -> lookup k' (update k v props) = lookup k' props.
Proof.
  intros Hne. induction props as [| [k0 v0] props IH]; cbn [update lookup].
  - rewrite Hne. reflexivity.
  - destruct (String.eqb k k0) eqn:E; cbn [lookup].
    + apply String.eqb_eq in E. subst k0. rewrite Hne. reflexivity.
    + rewrite IH. reflexivity.
Qed.

Lemma set_inv o k v o' :
  set o k v = Normal o' ->
  exists props, o = VObject props /\ o' = VObject (update k v props).
Proof.
  destruct o; try discriminate. intros H. injection H as <-.
  eexists. split; reflexivity.
Qed.

Lemma get_set_same o k v o' : set o k v = Normal o' -> get o' k = Normal v.
Proof.
  intros H. destruct (set_inv _ _ _ _ H) as [props [-> ->]].
  cbn [get]. rewrite lookup_update_same. reflexivity.
Qed.

Lemma get_set_other o k v o' k' :
  set o k v = Normal o' -> String.eqb k' k = false -> get o' k' = get o k'.
Proof.
  intros H Hne. destruct (set_inv _ _ _ _ H) as [props [-> ->]].
  cbn [get]. rewrite (lookup_update_other _ _ _ _ Hne). reflexivity.
Qed.

Lemma has_own_set o k v o' : set o k v = Normal o' -> has_own o' k = true.
Proof.
  intros H. destruct (set_inv _ _ _ _ H) as [props [-> ->]].
  cbn [has_own]. rewrite lookup_update_same. reflexivity.
Qed.

Lemma coerce_field_other o k o' k' :
  coerce_field o k = Normal o' -> String.eqb k' k = false ->
  get o' k' = get o k'.
Proof.
  unfold coerce_field. intros H Hne.
  destruct (get o k) as [v | |]; try discriminate. cbn [cbind] in H.
  destruct (coerceToArrayBuffer v) as [b | |]; try discriminate.
  cbn [cbind] in H. apply (get_set_other _ _ _ _ _ H Hne).
Qed.

(** What [register_adapt] does to the attachment preference when the
    server sent [null]. *)
Lemma register_adapt_null options adapted :
  register_adapt options = Normal adapted ->
  get_path options ["authenticatorSelection"; "authenticatorAttachment"]
    = Normal VNull ->
  exists selection,
    get adapted "authenticatorSelection" = Normal selection
    /\ get selection "authenticatorAttachment" = Normal VUndefined
    /\ has_own selection "authenticatorAttachment" = true.
Proof.
  unfold register_adapt. intros H Hnull.
  destruct (coerce_field options "challenge") as [o1 | |] eqn:E1;
    try discriminate. cbn [cbind] in H.
  destruct (get o1 "user") as [user | |]; try discriminate. cbn [cbind] in H.
  destruct (coerce_field user "id") as [user' | |]; try discriminate.
  cbn [cbind] in H.
  destruct (set o1 "user" user') as [o2 | |] eqn:E2; try discriminate.
  cbn [cbind] in H.
  destruct (get o2 "excludeCredentials") as [ex | |]; try discriminate.
  cbn [cbind] in H.
  destruct (array_map "map" ex _) as [ex' | |]; try discriminate.
  cbn [cbind] in H.
  destruct (set o2 "excludeCredentials" ex') as [o3 | |] eqn:E3;
    try discriminate. cbn [cbind] in H.
  assert (Hsel : get o3 "authenticatorSelection"
                 = get options "authenticatorSelection").
  { rewrite (get_set_other _ _ _ _ _ E3) by reflexivity.
    rewrite (get_set_other _ _ _ _ _ E2) by reflexivity.
    apply (coerce_field_other _ _ _ _ E1). reflexivity. }
  rewrite Hsel in H. cbn [get_path] in Hnull.
  destruct (get options "authenticatorSelection") as [sel | |];
    try discriminate. cbn [cbind] in H, Hnull.
  destruct (get sel "authenticatorAttachment") as [att | |];
    try discriminate. cbn [cbind] in H, Hnull.
  injection Hnull as ->. cbn [is_null] in H.
  destruct (set sel "authenticatorAttachment" VUndefined) as [sel' | |] eqn:E4;
    try discriminate. cbn [cbind] in H.
  exists sel'. split; [apply (get_set_same _ _ _ _ H) |].
  split; [apply (get_set_same _ _ _ _ E4) | apply (has_own_set _ _ _ _ E4)].
Qed.

End Objects.

Section Urls.

Open Scope string_scope.

Lemma append_inv a x y : a ++ x = a ++ y -> x = y.
Proof.
  induction a as [| c a IH]; [auto |].
  cbn [append]. intros H. injection H as H. auto.
Qed.

Lemma eqb_append a x y : String.eqb (a ++ x) (a ++ y) = String.eqb x y.
Proof.
  induction a as [| c a IH]; [reflexivity |].
  cbn [append String.eqb]. rewrite Ascii.eqb_refl. exact IH.
Qed.

End Urls.

Lemma setHint_hint this w :
  setHint this "hint-passwordless" w
  = (Normal tt, {| cookies := hinted this (cookies w); events := events w |}).
Proof.
  unfold setHint, hinted.
  destruct (is_string_literal (useHints this) "cookie"); [reflexivity |].
  destruct w; reflexivity.
Qed.

(** Symbolic execution of a ceremony: every outcome of every step. *)
Ltac break_run H :=
  repeat (cbn [cookies events app fst snd] in H;
          rewrite ?setHint_hint in H;
          match type of H with
          | context [match ?x with _ => _ end] =>
              match x with
              | context [match _ with _ => _ end] => fail 1
              | _ => destruct x eqn:?
              end
          end).

Ltac unfold_client H :=
  unfold register, signin, registerBegin, registerComplete, signinBegin,
    signinComplete, do_fetch, do_create, do_get, console, try_catch, bind,
    lift, emit, throw, ret, fresh in H;
  cbn [cookies events app fst snd] in H.

Ltac run H :=
  unfold_client H; break_run H;
  match type of H with
  | (_, _) = (_, _) => injection H as <- <-
  end.

(** The cases of [In ev l] for an explicit list. *)
Ltac among H :=
  cbn [events app In] in H;
  repeat match type of H with
         | _ \/ _ => destruct H as [H | H]
         end;
  try contradiction; try discriminate H.

Ltac same_url H :=
  match type of H with
  | (?a ++ ?x)%string = (?a ++ ?y)%string =>
      apply append_inv in H; try discriminate H
  end.

Section CeremonyClaims.

Open Scope string_scope.

Variable h : host.
Variable this : config.

(** C6.  [checkSupport] throws the unsupported-environment error exactly
    when [window.PublicKeyCredential] is undefined or not of type function,
    and returns otherwise; [register] and [signin] run it before anything
    else: when it throws they reject with its error and the world is
    untouched (no request, no platform call, no log, no cookie). *)
Theorem checkSupport_gate :
  (checkSupport h = Throw unsupported <->
   PublicKeyCredential h = VUndefined
   \/ typeof (PublicKeyCredential h) <> "function")
  /\ (checkSupport h = Normal tt <->
      ~ (PublicKeyCredential h = VUndefined
         \/ typeof (PublicKeyCredential h) <> "function"))
  /\ (forall token w,
        checkSupport h = Throw unsupported ->
        register h this token w = (Throw unsupported, w))
  /\ (forall username w,
        checkSupport h = Throw unsupported ->
        signin h this username w = (Throw unsupported, w)).
Proof.
  assert (Hdec : checkSupport h = Throw unsupported
                 /\ (PublicKeyCredential h = VUndefined
                     \/ typeof (PublicKeyCredential h) <> "function")
                 \/ checkSupport h = Normal tt
                    /\ ~ (PublicKeyCredential h = VUndefined
                          \/ typeof (PublicKeyCredential h) <> "function")).
  { unfold checkSupport, isBrowserSupported.
    destruct (PublicKeyCredential h); cbn;
      try (left; split; [reflexivity | right; discriminate]).
    right. split; [reflexivity |]. intros [H | H]; [discriminate | auto]. }
  repeat split.
  - destruct Hdec as [[_ H] | [H _]]; [auto | rewrite H; discriminate].
  - destruct Hdec as [[H _] | [_ H]]; [auto | contradiction].
  - destruct Hdec as [[H _] | [_ H]]; [rewrite H; discriminate | auto].
  - destruct Hdec as [[_ H] | [H _]]; [contradiction | auto].
  - intros token w H. unfold register, bind, lift. rewrite H. reflexivity.
  - intros username w H. unfold signin, bind, lift. rewrite H. reflexivity.
Qed.

(** C10.  With a hint strategy other than ["cookie"], [hasPasswordlessHint]
    returns [undefined] and not [false], and [setHint] does nothing. *)
Theorem hint_needs_cookie_strategy (hint : string) (w : world) :
  is_string_literal (useHints this) "cookie" = false ->
  hasPasswordlessHint this w = Normal VUndefined
  /\ hasPasswordlessHint this w <> Normal (VBool false)
  /\ setHint this hint w = (Normal tt, w).
Proof.
  intros H. unfold hasPasswordlessHint, setHint. rewrite H.
  repeat split. discriminate.
Qed.

(** C4.  When [navigator.credentials.create] rejects, [register] rejects
    with the very error of the platform, after logging it, and no request
    goes to [register/complete]; no hint is written either. *)
Theorem register_platform_rejection token j r w' arg e :
  register h this token (fresh j) = (r, w') ->
  In (CredentialsCreate arg) (events w') ->
  credentials_create h arg = Throw e ->
  r = Throw e
  /\ requests_to (apiUrl this ++ "register/complete") (events w') = []
  /\ In (Console "warn" create_failed (Some e)) (events w')
  /\ cookies w' = j.
Proof.
  intros Hrun Hin Hrej. run Hrun; among Hin.
  all: injection Hin as <-; try congruence.
  assert (e0 = e) by congruence. subst e0.
  repeat split.
  - unfold requests_to. cbn [events flat_map app].
    rewrite eqb_append. reflexivity.
  - cbn [events In]. auto.
Qed.

(** C8, on the code: the requests of [register] carry the three headers,
    those of [signin] carry [Accept] and [ApiKey] and no [Content-Type]. *)
Theorem signin_requests_lack_content_type username j r w' url init :
  signin h this username (fresh j) = (r, w') ->
  In (Fetch url init) (events w') ->
  header "Accept" init = Some "application/json"
  /\ header "ApiKey" init = Some (apiKey this)
  /\ header "Content-Type" init = None.
Proof.
  intros Hrun Hin. run Hrun; among Hin.
  all: injection Hin as <- <-; repeat split; reflexivity.
Qed.

Lemma register_requests_headers token j r w' url init :
  register h this token (fresh j) = (r, w') ->
  In (Fetch url init) (events w') ->
  header "Accept" init = Some "application/json"
  /\ header "ApiKey" init = Some (apiKey this)
  /\ header "Content-Type" init = Some "application/json".
Proof.
  intros Hrun Hin. run Hrun; among Hin.
  all: injection Hin as <- <-; repeat split; reflexivity.
Qed.

End CeremonyClaims.

Section CeremonyOutcomes.

Open Scope string_scope.

Variable h : host.
Variable this : config.

Lemma hasPasswordlessHint_hinted j evs :
  is_string_literal (useHints this) "cookie" = true ->
  well_formed j = true ->
  hasPasswordlessHint this {| cookies := hinted this j; events := evs |}
  = Normal (VBool true).
Proof.
  intros Hc Hj. unfold hasPasswordlessHint, hinted. rewrite Hc.
  cbn [cookies]. rewrite (getCookie_after_store j Hj). reflexivity.
Qed.

(** C5, as amended.  When the begin response carries
    [authenticatorSelection.authenticatorAttachment === null], the options
    handed to [navigator.credentials.create] carry that field with the value
    [undefined], never [null]; the property itself stays on the object. *)
Theorem null_attachment_becomes_undefined
    token j r w' init resp payload arg :
  register h this token (fresh j) = (r, w') ->
  In (Fetch (apiUrl this ++ "register/begin") init) (events w') ->
  fetch h (apiUrl this ++ "register/begin") init = Normal resp ->
  json resp = Normal payload ->
  get_path payload ["data"; "authenticatorSelection"; "authenticatorAttachment"]
    = Normal VNull ->
  In (CredentialsCreate arg) (events w') ->
  exists selection,
    get_path arg ["publicKey"; "authenticatorSelection"] = Normal selection
    /\ get selection "authenticatorAttachment" = Normal VUndefined
    /\ get selection "authenticatorAttachment" <> Normal VNull
    /\ has_own selection "authenticatorAttachment" = true.
Proof.
  intros Hrun Hbegin Hresp Hjson Hnull Hcreate.
  run Hrun; among Hcreate.
  all: injection Hcreate as <-.
  all: among Hbegin; try (injection Hbegin as Hu _; same_url Hu).
  all: injection Hbegin as <-.
  all: match goal with
       | Ha : register_adapt ?data = Normal ?adapted,
         Hd : get ?p "data" = Normal ?data |- _ =>
           assert (p = payload) by congruence; subst p;
           cbn [get_path] in Hnull; rewrite Hd in Hnull; cbn [cbind] in Hnull;
           destruct (register_adapt_null _ _ Ha Hnull) as [sel [H1 [H2 H3]]];
           exists sel; cbn [get_path get lookup String.eqb Ascii.eqb Bool.eqb cbind];
           rewrite H1; cbn [cbind]; rewrite H2;
           repeat split; [discriminate | exact H3]
       end.
Qed.

(** C2, on the code: a [register/complete] answer with a status other than
    200 and a JSON body is no failure for [registerComplete]; [register]
    resolves and then sets the hint all the same. *)
Theorem register_complete_failure_writes_hint
    token j r w' init resp payload :
  register h this token (fresh j) = (r, w') ->
  In (Fetch (apiUrl this ++ "register/complete") init) (events w') ->
  fetch h (apiUrl this ++ "register/complete") init = Normal resp ->
  status resp <> 200%Z ->
  json resp = Normal payload ->
  is_string_literal (useHints this) "cookie" = true ->
  well_formed j = true ->
  r = Normal tt
  /\ cookies w' = store "hint-passwordless" "1" j
  /\ hasPasswordlessHint this w' = Normal (VBool true).
Proof.
  intros Hrun Hin Hresp Hstatus Hjson Hcookie Hj.
  run Hrun; among Hin.
  all: try (injection Hin as Hu _; same_url Hu).
  all: injection Hin as <-.
  all: try congruence.
  all: match goal with
       | Hf : fetch h _ _ = Normal ?a |- _ =>
           assert (a = resp) by congruence; subst a
       end.
  all: try (apply Z.eqb_eq in Heqb; contradiction).
  all: try congruence.
  all: cbn [cookies].
  all: repeat split;
       [unfold hinted; rewrite Hcookie; reflexivity
       | apply hasPasswordlessHint_hinted; assumption].
Qed.

(** The part of C2 that holds: whatever happens to the [register/complete]
    request, [register] resolves. *)
Lemma register_swallows_complete_failure token j r w' init :
  register h this token (fresh j) = (r, w') ->
  In (Fetch (apiUrl this ++ "register/complete") init) (events w') ->
  fetch h (apiUrl this ++ "register/complete") init <> OutOfModel ->
  (forall resp, fetch h (apiUrl this ++ "register/complete") init = Normal resp ->
                json resp <> OutOfModel) ->
  r = Normal tt.
Proof.
  intros Hrun Hin Hf Hj.
  run Hrun; among Hin.
  all: try (injection Hin as Hu _; same_url Hu).
  all: injection Hin as <-.
  all: try reflexivity.
  all: try contradiction.
  all: match goal with
       | H : fetch h _ _ = Normal ?a |- _ => apply Hj in H; contradiction
       end.
Qed.


(** C7.  In a sign-in whose credential has the raw id [1, 2, 3] the
    [signin/complete] request carries [response.rawId = "AQID"], the
    URL-safe encoding of these bytes; when the answer has status 200 and the
    hint strategy is the cookie one (the default), the cookie
    [hint-passwordless=1] is stored and [hasPasswordlessHint] returns true. *)
Theorem signin_success
    username j r w' arg credential raw init resp :
  signin h this username (fresh j) = (r, w') ->
  In (CredentialsGet arg) (events w') ->
  credentials_get h arg = Normal credential ->
  get credential "rawId" = Normal raw ->
  new_Uint8Array raw = Normal [x01; x02; x03] ->
  In (Fetch (apiUrl this ++ "signin/complete") init) (events w') ->
  fetch h (apiUrl this ++ "signin/complete") init = Normal resp ->
  status resp = 200%Z ->
  is_string_literal (useHints this) "cookie" = true ->
  well_formed j = true ->
  get_path (body init) ["response"; "rawId"] = encode [x01; x02; x03]
  /\ encode [x01; x02; x03] = Normal (VStr "AQID")
  /\ cookies w' = store "hint-passwordless" "1" j
  /\ hasPasswordlessHint this w' = Normal (VBool true).
Proof.
  intros Hrun Hget Hcred Hraw Hbytes Hin Hresp Hstatus Hcookie Hj.
  run Hrun; among Hin.
  all: try (injection Hin as Hu _; same_url Hu).
  all: injection Hin as <-.
  all: try congruence.
  all: among Hget; injection Hget as <-.
  all: match goal with
       | Hc : credentials_get h _ = Normal ?c |- _ =>
           assert (c = credential) by congruence; subst c
       end.
  all: match goal with
       | Hf : fetch h _ _ = Normal ?a |- _ =>
           assert (a = resp) by congruence; subst a
       end.
  all: try (apply Z.eqb_neq in Heqb; contradiction).
  all: match goal with
       | Hr : cbind (get _ "rawId") _ = Normal ?bs,
         He : coerceToBase64Url (VUint8Array ?bs) = Normal ?t |- _ =>
           rewrite Hraw in Hr; cbn [cbind] in Hr; rewrite Hbytes in Hr;
           injection Hr as <-
       end.
  all: cbn [body get_path get lookup String.eqb Ascii.eqb Bool.eqb cbind cookies].
  all: repeat split;
       [ rewrite <- encode_view; congruence
       | unfold hinted; rewrite Hcookie; reflexivity
       | apply hasPasswordlessHint_hinted; assumption ].
Qed.

End CeremonyOutcomes.

(** ** The claims on concrete ceremonies *)

Section Scenarios.

Import Scenario.

Open Scope string_scope.

Lemma checkSupport_gate_witness :
  PublicKeyCredential old_browser = VUndefined
  /\ checkSupport old_browser = Throw unsupported
  /\ register_run old_browser = (Throw unsupported, fresh []).
Proof.
  split; [reflexivity |].
  assert (H : checkSupport old_browser = Throw unsupported).
  { apply (proj1 (checkSupport_gate old_browser (client old_browser))).
    left. reflexivity. }
  split; [exact H |].
  apply (proj1 (proj2 (proj2
           (checkSupport_gate old_browser (client old_browser))))).
  exact H.
Defined.

Lemma hint_needs_cookie_strategy_witness :
  hasPasswordlessHint (new_Client refusing without_hints)
    (fresh [("hint-passwordless", "1")]) = Normal VUndefined
  /\ hasPasswordlessHint (new_Client refusing without_hints)
       (fresh [("hint-passwordless", "1")]) <> Normal (VBool false)
  /\ setHint (new_Client refusing without_hints) "hint-passwordless" (fresh [])
     = (Normal tt, fresh []).
Proof.
  destruct (hint_needs_cookie_strategy (new_Client refusing without_hints)
              "hint-passwordless" (fresh [("hint-passwordless", "1")])
              eq_refl) as [H1 [H2 _]].
  destruct (hint_needs_cookie_strategy (new_Client refusing without_hints)
              "hint-passwordless" (fresh []) eq_refl) as [_ [_ H3]].
  auto.
Defined.

Lemma register_platform_rejection_witness :
  fst (register_run refusing) = Throw (HostError "NotAllowedError")
  /\ requests_to (api ++ "register/complete")
       (events (snd (register_run refusing))) = []
  /\ In (Console "warn" create_failed (Some (HostError "NotAllowedError")))
       (events (snd (register_run refusing)))
  /\ cookies (snd (register_run refusing)) = [].
Proof.
  apply (register_platform_rejection refusing (client refusing) (VStr "token")
           [] (fst (register_run refusing)) (snd (register_run refusing))
           (VObject [("publicKey", adapted_register_options)])
           (HostError "NotAllowedError")).
  - reflexivity.
  - vm_compute. right. left. reflexivity.
  - reflexivity.
Defined.

Lemma signin_requests_lack_content_type_witness :
  In (Fetch (api ++ "signin/begin") signin_begin_request)
     (events (snd (signin_run (asserting 200))))
  /\ header "Accept" signin_begin_request = Some "application/json"
  /\ header "ApiKey" signin_begin_request = Some ""
  /\ header "Content-Type" signin_begin_request = None.
Proof.
  assert (H : In (Fetch (api ++ "signin/begin") signin_begin_request)
                (events (snd (signin_run (asserting 200))))).
  { vm_compute. left. reflexivity. }
  split; [exact H |].
  apply (signin_requests_lack_content_type (asserting 200)
           (client (asserting 200)) (VStr "alice") []
           (fst (signin_run (asserting 200))) (snd (signin_run (asserting 200)))
           (api ++ "signin/begin") signin_begin_request).
  - reflexivity.
  - exact H.
Defined.

Lemma null_attachment_becomes_undefined_witness :
  get_path register_options ["authenticatorSelection"; "authenticatorAttachment"]
    = Normal VNull
  /\ exists selection,
       get_path (VObject [("publicKey", adapted_register_options)])
         ["publicKey"; "authenticatorSelection"] = Normal selection
       /\ get selection "authenticatorAttachment" = Normal VUndefined
       /\ get selection "authenticatorAttachment" <> Normal VNull
       /\ has_own selection "authenticatorAttachment" = true.
Proof.
  split; [reflexivity |].
  apply (null_attachment_becomes_undefined (enrolling 200)
           (client (enrolling 200)) (VStr "token") []
           (fst (register_run (enrolling 200)))
           (snd (register_run (enrolling 200)))
           {| method := "POST";
              body := VObject [("token", VStr "token");
                               ("RPID", VStr "example.com");
                               ("Origin", VStr "https://example.com")];
              headers := [("Accept", "application/json");
                          ("Content-Type", "application/json");
                          ("ApiKey", "")] |}
           {| status := 200;
              json := Normal (VObject [("data", register_options);
                                       ("sessionId", VStr "s-123")]) |}
           (VObject [("data", register_options); ("sessionId", VStr "s-123")])).
  - reflexivity.
  - vm_compute. left. reflexivity.
  - reflexivity.
  - reflexivity.
  - reflexivity.
  - vm_compute. right. left. reflexivity.
Defined.

(** C5, as stated, fails: the begin response carries [null], and the object
    handed to the platform still has the property, holding [undefined]. *)
Lemma null_attachment_counterexample :
  answers (enrolling 200) (api ++ "register/begin")
    (events (snd (register_run (enrolling 200))))
    = [begin_answer register_options]
  /\ get_path register_options
       ["authenticatorSelection"; "authenticatorAttachment"] = Normal VNull
  /\ create_calls (events (snd (register_run (enrolling 200))))
     = [VObject [("publicKey", adapted_register_options)]]
  /\ get_path adapted_register_options ["authenticatorSelection"]
     = Normal (VObject [("authenticatorAttachment", VUndefined)])
  /\ has_own (VObject [("authenticatorAttachment", VUndefined)])
       "authenticatorAttachment" <> false.
Proof.
  repeat split; try reflexivity. discriminate.
Qed.

Lemma register_complete_failure_writes_hint_witness :
  answers (enrolling 400) (api ++ "register/complete")
    (events (snd (register_run (enrolling 400))))
    = [answer 400 (VObject [("error", VStr "rejected")])]
  /\ fst (register_run (enrolling 400)) = Normal tt
  /\ cookies (snd (register_run (enrolling 400))) = [("hint-passwordless", "1")]
  /\ hasPasswordlessHint (client (enrolling 400))
       (snd (register_run (enrolling 400))) = Normal (VBool true).
Proof.
  split; [reflexivity |].
  apply (register_complete_failure_writes_hint (enrolling 400)
           (client (enrolling 400)) (VStr "token") []
           (fst (register_run (enrolling 400)))
           (snd (register_run (enrolling 400)))
           (hd signin_begin_request
              (requests_to (api ++ "register/complete")
                 (events (snd (register_run (enrolling 400))))))
           {| status := 400;
              json := Normal (VObject [("error", VStr "rejected")]) |}
           (VObject [("error", VStr "rejected")])).
  - reflexivity.
  - vm_compute. right. right. left. reflexivity.
  - reflexivity.
  - discriminate.
  - reflexivity.
  - reflexivity.
  - reflexivity.
Defined.



Lemma signin_success_witness :
  get stub_credential "rawId" = Normal (VArray [VNum 1; VNum 2; VNum 3])
  /\ map (fun init => get_path (body init) ["response"; "rawId"])
       (requests_to (api ++ "signin/complete")
          (events (snd (signin_run (asserting 200)))))
     = [encode [x01; x02; x03]]
  /\ encode [x01; x02; x03] = Normal (VStr "AQID")
  /\ cookies (snd (signin_run (asserting 200))) = [("hint-passwordless", "1")]
  /\ hasPasswordlessHint (client (asserting 200))
       (snd (signin_run (asserting 200))) = Normal (VBool true).
Proof.
  split; [reflexivity |].
  destruct (signin_success (asserting 200) (client (asserting 200))
              (VStr "alice") []
              (fst (signin_run (asserting 200)))
              (snd (signin_run (asserting 200)))
              (hd VUndefined
                 (flat_map (fun ev => match ev with
                                      | CredentialsGet a => [a]
                                      | _ => []
                                      end)
                    (events (snd (signin_run (asserting 200))))))
              stub_credential
              (VArray [VNum 1; VNum 2; VNum 3])
              (hd signin_begin_request
                 (requests_to (api ++ "signin/complete")
                    (events (snd (signin_run (asserting 200))))))
              {| status := 200;
                 json := Normal (VObject [("data", VStr "jwt")]) |})
    as [H1 [H2 [H3 H4]]].
  - reflexivity.
  - vm_compute. right. left. reflexivity.
  - reflexivity.
  - reflexivity.
  - reflexivity.
  - vm_compute. right. right. left. reflexivity.
  - reflexivity.
  - reflexivity.
  - reflexivity.
  - reflexivity.
  - split; [| auto]. cbn [map]. vm_compute. reflexivity.
Defined.

End Scenarios.

(* ================================================================= *)
(** * Further properties of the code *)

(** ** More on the codec *)

Section CodecEdges.

Open Scope string_scope.

Lemma to_std_ok_all c : to_std_ok c = true.
Proof. destruct c as [[] [] [] [] [] [] [] []]; vm_compute; reflexivity. Qed.

Lemma std_sextet_ok_all n : (n < 64)%N -> std_sextet_ok n = true.
Proof.
  intros H.
  assert (Hall : forallb std_sextet_ok all_sextets = true)
    by (vm_compute; reflexivity).
  rewrite forallb_forall in Hall. apply Hall.
  unfold all_sextets. apply in_map_iff. exists (N.to_nat n). split.
  - apply N2Nat.id.
  - apply in_seq. lia.
Qed.

Lemma std_sextet_spec n :
  (n < 64)%N ->
  b64_index (b64_char n) = Some n
  /\ to_std (b64_char n) = b64_char n
  /\ is_ascii_whitespace (b64_char n) = false
  /\ Ascii.eqb (b64_char n) "=" = false.
Proof.
  intros H. pose proof (std_sextet_ok_all n H) as Hok.
  unfold std_sextet_ok in Hok. repeat rewrite andb_true_iff in Hok.
  destruct Hok as [[[H1 H2] H3] H4].
  apply Ascii.eqb_eq in H2. apply negb_true_iff in H3, H4.
  destruct (b64_index (b64_char n)) as [m |]; [| discriminate].
  apply N.eqb_eq in H1. subst m. auto.
Qed.

Lemma whitespace_to_std c : is_ascii_whitespace (to_std c) = is_ascii_whitespace c.
Proof.
  pose proof (to_std_ok_all c) as H. unfold to_std_ok in H.
  repeat rewrite andb_true_iff in H. destruct H as [[[H _] _] _].
  apply Bool.eqb_prop in H. exact H.
Qed.

Lemma foreign_to_std c : foreign c = true -> to_std c = c.
Proof.
  intros Hf. pose proof (to_std_ok_all c) as H. unfold to_std_ok in H.
  repeat rewrite andb_true_iff in H. destruct H as [[[_ H] _] _].
  rewrite Hf in H. apply Ascii.eqb_eq in H. exact H.
Qed.

Lemma to_url_fixed c :
  Ascii.eqb "+" c = false -> Ascii.eqb "/" c = false -> to_url c = c.
Proof.
  intros Hp Hs. pose proof (to_std_ok_all c) as H. unfold to_std_ok in H.
  repeat rewrite andb_true_iff in H. destruct H as [[[_ _] H] _].
  rewrite (Ascii.eqb_sym c "+"), (Ascii.eqb_sym c "/"), Hp, Hs in H.
  apply Ascii.eqb_eq in H. exact H.
Qed.

Lemma unreserved_plain c :
  is_unreserved c = true ->
  Ascii.eqb c "=" = false /\ Ascii.eqb c "%" = false /\ Ascii.eqb c ";" = false.
Proof.
  intros Hu. pose proof (to_std_ok_all c) as H. unfold to_std_ok in H.
  repeat rewrite andb_true_iff in H. destruct H as [[[_ _] _] H].
  rewrite Hu in H. repeat rewrite andb_true_iff in H.
  destruct H as [[H1 H2] H3]. apply negb_true_iff in H1, H2, H3. auto.
Qed.

Lemma length_chars t : String.length t = List.length (chars t).
Proof.
  induction t as [| c t IH]; [reflexivity |].
  cbn [String.length]. unfold chars in *. cbn [list_ascii_of_string List.length].
  rewrite IH. reflexivity.
Qed.

Lemma length_str l : String.length (str l) = List.length l.
Proof. rewrite length_chars, chars_str. reflexivity. Qed.

Lemma url_safe_sextets t :
  url_safe t = true -> exists ns, sextets_of_url_text (chars t) = Some ns.
Proof.
  unfold url_safe. induction (chars t) as [| c l IH]; intros H.
  - exists []. reflexivity.
  - cbn [forallb] in H. apply andb_true_iff in H. destruct H as [Hc Hl].
    destruct (IH Hl) as [ns E]. cbn [sextets_of_url_text].
    destruct (b64url_index c) as [n |]; [| discriminate].
    rewrite E. eexists. reflexivity.
Qed.

Lemma sextets_of_url_text_length l ns :
  sextets_of_url_text l = Some ns -> List.length ns = List.length l.
Proof.
  revert ns. induction l as [| c l IH]; intros ns H.
  - injection H as <-. reflexivity.
  - cbn [sextets_of_url_text] in H.
    destruct (b64url_index c); [| discriminate].
    destruct (sextets_of_url_text l) as [ms |]; [| discriminate].
    injection H as <-. cbn [List.length]. rewrite (IH ms eq_refl). reflexivity.
Qed.

(** [atob] on a text of the standard alphabet, whatever its length. *)
Lemma atob_text l ns :
  sextets_of_text l = Some ns ->
  atob (str l) =
  if (List.length ns mod 4 =? 1)%nat then Throw InvalidCharacterError
  else Normal (str (map ascii_of_N (octets_of_sextets ns))).
Proof.
  intros H. destruct (sextets_of_text_chars l ns H) as [Hl [Hw He]].
  unfold atob. rewrite chars_str.
  rewrite filter_all.
  2:{ eapply Forall_impl; [| exact Hw]. cbn. intros c Hc. rewrite Hc. reflexivity. }
  rewrite (strip_padding_none l He), Hl, H. reflexivity.
Qed.

Lemma octets_of_sextets_length l :
  List.length (octets_of_sextets l) = (3 * List.length l / 4)%nat.
Proof.
  induction l as [| a | a b | a b c | a b c d l IH] using list_ind4;
    try reflexivity.
  rewrite octets_of_sextets_4.
  change (List.length (a :: b :: c :: d :: l)) with (4 + List.length l)%nat.
  cbn [List.length]. rewrite IH.
  replace (3 * (4 + List.length l))%nat with (3 * 4 + 3 * List.length l)%nat
    by lia.
  rewrite (Nat.div_add_l 3 4) by lia. lia.
Qed.

Lemma sextets_of_octets_length l :
  List.length (sextets_of_octets l) = ((4 * List.length l + 2) / 3)%nat.
Proof.
  induction l as [| a | a b | a b c l IH] using list_ind3; try reflexivity.
  rewrite sextets_of_octets_3.
  change (List.length (a :: b :: c :: l)) with (3 + List.length l)%nat.
  cbn [List.length]. rewrite IH.
  replace (4 * (3 + List.length l) + 2)%nat
    with (4 * 3 + (4 * List.length l + 2))%nat by lia.
  rewrite (Nat.div_add_l 4 3) by lia. lia.
Qed.

(** On a text of the URL-safe alphabet [coerceToArrayBuffer] throws exactly
    when the length is 1 modulo 4; otherwise every four characters give three
    bytes and a rest of two or three characters gives one or two. *)
Theorem decode_length (t : string) :
  url_safe t = true ->
  if (String.length t mod 4 =? 1)%nat
  then decode t = Throw InvalidCharacterError
  else exists b, decode t = Normal (VArrayBuffer b)
                 /\ List.length b = (3 * String.length t / 4)%nat.
Proof.
  intros H. destruct (url_safe_sextets t H) as [ns Hns].
  pose proof (sextets_of_url_text_length _ _ Hns) as Hlen.
  rewrite length_chars, <- Hlen.
  destruct (List.length ns mod 4 =? 1)%nat eqn:E.
  - destruct (sextets_of_url_text_inv _ _ Hns) as [_ [_ Hstd]].
    unfold decode, coerceToArrayBuffer.
    rewrite <- (str_chars (replace_char "_" "/" (replace_char "-" "+" t))).
    rewrite chars_to_std, (atob_text _ _ Hstd), E. reflexivity.
  - eexists. split; [apply (decode_spec t ns Hns E) |].
    rewrite length_map. apply octets_of_sextets_length.
Qed.

Lemma decode_length_witness :
  decode "AQIDBA" = Normal (VArrayBuffer [x01; x02; x03; x04])
  /\ decode "AQIDB" = Throw InvalidCharacterError
  /\ exists b, decode "AQIDBA" = Normal (VArrayBuffer b)
               /\ List.length b = (3 * String.length "AQIDBA" / 4)%nat.
Proof.
  split; [reflexivity |].
  split; [exact (decode_length "AQIDB" eq_refl) |].
  exact (decode_length "AQIDBA" eq_refl).
Defined.

(** The text [coerceToBase64Url] makes of [n] bytes has
    [(4 n + 2) / 3] characters: four for every three bytes, two or three for
    a rest of one or two. *)
Theorem encode_length (b : list byte) :
  exists t, encode b = Normal (VStr t)
            /\ String.length t = ((4 * List.length b + 2) / 3)%nat.
Proof.
  eexists. split; [apply encode_spec |].
  rewrite length_str, length_map, sextets_of_octets_length, length_map.
  reflexivity.
Qed.

End CodecEdges.

Section CodecInputs.

Open Scope string_scope.

Lemma padded_length l :
  ((List.length (sextets_of_octets l) + List.length (padding (List.length l)))
     mod 4 = 0)%nat.
Proof.
  induction l as [| a | a b | a b c l IH] using list_ind3; try reflexivity.
  rewrite sextets_of_octets_3.
  change (List.length (a :: b :: c :: l)) with (3 + List.length l)%nat.
  assert (Hp : padding (3 + List.length l) = padding (List.length l)).
  { unfold padding.
    replace ((3 + List.length l) mod 3)%nat with (List.length l mod 3)%nat;
      [reflexivity |].
    replace (3 + List.length l)%nat with (List.length l + 1 * 3)%nat by lia.
    rewrite Nat.Div0.mod_add. reflexivity. }
  rewrite Hp. cbn [List.length].
  replace (S (S (S (S (List.length (sextets_of_octets l)))))
           + List.length (padding (List.length l)))%nat
    with ((List.length (sextets_of_octets l)
           + List.length (padding (List.length l))) + 1 * 4)%nat by lia.
  rewrite Nat.Div0.mod_add. exact IH.
Qed.

Lemma text_of_sextets ns :
  Forall (fun x => (x < 64)%N) ns ->
  sextets_of_text (map b64_char ns) = Some ns
  /\ Forall (fun c => is_ascii_whitespace c = false) (map b64_char ns)
  /\ Forall (fun c => Ascii.eqb c "=" = false) (map b64_char ns)
  /\ map to_std (map b64_char ns) = map b64_char ns.
Proof.
  induction 1 as [| n ns Hn _ [IH1 [IH2 [IH3 IH4]]]].
  - repeat split; constructor.
  - destruct (std_sextet_spec n Hn) as [H1 [H2 [H3 H4]]].
    cbn [map sextets_of_text]. rewrite H1, IH1, H2, IH4.
    repeat split; constructor; assumption.
Qed.

(** What [strip_padding] does to the output of [btoa]. *)
Lemma strip_padding_padded l :
  let x := map b64_char (sextets_of_octets l) in
  Forall (fun c => Ascii.eqb c "=" = false) x ->
  strip_padding (x ++ padding (List.length l)) = x.
Proof.
  cbn zeta. intros Hx. unfold strip_padding.
  rewrite length_app, length_map, padded_length. cbn [Nat.eqb].
  rewrite rev_app_distr.
  assert (Hsx : (List.length (sextets_of_octets l)
                 = (4 * List.length l + 2) / 3)%nat)
    by apply sextets_of_octets_length.
  set (x := map b64_char (sextets_of_octets l)) in *.
  pose proof (Forall_rev Hx) as Hrev.
  unfold padding.
  destruct (List.length l mod 3)%nat as [| [| [| k]]] eqn:Em; cbn [rev app].
  - destruct (rev x) as [| c1 [| c2 r]] eqn:E; rewrite ?app_nil_r; try reflexivity.
    inversion_clear Hrev as [| ? ? Hc _]. rewrite Hc. reflexivity.
  - rewrite !Ascii.eqb_refl. apply rev_involutive.
  - destruct (rev x) as [| c2 r] eqn:E.
    + exfalso. apply (f_equal (@List.length _)) in E.
      rewrite length_rev in E. unfold x in E. rewrite length_map, Hsx in E.
      cbn [List.length] in E.
      assert (List.length l <> 0)%nat by (intros Z; rewrite Z in Em; discriminate).
      assert (3 <= 4 * List.length l + 2)%nat by lia.
      pose proof (Nat.Div0.div_le_mono 3 (4 * List.length l + 2) 3 H0) as Hd.
      change (3 / 3)%nat with 1%nat in Hd. lia.
    + cbn [app]. inversion_clear Hrev as [| ? ? Hc _].
      rewrite Ascii.eqb_refl, Hc.
      apply (f_equal (@rev _)) in E. rewrite rev_involutive in E.
      rewrite E. reflexivity.
  - destruct (rev x) as [| c1 [| c2 r]] eqn:E; rewrite ?app_nil_r; try reflexivity.
    inversion_clear Hrev as [| ? ? Hc _]. rewrite Hc. reflexivity.
Qed.

(** [coerceToArrayBuffer] also reads the standard, padded base64 that
    [btoa] writes. *)
Theorem decode_standard_base64 (b : list byte) :
  coerceToArrayBuffer (VStr (btoa (binary_string_of_bytes b)))
  = Normal (VArrayBuffer b).
Proof.
  pose proof (sextets_bounded _ (bytes_bounded b)) as Hb.
  destruct (text_of_sextets _ Hb) as [Hs [Hw [He Hstd]]].
  unfold coerceToArrayBuffer.
  assert (Hatob : atob (replace_char "_" "/"
                          (replace_char "-" "+" (btoa (binary_string_of_bytes b))))
                  = Normal (binary_string_of_bytes b)).
  { rewrite <- (str_chars (replace_char "_" "/" _)), chars_to_std.
    unfold btoa. rewrite chars_str, octets_of_binary_string, map_app, Hstd.
    assert (Hp : map to_std (padding (List.length (map Byte.to_N b)))
                 = padding (List.length (map Byte.to_N b))).
    { unfold padding.
      destruct (List.length (map Byte.to_N b) mod 3)%nat as [| [| [| k]]];
        reflexivity. }
    rewrite Hp. unfold atob. rewrite chars_str.
    rewrite filter_all.
    2:{ apply Forall_app. split.
        - eapply Forall_impl; [| exact Hw]. cbn. intros c Hc. rewrite Hc. reflexivity.
        - eapply Forall_impl; [| apply padding_all_eq]. cbn beta. intros c Hc.
          apply Ascii.eqb_eq in Hc. subst c. reflexivity. }
    rewrite (strip_padding_padded (map Byte.to_N b) He).
    rewrite length_map, (canonical_length _ (sextets_canonical _)), Hs.
    rewrite octets_of_sextets_of_octets by apply bytes_bounded.
    unfold binary_string_of_bytes. rewrite map_map. do 2 f_equal.
    apply map_ext. intros x. symmetry. apply ascii_of_byte_via_N. }
  rewrite Hatob. cbn [cbind]. unfold bytes_of_binary_string, binary_string_of_bytes.
  rewrite chars_str, map_map. do 2 f_equal.
  rewrite <- (map_id b) at 2. apply map_ext. apply byte_of_ascii_of_byte.
Qed.

Lemma sextets_of_text_foreign l c :
  In c l -> b64_index c = None -> sextets_of_text l = None.
Proof.
  induction l as [| d l IH]; intros Hin Hc; [contradiction |].
  cbn [sextets_of_text]. destruct Hin as [-> | Hin].
  - rewrite Hc. reflexivity.
  - rewrite (IH Hin Hc). destruct (b64_index d); reflexivity.
Qed.

Lemma strip_padding_keeps l c :
  In c l -> Ascii.eqb c "=" = false -> In c (strip_padding l).
Proof.
  intros Hin Hc. unfold strip_padding.
  destruct (List.length l mod 4 =? 0)%nat; [| exact Hin].
  destruct (rev l) as [| c1 [| c2 r]] eqn:E; try exact Hin.
  assert (Hr : In c (c1 :: c2 :: r)) by (rewrite <- E; apply in_rev in Hin; exact Hin).
  destruct (Ascii.eqb c1 "=") eqn:E1; [| exact Hin].
  apply Ascii.eqb_eq in E1. subst c1.
  destruct Hr as [<- | Hr]; [rewrite Ascii.eqb_refl in Hc; discriminate |].
  destruct (Ascii.eqb c2 "=") eqn:E2.
  - apply Ascii.eqb_eq in E2. subst c2.
    destruct Hr as [<- | Hr]; [rewrite Ascii.eqb_refl in Hc; discriminate |].
    apply in_rev in Hr. exact Hr.
  - apply in_rev in Hr. exact Hr.
Qed.

(** One character that belongs to neither alphabet, is no white space and
    no [=], anywhere in the text, makes [coerceToArrayBuffer] throw the
    error of [atob]. *)
Theorem decode_foreign_character (t : string) (c : ascii) :
  In c (chars t) -> foreign c = true ->
  decode t = Throw InvalidCharacterError.
Proof.
  intros Hin Hf. pose proof (foreign_to_std c Hf) as Hstd.
  unfold foreign in Hf. repeat rewrite andb_true_iff in Hf.
  destruct Hf as [[[Hw He] Hi] _].
  apply negb_true_iff in Hw, He.
  destruct (b64_index c) eqn:Hidx; [discriminate |].
  unfold decode, coerceToArrayBuffer.
  rewrite <- (str_chars (replace_char "_" "/" (replace_char "-" "+" t))).
  rewrite chars_to_std. unfold atob. rewrite chars_str.
  set (l := strip_padding _).
  assert (Hl : In c l).
  { apply strip_padding_keeps; [| exact He]. apply filter_In. split.
    - rewrite <- Hstd. apply in_map, Hin.
    - rewrite Hw. reflexivity. }
  rewrite (sextets_of_text_foreign l c Hl Hidx).
  destruct (List.length l mod 4 =? 1)%nat; reflexivity.
Qed.

Lemma decode_foreign_character_witness :
  decode "AQ!D" = Throw InvalidCharacterError.
Proof.
  apply (decode_foreign_character "AQ!D" "!"%char).
  - right. right. left. reflexivity.
  - reflexivity.
Defined.

Lemma filter_map_to_std l :
  filter (fun c => negb (is_ascii_whitespace c)) (map to_std l)
  = map to_std (filter (fun c => negb (is_ascii_whitespace c)) l).
Proof.
  induction l as [| c l IH]; [reflexivity |].
  cbn [map filter]. rewrite whitespace_to_std.
  destruct (is_ascii_whitespace c); cbn [negb map]; rewrite IH; reflexivity.
Qed.

Lemma filter_twice {A} (p : A -> bool) l : filter p (filter p l) = filter p l.
Proof.
  induction l as [| a l IH]; [reflexivity |].
  cbn [filter]. destruct (p a) eqn:E; [| exact IH].
  cbn [filter]. rewrite E, IH. reflexivity.
Qed.

(** ASCII white space in the text is ignored by [coerceToArrayBuffer]. *)
Theorem decode_ignores_whitespace (t : string) :
  decode (remove_whitespace t) = decode t.
Proof.
  unfold decode, coerceToArrayBuffer, remove_whitespace.
  assert (E : atob (replace_char "_" "/" (replace_char "-" "+"
                 (str (filter (fun c => negb (is_ascii_whitespace c)) (chars t)))))
              = atob (replace_char "_" "/" (replace_char "-" "+" t))).
  { rewrite <- (str_chars (replace_char "_" "/" (replace_char "-" "+" (str _)))).
    rewrite <- (str_chars (replace_char "_" "/" (replace_char "-" "+" t))).
    rewrite !chars_to_std, chars_str. unfold atob. rewrite !chars_str.
    rewrite <- filter_map_to_std, filter_twice. reflexivity. }
  rewrite E. reflexivity.
Qed.

End CodecInputs.

Section CodecOutcomes.

Open Scope string_scope.

Lemma atob_throws s e : atob s = Throw e -> e = InvalidCharacterError.
Proof.
  unfold atob.
  destruct (List.length _ mod 4 =? 1)%nat; [congruence |].
  destruct (sextets_of_text _); [discriminate | congruence].
Qed.

Lemma to_uint8_list_numbers_eq zs :
  to_uint8_list (map VNum zs) = Normal (map byte_of_Z zs).
Proof.
  induction zs as [| z zs IH]; [reflexivity |].
  cbn [map to_uint8_list to_uint8 cbind]. rewrite IH. reflexivity.
Qed.

(** The outcomes of [coerceToArrayBuffer] by the kind of its argument: the
    [TypeError] of its last test on every value that is no string, array,
    view or buffer; on a string no error but the one of [atob]; never an
    error on a view, a buffer or an array of numbers, which give a buffer. *)
Theorem coerceToArrayBuffer_errors (v : value) :
  (is_binary_shape v = false ->
   coerceToArrayBuffer v = Throw (JsTypeError "could not coerce to ArrayBuffer"))
  /\ (forall s e, v = VStr s -> coerceToArrayBuffer v = Throw e ->
        e = InvalidCharacterError)
  /\ (bytes_like v = true ->
      exists b, coerceToArrayBuffer v = Normal (VArrayBuffer b)).
Proof.
  split; [| split].
  - destruct v; try discriminate; reflexivity.
  - intros s e -> H. unfold coerceToArrayBuffer in H.
    destruct (atob _) as [b | e' |] eqn:E; cbn [cbind] in H; try discriminate.
    injection H as <-. apply (atob_throws _ _ E).
  - intros H. destruct v; try discriminate.
    + destruct (to_uint8_list_numbers _ H) as [bs E]. exists bs.
      unfold coerceToArrayBuffer, new_Uint8Array. cbn [cbind].
      rewrite E. reflexivity.
    + exists bytes. reflexivity.
    + exists bytes. reflexivity.
Qed.

Lemma coerceToArrayBuffer_errors_witness :
  coerceToArrayBuffer (VObject [("id", VStr "AQID")])
  = Throw (JsTypeError "could not coerce to ArrayBuffer")
  /\ coerceToArrayBuffer (VStr "A") = Throw InvalidCharacterError
  /\ exists b, coerceToArrayBuffer (VArray [VNum 1; VNum 2])
               = Normal (VArrayBuffer b).
Proof.
  split; [| split].
  - apply (proj1 (coerceToArrayBuffer_errors (VObject [("id", VStr "AQID")]))).
    reflexivity.
  - pose proof (proj1 (proj2 (coerceToArrayBuffer_errors (VStr "A")))
                  "A" InvalidCharacterError eq_refl eq_refl) as Honly.
    reflexivity.
  - apply (proj2 (proj2 (coerceToArrayBuffer_errors
                           (VArray [VNum 1; VNum 2])))).
    reflexivity.
Defined.

(** What [coerceToArrayBuffer] returns is a buffer, and coercing it again
    changes nothing. *)
Lemma coerceToArrayBuffer_idempotent (v r : value) :
  coerceToArrayBuffer v = Normal r ->
  (exists b, r = VArrayBuffer b) /\ coerceToArrayBuffer r = Normal r.
Proof.
  intros H.
  assert (Hb : exists b, r = VArrayBuffer b).
  { unfold coerceToArrayBuffer in H. destruct v; cbn [cbind] in H;
      try discriminate.
    - destruct (atob _); cbn [cbind] in H; try discriminate.
      injection H as <-. eexists. reflexivity.
    - unfold new_Uint8Array in H.
      destruct (to_uint8_list elems); cbn [cbind] in H; try discriminate.
      injection H as <-. eexists. reflexivity.
    - injection H as <-. eexists. reflexivity.
    - injection H as <-. eexists. reflexivity. }
  split; [exact Hb |]. destruct Hb as [b ->]. reflexivity.
Qed.

(** The outcomes of [coerceToBase64Url] by the kind of its argument: the
    [Error] of its last test on every value that is no string, array, view
    or buffer; never an error on a string, a view, a buffer or an array of
    numbers, which give a text. *)
Theorem coerceToBase64Url_errors (v : value) :
  (is_binary_shape v = false ->
   coerceToBase64Url v = Throw (JsError "could not coerce to string"))
  /\ (bytes_like v = true \/ (exists s, v = VStr s) ->
      exists t, coerceToBase64Url v = Normal (VStr t)).
Proof.
  split.
  - destruct v; try discriminate; reflexivity.
  - intros [H | [s ->]].
    + destruct v; try discriminate.
      * destruct (to_uint8_list_numbers _ H) as [bs E].
        unfold coerceToBase64Url, new_Uint8Array. rewrite E.
        eexists. reflexivity.
      * eexists. reflexivity.
      * eexists. reflexivity.
    + eexists. reflexivity.
Qed.

Lemma coerceToBase64Url_errors_witness :
  coerceToBase64Url VUndefined = Throw (JsError "could not coerce to string")
  /\ (exists t, coerceToBase64Url (VArray [VNum 1; VNum 2]) = Normal (VStr t))
  /\ exists t, coerceToBase64Url (VStr "+/8=") = Normal (VStr t).
Proof.
  split; [| split].
  - apply (proj1 (coerceToBase64Url_errors VUndefined)). reflexivity.
  - apply (proj2 (coerceToBase64Url_errors (VArray [VNum 1; VNum 2]))).
    left. reflexivity.
  - apply (proj2 (coerceToBase64Url_errors (VStr "+/8="))).
    right. exists "+/8=". reflexivity.
Defined.

Lemma replace_absent a b s :
  contains a s = false -> replace_char a b s = s.
Proof.
  intros H. unfold replace_char.
  rewrite <- (str_chars s) at 2. f_equal.
  rewrite <- (map_id (chars s)) at 2. apply map_ext_in. intros c Hc.
  destruct (Ascii.eqb c a) eqn:E; [| reflexivity].
  apply Ascii.eqb_eq in E. subst c. unfold contains in H.
  assert (existsb (Ascii.eqb a) (chars s) = true).
  { apply existsb_exists. exists a. split; [exact Hc | apply Ascii.eqb_refl]. }
  congruence.
Qed.

Lemma strip_unended s : ends_with "=" s = false -> strip_trailing_eq s = s.
Proof.
  unfold ends_with, strip_trailing_eq. intros H.
  rewrite <- (str_chars s) at 2. f_equal.
  destruct (rev (chars s)) as [| d r] eqn:E.
  - cbn [drop_while rev]. apply (f_equal (@rev _)) in E.
    rewrite rev_involutive in E. rewrite E. reflexivity.
  - rewrite (drop_while_head _ _ _ H), <- E. apply rev_involutive.
Qed.

(** [coerceToBase64Url] leaves its own output as it is. *)
Theorem coerceToBase64Url_idempotent (v t : value) :
  coerceToBase64Url v = Normal t -> coerceToBase64Url t = Normal t.
Proof.
  intros H.
  assert (Hs : exists s, t = VStr (strip_trailing_eq
                 (replace_char "/" "_" (replace_char "+" "-" s)))).
  { unfold coerceToBase64Url in H. destruct v; cbn [cbind] in H;
      try discriminate.
    - injection H as <-. eexists. reflexivity.
    - unfold new_Uint8Array in H.
      destruct (to_uint8_list elems); cbn [cbind] in H; try discriminate.
      injection H as <-. eexists. reflexivity.
    - injection H as <-. eexists. reflexivity.
    - injection H as <-. eexists. reflexivity. }
  destruct Hs as [s ->]. destruct (url_form s) as [Hp [Hs He]].
  unfold coerceToBase64Url. cbn [cbind]. do 2 f_equal.
  rewrite (replace_absent "+" "-" _ Hp), (replace_absent "/" "_" _ Hs).
  apply (strip_unended _ He).
Qed.

Lemma coerceToBase64Url_idempotent_witness :
  coerceToBase64Url (VStr "-_8") = Normal (VStr "-_8").
Proof.
  apply (coerceToBase64Url_idempotent (VStr "+/8=")). reflexivity.
Defined.

(** Two byte sequences with the same encoding are the same. *)
Lemma encode_injective (b1 b2 : list byte) :
  encode b1 = encode b2 -> b1 = b2.
Proof.
  intros H. pose proof (encode_spec b1) as E1.
  pose proof (decode_encode b1 _ E1) as D1.
  rewrite H in E1. pose proof (decode_encode b2 _ E1) as D2.
  congruence.
Qed.

Lemma byte_of_Z_congruent z z' :
  (z mod 256 = z' mod 256)%Z -> byte_of_Z z = byte_of_Z z'.
Proof. unfold byte_of_Z. intros ->. reflexivity. Qed.

(** The numbers of an array are taken modulo 256: arrays whose elements
    agree modulo 256 give the same text and the same buffer. *)
Theorem array_elements_wrap (zs zs' : list Z) :
  Forall2 (fun z z' => (z mod 256 = z' mod 256)%Z) zs zs' ->
  coerceToBase64Url (VArray (map VNum zs)) = encode (map byte_of_Z zs)
  /\ coerceToBase64Url (VArray (map VNum zs))
     = coerceToBase64Url (VArray (map VNum zs'))
  /\ coerceToArrayBuffer (VArray (map VNum zs))
     = coerceToArrayBuffer (VArray (map VNum zs')).
Proof.
  intros H.
  assert (E : map byte_of_Z zs = map byte_of_Z zs').
  { induction H as [| z z' zs zs' Hz _ IH]; [reflexivity |].
    cbn [map]. rewrite (byte_of_Z_congruent _ _ Hz), IH. reflexivity. }
  unfold coerceToBase64Url, coerceToArrayBuffer, new_Uint8Array, encode.
  repeat split; cbn [cbind];
    rewrite ?(to_uint8_list_numbers_eq zs), ?(to_uint8_list_numbers_eq zs'), ?E;
    reflexivity.
Qed.

Lemma array_elements_wrap_witness :
  coerceToBase64Url (VArray [VNum 257; VNum (-1)]) = encode [x01; xff]
  /\ coerceToBase64Url (VArray [VNum 257; VNum (-1)])
     = coerceToBase64Url (VArray [VNum 1; VNum 255])
  /\ coerceToArrayBuffer (VArray [VNum 257; VNum (-1)])
     = coerceToArrayBuffer (VArray [VNum 1; VNum 255]).
Proof.
  apply (array_elements_wrap [257; -1]%Z [1; 255]%Z).
  repeat constructor.
Defined.

End CodecOutcomes.

(** ** More on the cookie jar *)

Section JarFacts.

Open Scope string_scope.

Lemma split_from_nonempty sep skip cur s : split_from sep skip cur s <> [].
Proof.
  revert skip cur. induction s as [| c s IH]; intros skip cur; cbn [split_from].
  - discriminate.
  - destruct skip; [| apply IH].
    destruct (is_prefix sep (c :: s)); [discriminate | apply IH].
Qed.

(** One step of the search on the cookie [n=v]. *)
Lemma getCookie_step_cookie name r n v :
  is_cookie_name n = true ->
  getCookie_step name (Normal r) (n ++ "=" ++ v)
  = if String.eqb n name then decodeURIComponent (first_piece v) else Normal r.
Proof.
  intros Hn. unfold getCookie_step, split, first_piece. cbn [cbind].
  rewrite !chars_append. change (chars "=") with ["="%char].
  rewrite split_cons by (apply (cookie_name_free n "=" Hn); reflexivity).
  cbn [nth nth_error]. rewrite str_chars.
  destruct (String.eqb n name); [| reflexivity].
  unfold split. change (chars "=") with ["="%char].
  pose proof (split_from_nonempty ["="%char] 0 [] (chars v)) as Hne.
  destruct (split_from ["="%char] 0 [] (chars v)); [contradiction | reflexivity].
Qed.

Lemma fold_stuck name l c :
  (forall r, c <> Normal r) ->
  fold_left (getCookie_step name) l c = c.
Proof.
  intros Hc. induction l as [| x l IH]; [reflexivity |].
  cbn [fold_left].
  assert (E : getCookie_step name c x = c).
  { unfold getCookie_step. destruct c; cbn [cbind]; try reflexivity.
    exfalso. apply (Hc a). reflexivity. }
  rewrite E. exact IH.
Qed.

Lemma fold_others_any name l c :
  Forall (fun p => is_cookie_name (fst p) = true
                   /\ String.eqb (fst p) name = false) l ->
  fold_left (getCookie_step name) (map render l) c = c.
Proof.
  intros H. destruct c as [r | e |].
  - apply fold_others, H.
  - apply fold_stuck. discriminate.
  - apply fold_stuck. discriminate.
Qed.

Lemma jar_lookup_none name j :
  jar_lookup name j = None ->
  Forall (fun p => String.eqb (fst p) name = false) j.
Proof.
  induction j as [| [n v] j IH]; intros H; [constructor |].
  cbn [jar_lookup] in H. destruct (String.eqb n name) eqn:E; [discriminate |].
  constructor; auto.
Qed.

Lemma unique_lookup_none n j :
  existsb (fun p => String.eqb (fst p) n) j = false -> jar_lookup n j = None.
Proof.
  induction j as [| [m v] j IH]; intros H; [reflexivity |].
  cbn [existsb fst] in H. apply orb_false_iff in H. destruct H as [Hm Hj].
  cbn [jar_lookup]. rewrite Hm. auto.
Qed.

(** The [reduce] of [getCookie] over the cookies of a well-formed jar. *)
Lemma fold_lookup name j r :
  well_formed j = true ->
  fold_left (getCookie_step name) (map render j) (Normal r)
  = match jar_lookup name j with
    | Some v => decodeURIComponent (first_piece v)
    | None => Normal r
    end.
Proof.
  revert r. induction j as [| [n v] j IH]; intros r H; [reflexivity |].
  cbn [well_formed] in H. repeat rewrite andb_true_iff in H.
  destruct H as [[[Hn Hv] Hu] Hj]. apply negb_true_iff in Hu.
  cbn [map fold_left jar_lookup]. change (render (n, v)) with (n ++ "=" ++ v).
  rewrite (getCookie_step_cookie name r n v Hn).
  destruct (String.eqb n name) eqn:E.
  - apply String.eqb_eq in E. subst n.
    apply fold_others_any. apply (Forall_and_names name j j).
    + apply well_formed_names, Hj.
    + apply incl_refl.
    + apply existsb_name_false, Hu.
  - apply IH, Hj.
Qed.

Lemma getCookie_empty name :
  getCookie name [] = Normal (if String.eqb name "" then "undefined" else "").
Proof. destruct name; reflexivity. Qed.

(** [getCookie] on a well-formed jar: the first piece of the value of the
    cookie, or the empty string. *)
Lemma getCookie_lookup name j :
  well_formed j = true -> (j = [] -> name <> "") ->
  getCookie name j
  = match jar_lookup name j with
    | Some v => decodeURIComponent (first_piece v)
    | None => Normal ""
    end.
Proof.
  intros H Hne. destruct j as [| p j].
  - rewrite getCookie_empty. specialize (Hne eq_refl).
    apply String.eqb_neq in Hne. rewrite Hne. reflexivity.
  - unfold getCookie, document_cookie. fold render.
    change (map render (p :: j)) with (render p :: map render j).
    rewrite split_join_pieces by (apply (well_formed_pieces (p :: j) H)).
    apply (fold_lookup name (p :: j) "" H).
Qed.

Lemma jar_lookup_store_same name v j : jar_lookup name (store name v j) = Some v.
Proof.
  induction j as [| [n w] j IH]; cbn [store jar_lookup].
  - rewrite String.eqb_refl. reflexivity.
  - destruct (String.eqb name n) eqn:E; cbn [jar_lookup].
    + rewrite String.eqb_refl. reflexivity.
    + rewrite String.eqb_sym, E. exact IH.
Qed.

Lemma jar_lookup_store_other name v j n :
  String.eqb n name = false -> jar_lookup n (store name v j) = jar_lookup n j.
Proof.
  intros Hne. induction j as [| [m w] j IH]; cbn [store jar_lookup].
  - rewrite String.eqb_sym, Hne. reflexivity.
  - destruct (String.eqb name m) eqn:E; cbn [jar_lookup].
    + apply String.eqb_eq in E. subst m.
      rewrite String.eqb_sym, Hne. reflexivity.
    + rewrite IH. reflexivity.
Qed.

Lemma existsb_store name v j n :
  String.eqb name n = false ->
  existsb (fun p => String.eqb (fst p) n) (store name v j)
  = existsb (fun p => String.eqb (fst p) n) j.
Proof.
  intros Hne. induction j as [| [m w] j IH]; cbn [store existsb fst].
  - rewrite Hne. reflexivity.
  - destruct (String.eqb name m) eqn:E; cbn [existsb fst].
    + apply String.eqb_eq in E. subst m. rewrite Hne. reflexivity.
    + rewrite IH. reflexivity.
Qed.

(** Storing a cookie keeps the jar well formed. *)
Lemma well_formed_store name v j :
  well_formed j = true -> is_cookie_name name = true ->
  contains ";" v = false ->
  well_formed (store name v j) = true.
Proof.
  intros H Hn Hv. induction j as [| [m w] j IH].
  - cbn [store well_formed existsb]. rewrite Hn, Hv. reflexivity.
  - cbn [well_formed] in H. repeat rewrite andb_true_iff in H.
    destruct H as [[[Hm Hw] Hu] Hj]. cbn [store].
    destruct (String.eqb name m) eqn:E.
    + apply String.eqb_eq in E. subst m.
      cbn [well_formed]. rewrite Hn, Hv, Hu, Hj. reflexivity.
    + cbn [well_formed]. rewrite Hm, Hw, (IH Hj), (existsb_store _ _ _ _ E), Hu.
      reflexivity.
Qed.

Lemma unreserved_free value c :
  forallb is_unreserved (chars value) = true ->
  is_unreserved c = false -> contains c value = false.
Proof.
  intros H Hc. unfold contains.
  destruct (existsb (Ascii.eqb c) (chars value)) eqn:E; [| reflexivity].
  apply existsb_exists in E. destruct E as [d [Hd Hcd]].
  apply Ascii.eqb_eq in Hcd. subst d.
  rewrite forallb_forall in H. rewrite (H c Hd) in Hc. discriminate.
Qed.

Lemma first_piece_plain v : contains "=" v = false -> first_piece v = v.
Proof.
  intros H. unfold first_piece, split. change (chars "=") with ["="%char].
  rewrite split_last by (apply free_of_contains, H).
  cbn [nth]. apply str_chars.
Qed.

Lemma first_piece_cut a b : contains "=" a = false -> first_piece (a ++ "=" ++ b) = a.
Proof.
  intros H. unfold first_piece, split. rewrite !chars_append.
  change (chars "=") with ["="%char].
  rewrite split_cons by (apply free_of_contains, H).
  cbn [nth]. apply str_chars.
Qed.

Lemma setCookie_inv name value days path j j' :
  setCookie name value days path j = Normal j' ->
  forallb is_unreserved (chars value) = true
  /\ is_cookie_name name = true
  /\ j' = store name value j.
Proof.
  unfold setCookie, encodeURIComponent.
  destruct (forallb is_unreserved (chars value)); cbn [cbind]; [| discriminate].
  destruct (is_cookie_name name); cbn [andb]; [| discriminate].
  destruct ((0 <? days)%Z && String.eqb path "/"); [| discriminate].
  intros H. injection H as <-. auto.
Qed.

Lemma cookie_name_nonempty n : is_cookie_name n = true -> n <> "".
Proof. intros H ->. discriminate. Qed.

End JarFacts.

Section JarClaims.

Open Scope string_scope.

(** What [setCookie] stores, [getCookie] reads back, and the jar stays well
    formed. *)
Theorem setCookie_getCookie (name value : string) (days : Z) (path : string)
    (j j' : jar) :
  well_formed j = true ->
  setCookie name value days path j = Normal j' ->
  getCookie name j' = Normal value /\ well_formed j' = true.
Proof.
  intros Hj Hset. destruct (setCookie_inv _ _ _ _ _ _ Hset) as [Hu [Hn ->]].
  assert (Hsemi : contains ";" value = false)
    by (apply (unreserved_free value ";" Hu); reflexivity).
  assert (Heq : contains "=" value = false)
    by (apply (unreserved_free value "=" Hu); reflexivity).
  assert (Hpc : contains "%" value = false)
    by (apply (unreserved_free value "%" Hu); reflexivity).
  pose proof (well_formed_store name value j Hj Hn Hsemi) as Hwf.
  split; [| exact Hwf].
  rewrite (getCookie_lookup name _ Hwf (fun _ => cookie_name_nonempty _ Hn)).
  rewrite jar_lookup_store_same, (first_piece_plain _ Heq).
  unfold decodeURIComponent. rewrite Hpc. reflexivity.
Qed.

Lemma setCookie_getCookie_witness :
  getCookie "theme" [("lang", "en"); ("theme", "dark")] = Normal "dark"
  /\ well_formed [("lang", "en"); ("theme", "dark")] = true.
Proof.
  apply (setCookie_getCookie "theme" "dark" 7 "/"
           [("lang", "en"); ("theme", "light")]); reflexivity.
Defined.

(** [setCookie] leaves the cookies of other names as [getCookie] sees
    them. *)
Theorem setCookie_other_names (name value : string) (days : Z) (path : string)
    (j j' : jar) (other : string) :
  well_formed j = true ->
  setCookie name value days path j = Normal j' ->
  other <> "" -> other <> name ->
  getCookie other j' = getCookie other j.
Proof.
  intros Hj Hset Hne Hother.
  destruct (setCookie_inv _ _ _ _ _ _ Hset) as [Hu [Hn ->]].
  assert (Hsemi : contains ";" value = false)
    by (apply (unreserved_free value ";" Hu); reflexivity).
  rewrite (getCookie_lookup other _ (well_formed_store name value j Hj Hn Hsemi)
             (fun _ => Hne)).
  rewrite (getCookie_lookup other j Hj (fun _ => Hne)).
  rewrite jar_lookup_store_other; [reflexivity |].
  apply String.eqb_neq. exact Hother.
Qed.

Lemma setCookie_other_names_witness :
  getCookie "lang" [("lang", "en"); ("theme", "dark")]
  = getCookie "lang" [("lang", "en"); ("theme", "light")].
Proof.
  apply (setCookie_other_names "theme" "dark" 7 "/"
           [("lang", "en"); ("theme", "light")]).
  - reflexivity.
  - reflexivity.
  - discriminate.
  - discriminate.
Defined.

(** A name that is not in the jar gives the empty string; only the empty
    name on an empty jar gives the text [undefined]. *)
Theorem getCookie_absent (name : string) (j : jar) :
  well_formed j = true ->
  jar_lookup name j = None ->
  getCookie name j
  = Normal (match j with
            | [] => if String.eqb name "" then "undefined" else ""
            | _ :: _ => ""
            end).
Proof.
  intros Hj Hnone. destruct j as [| p j].
  - apply getCookie_empty.
  - rewrite (getCookie_lookup name (p :: j) Hj) by discriminate.
    rewrite Hnone. reflexivity.
Qed.

Lemma getCookie_absent_witness :
  getCookie "hint-passwordless" [("lang", "en")] = Normal "".
Proof.
  apply (getCookie_absent "hint-passwordless" [("lang", "en")]); reflexivity.
Defined.

(** [getCookie] cuts a value at its first [=]: the cookie [n=a=b] reads
    as [a]. *)
Theorem getCookie_cuts_at_equals (name a b : string) (j : jar) :
  well_formed j = true ->
  jar_lookup name j = Some (a ++ "=" ++ b) ->
  contains "=" a = false -> contains "%" a = false ->
  getCookie name j = Normal a.
Proof.
  intros Hj Hl Ha Hp.
  rewrite (getCookie_lookup name j Hj) by (intros ->; discriminate).
  rewrite Hl, (first_piece_cut a b Ha).
  unfold decodeURIComponent. rewrite Hp. reflexivity.
Qed.

Lemma getCookie_cuts_at_equals_witness :
  getCookie "token" [("token", "abc=def")] = Normal "abc".
Proof.
  apply (getCookie_cuts_at_equals "token" "abc" "def" [("token", "abc=def")]);
    reflexivity.
Defined.

End JarClaims.

(** ** More on the ceremonies *)

Section HintReading.

Open Scope string_scope.

Variable this : config.

(** Under the cookie strategy [hasPasswordlessHint] tells whether the hint
    cookie reads as [1]: false when the jar has no such cookie, and for a
    cookie value without [=] and [%] the comparison of that value with
    [1]. *)
Theorem hasPasswordlessHint_reads_cookie (w : world) :
  is_string_literal (useHints this) "cookie" = true ->
  well_formed (cookies w) = true ->
  (jar_lookup "hint-passwordless" (cookies w) = None ->
   hasPasswordlessHint this w = Normal (VBool false))
  /\ (forall v, jar_lookup "hint-passwordless" (cookies w) = Some v ->
        contains "=" v = false -> contains "%" v = false ->
        hasPasswordlessHint this w = Normal (VBool (String.eqb v "1"))).
Proof.
  intros Hc Hj. unfold hasPasswordlessHint. rewrite Hc.
  rewrite (getCookie_lookup "hint-passwordless" _ Hj) by discriminate.
  split.
  - intros ->. reflexivity.
  - intros v -> He Hp. rewrite (first_piece_plain v He).
    unfold decodeURIComponent. rewrite Hp. reflexivity.
Qed.

End HintReading.

Section Failures.

Open Scope string_scope.

Variable h : host.
Variable this : config.

(** When the [register/begin] call fails, in [fetch] or in
    [response.json()], [register] logs it and rejects with the same error;
    the platform is not asked, nothing goes to [register/complete] and no
    hint is written. *)
Theorem register_begin_failure token j r w' init e :
  register h this token (fresh j) = (r, w') ->
  In (Fetch (apiUrl this ++ "register/begin") init) (events w') ->
  cbind (fetch h (apiUrl this ++ "register/begin") init) json = Throw e ->
  r = Throw e
  /\ create_calls (events w') = []
  /\ requests_to (apiUrl this ++ "register/complete") (events w') = []
  /\ In (Console "error" "Failed during register/begin" None) (events w')
  /\ cookies w' = j.
Proof.
  intros Hrun Hin Hfail. run Hrun; among Hin.
  all: try (injection Hin as Hu _; same_url Hu).
  all: injection Hin as <-.
  all: match goal with
       | Hf : fetch h _ _ = _ |- _ => rewrite Hf in Hfail; cbn [cbind] in Hfail
       end.
  all: try (exfalso; congruence).
  all: match goal with
       | |- Throw ?x = _ /\ _ => assert (x = e) by congruence; subst x
       end.
  all: repeat split; try reflexivity.
  all: unfold requests_to; cbn [events flat_map app In]; rewrite ?eqb_append; auto.
Qed.

(** The same for [signin] and the [signin/begin] call. *)
Theorem signin_begin_failure username j r w' init e :
  signin h this username (fresh j) = (r, w') ->
  In (Fetch (apiUrl this ++ "signin/begin") init) (events w') ->
  cbind (fetch h (apiUrl this ++ "signin/begin") init) json = Throw e ->
  r = Throw e
  /\ get_calls (events w') = []
  /\ requests_to (apiUrl this ++ "signin/complete") (events w') = []
  /\ In (Console "warn" "Failed during signin/begin" (Some e)) (events w')
  /\ cookies w' = j.
Proof.
  intros Hrun Hin Hfail. run Hrun; among Hin.
  all: try (injection Hin as Hu _; same_url Hu).
  all: injection Hin as <-.
  all: match goal with
       | Hf : fetch h _ _ = _ |- _ => rewrite Hf in Hfail; cbn [cbind] in Hfail
       end.
  all: try (exfalso; congruence).
  all: match goal with
       | |- Throw ?x = _ /\ _ => assert (x = e) by congruence; subst x
       end.
  all: repeat split; try reflexivity.
  all: unfold requests_to; cbn [events flat_map app In]; rewrite ?eqb_append; auto.
Qed.

(** When [navigator.credentials.get] rejects, [signin] logs it and rejects
    with the error of the platform; nothing goes to [signin/complete] and no
    hint is written. *)
Theorem signin_platform_rejection username j r w' arg e :
  signin h this username (fresh j) = (r, w') ->
  In (CredentialsGet arg) (events w') ->
  credentials_get h arg = Throw e ->
  r = Throw e
  /\ requests_to (apiUrl this ++ "signin/complete") (events w') = []
  /\ In (Console "warn" "Failed during credentials.get in browser." (Some e))
       (events w')
  /\ cookies w' = j.
Proof.
  intros Hrun Hin Hrej. run Hrun; among Hin.
  all: injection Hin as <-; try congruence.
  assert (e0 = e) by congruence. subst e0.
  repeat split.
  - unfold requests_to. cbn [events flat_map app].
    rewrite eqb_append. reflexivity.
  - cbn [events In]. auto.
Qed.

(** Once [navigator.credentials.create] has returned, [register] does not
    reject any more: every error of the complete phase, also one raised
    before the request is sent (a credential that is [null], a credential
    without [getClientExtensionResults]), is logged and dropped. *)
Theorem register_never_rejects_after_create token j r w' arg credential :
  register h this token (fresh j) = (r, w') ->
  In (CredentialsCreate arg) (events w') ->
  credentials_create h arg = Normal credential ->
  (forall e, r <> Throw e)
  /\ (r = Normal tt ->
      requests_to (apiUrl this ++ "register/complete") (events w') = [] ->
      exists e, In (Console "warn" "Failed during register/complete" (Some e))
                  (events w')
                /\ cookies w' = j).
Proof.
  intros Hrun Hin Hret. run Hrun; among Hin.
  all: injection Hin as <-; try congruence.
  all: split; [intros e'; discriminate |].
  all: intros Hr Hreq; try discriminate Hr.
  all: unfold requests_to in Hreq; cbn [events flat_map app] in Hreq;
       rewrite ?eqb_append, ?String.eqb_refl in Hreq;
       cbn [String.eqb Ascii.eqb Bool.eqb app] in Hreq; try discriminate Hreq.
  all: eexists; split; [cbn [events In]; eauto 10 | reflexivity].
Qed.

(** [signin] writes the hint only when [signin/complete] was answered with
    the status 200. *)
Theorem signin_hint_only_on_200 username j r w' :
  signin h this username (fresh j) = (r, w') ->
  cookies w' = j
  \/ exists init resp,
       In (Fetch (apiUrl this ++ "signin/complete") init) (events w')
       /\ fetch h (apiUrl this ++ "signin/complete") init = Normal resp
       /\ status resp = 200%Z
       /\ cookies w' = hinted this j.
Proof.
  intros Hrun. run Hrun.
  all: try (left; reflexivity).
  all: right; apply Z.eqb_eq in Heqb.
  all: do 2 eexists; split; [cbn [events In]; eauto 10 |].
  all: split; [eassumption |]; split; [exact Heqb | reflexivity].
Qed.

(** [register] writes the hint only after [register/complete] was answered,
    and then when the status is 200 or the body is JSON. *)
Theorem register_hint_only_after_answer token j r w' :
  register h this token (fresh j) = (r, w') ->
  cookies w' = j
  \/ exists init resp,
       In (Fetch (apiUrl this ++ "register/complete") init) (events w')
       /\ fetch h (apiUrl this ++ "register/complete") init = Normal resp
       /\ (status resp = 200%Z \/ exists payload, json resp = Normal payload)
       /\ (cookies w' = hinted this j
           \/ cookies w' = hinted this (hinted this j)).
Proof.
  intros Hrun. run Hrun.
  all: try (left; reflexivity).
  all: right.
  all: do 2 eexists; split; [cbn [events In]; eauto 10 |].
  all: split; [eassumption |]; split;
       [ first [left; apply Z.eqb_eq; eassumption | right; eauto]
       | cbn [cookies]; auto ].
Qed.

End Failures.

Section Traces.

Open Scope string_scope.

Variable h : host.
Variable this : config.

(** A ceremony asks in a fixed order and asks nothing twice: the begin
    request, then the platform, then the complete request, stopping at the
    first step that fails. *)
Theorem effects_in_order :
  (forall token j r w',
     register h this token (fresh j) = (r, w') ->
     effects (events w') = []
     \/ (exists b, effects (events w')
                   = [Fetch (apiUrl this ++ "register/begin") b])
     \/ (exists b a, effects (events w')
                     = [Fetch (apiUrl this ++ "register/begin") b;
                        CredentialsCreate a])
     \/ (exists b a c, effects (events w')
                       = [Fetch (apiUrl this ++ "register/begin") b;
                          CredentialsCreate a;
                          Fetch (apiUrl this ++ "register/complete") c]))
  /\ (forall username j r w',
        signin h this username (fresh j) = (r, w') ->
        effects (events w') = []
        \/ (exists b, effects (events w')
                      = [Fetch (apiUrl this ++ "signin/begin") b])
        \/ (exists b a, effects (events w')
                        = [Fetch (apiUrl this ++ "signin/begin") b;
                           CredentialsGet a])
        \/ (exists b a c, effects (events w')
                          = [Fetch (apiUrl this ++ "signin/begin") b;
                             CredentialsGet a;
                             Fetch (apiUrl this ++ "signin/complete") c])).
Proof.
  split.
  - intros token j r w' Hrun. run Hrun.
    all: unfold effects; cbn [events filter is_console negb].
    all: eauto 10.
  - intros username j r w' Hrun. run Hrun.
    all: unfold effects; cbn [events filter is_console negb].
    all: eauto 10.
Qed.

(** Every request of [register] is a POST to one of its two endpoints
    whose body carries the RPID and the Origin of the configuration; the
    begin request carries the token, the complete request the session id
    that the begin answer gave. *)
Theorem register_requests token j r w' url init :
  register h this token (fresh j) = (r, w') ->
  In (Fetch url init) (events w') ->
  method init = "POST"
  /\ get (body init) "RPID" = Normal (VStr (RPID this))
  /\ get (body init) "Origin" = Normal (VStr (Origin this))
  /\ (url = apiUrl this ++ "register/begin"
      /\ get (body init) "token" = Normal token
      \/ url = apiUrl this ++ "register/complete"
         /\ exists b resp payload,
              In (Fetch (apiUrl this ++ "register/begin") b) (events w')
              /\ fetch h (apiUrl this ++ "register/begin") b = Normal resp
              /\ json resp = Normal payload
              /\ get (body init) "sessionId" = get payload "sessionId").
Proof.
  intros Hrun Hin. run Hrun; among Hin.
  all: injection Hin as <- <-.
  all: repeat split.
  all: try (left; split; reflexivity).
  all: right; split; [reflexivity |].
  all: do 3 eexists; split; [cbn [events In]; left; reflexivity |].
  all: split; [eassumption |]; split; [eassumption |].
  all: cbn [body get lookup String.eqb Ascii.eqb Bool.eqb]; congruence.
Qed.

(** The same for [signin], whose begin request carries the user name. *)
Theorem signin_requests username j r w' url init :
  signin h this username (fresh j) = (r, w') ->
  In (Fetch url init) (events w') ->
  method init = "POST"
  /\ get (body init) "RPID" = Normal (VStr (RPID this))
  /\ get (body init) "Origin" = Normal (VStr (Origin this))
  /\ (url = apiUrl this ++ "signin/begin"
      /\ get (body init) "username" = Normal username
      \/ url = apiUrl this ++ "signin/complete"
         /\ exists b resp payload,
              In (Fetch (apiUrl this ++ "signin/begin") b) (events w')
              /\ fetch h (apiUrl this ++ "signin/begin") b = Normal resp
              /\ json resp = Normal payload
              /\ get (body init) "sessionId" = get payload "sessionId").
Proof.
  intros Hrun Hin. run Hrun; among Hin.
  all: injection Hin as <- <-.
  all: repeat split.
  all: try (left; split; reflexivity).
  all: right; split; [reflexivity |].
  all: do 3 eexists; split; [cbn [events In]; left; reflexivity |].
  all: split; [eassumption |]; split; [eassumption |].
  all: cbn [body get lookup String.eqb Ascii.eqb Bool.eqb]; congruence.
Qed.

Lemma get_defined o k v k' :
  get o k = Normal v -> exists v', get o k' = Normal v'.
Proof.
  destruct o; cbn [get]; try discriminate; intros _; try (eexists; reflexivity).
  destruct (lookup k' props); eexists; reflexivity.
Qed.

(** When the begin answer has no [data] (an error object, say), [register]
    rejects with the [TypeError] of reading [options.challenge]; this happens
    after the [try] of the begin phase, so nothing is logged, and before the
    platform is asked. *)
Theorem register_begin_without_data token j r w' init resp payload :
  register h this token (fresh j) = (r, w') ->
  In (Fetch (apiUrl this ++ "register/begin") init) (events w') ->
  fetch h (apiUrl this ++ "register/begin") init = Normal resp ->
  json resp = Normal payload ->
  get payload "data" = Normal VUndefined ->
  r = Throw NativeTypeError
  /\ events w' = [Fetch (apiUrl this ++ "register/begin") init]
  /\ cookies w' = j.
Proof.
  intros Hrun Hin Hresp Hjson Hdata. run Hrun; among Hin.
  all: try (injection Hin as Hu _; same_url Hu).
  all: injection Hin as <-.
  all: try (exfalso; congruence).
  all: try match goal with
       | Hd : get ?o "data" = Normal _, Hs : get ?o "sessionId" = _ |- _ =>
           destruct (get_defined o "data" _ "sessionId" Hd) as [? ?];
           exfalso; congruence
       end.
  all: match goal with
       | Hf : get _ "data" = Normal ?a |- _ =>
           assert (a = VUndefined) by congruence; subst a
       end.
  all: match goal with
       | Hf : register_adapt VUndefined = _ |- _ =>
           cbn in Hf; try discriminate Hf; injection Hf as <-
       end.
  all: repeat split.
Qed.

End Traces.

Section Adaptation.

Open Scope string_scope.

Lemma coerce_field_same o k o' :
  coerce_field o k = Normal o' ->
  get o' k = cbind (get o k) coerceToArrayBuffer.
Proof.
  unfold coerce_field. intros H.
  destruct (get o k) as [v | |]; try discriminate. cbn [cbind] in H |- *.
  destruct (coerceToArrayBuffer v) as [b | |]; try discriminate.
  cbn [cbind] in H. apply (get_set_same _ _ _ _ H).
Qed.

Lemma map_completion_Forall2 {A B} (f : A -> completion B) l l' :
  map_completion f l = Normal l' -> Forall2 (fun a b => f a = Normal b) l l'.
Proof.
  revert l'. induction l as [| a l IH]; intros l' H.
  - injection H as <-. constructor.
  - cbn [map_completion] in H.
    destruct (f a) as [b | |] eqn:E; try discriminate. cbn [cbind] in H.
    destruct (map_completion f l) as [bs | |]; try discriminate.
    cbn [cbind] in H. injection H as <-. constructor; auto.
Qed.

Lemma array_map_inv m arr f arr' :
  array_map m arr f = Normal arr' ->
  exists l l', arr = VArray l /\ arr' = VArray l'
               /\ Forall2 (fun c c' => f c = Normal c') l l'.
Proof.
  destruct arr; cbn [array_map]; try discriminate.
  - intros H. destruct (map_completion f elems) as [l' | |] eqn:E;
      try discriminate. cbn [cbind] in H. injection H as <-.
    exists elems, l'. repeat split. apply map_completion_Forall2, E.
  - destruct (lookup m props) as [[] |]; discriminate.
Qed.

Lemma decoded_ids l l' :
  Forall2 (fun c c' => coerce_field c "id" = Normal c') l l' ->
  Forall2 decoded_id l l'.
Proof.
  induction 1 as [| c c' l l' Hc _ IH]; constructor; [| exact IH].
  split.
  - apply (coerce_field_same _ _ _ Hc).
  - intros k Hk. apply (coerce_field_other _ _ _ _ Hc Hk).
Qed.

Lemma decoded_challenge data adapted bs :
  get adapted "challenge" = cbind (get data "challenge") coerceToArrayBuffer ->
  get data "challenge" = encode bs ->
  get adapted "challenge" = Normal (VArrayBuffer bs).
Proof.
  intros H E. rewrite H, E, encode_spec. cbn [cbind].
  apply (decode_encode bs), encode_spec.
Qed.

Lemma register_adapt_fields options adapted :
  register_adapt options = Normal adapted ->
  get adapted "challenge" = cbind (get options "challenge") coerceToArrayBuffer
  /\ (exists user user',
        get options "user" = Normal user /\ get adapted "user" = Normal user'
        /\ decoded_id user user')
  /\ (exists l l',
        get options "excludeCredentials" = Normal (VArray l)
        /\ get adapted "excludeCredentials" = Normal (VArray l')
        /\ Forall2 decoded_id l l').
Proof.
  unfold register_adapt. intros H.
  destruct (coerce_field options "challenge") as [o1 | |] eqn:E1;
    try discriminate. cbn [cbind] in H.
  destruct (get o1 "user") as [user | |] eqn:Eu; try discriminate.
  cbn [cbind] in H.
  destruct (coerce_field user "id") as [user' | |] eqn:Ei; try discriminate.
  cbn [cbind] in H.
  destruct (set o1 "user" user') as [o2 | |] eqn:E2; try discriminate.
  cbn [cbind] in H.
  destruct (get o2 "excludeCredentials") as [ex | |] eqn:Ex; try discriminate.
  cbn [cbind] in H.
  destruct (array_map "map" ex _) as [ex' | |] eqn:Em; try discriminate.
  cbn [cbind] in H.
  destruct (set o2 "excludeCredentials" ex') as [o3 | |] eqn:E3;
    try discriminate. cbn [cbind] in H.
  destruct (array_map_inv _ _ _ _ Em) as [l [l' [-> [-> Hl]]]].
  assert (H3 : get o3 "challenge"
               = cbind (get options "challenge") coerceToArrayBuffer
               /\ get o3 "user" = Normal user'
               /\ get o3 "excludeCredentials" = Normal (VArray l')).
  { repeat split.
    - rewrite (get_set_other _ _ _ _ _ E3) by reflexivity.
      rewrite (get_set_other _ _ _ _ _ E2) by reflexivity.
      apply (coerce_field_same _ _ _ E1).
    - rewrite (get_set_other _ _ _ _ _ E3) by reflexivity.
      apply (get_set_same _ _ _ _ E2).
    - apply (get_set_same _ _ _ _ E3). }
  assert (Hsame : get adapted "challenge" = get o3 "challenge"
                  /\ get adapted "user" = get o3 "user"
                  /\ get adapted "excludeCredentials" = get o3 "excludeCredentials").
  { destruct (get o3 "authenticatorSelection") as [sel | |]; try discriminate.
    cbn [cbind] in H.
    destruct (get sel "authenticatorAttachment") as [att | |]; try discriminate.
    cbn [cbind] in H. destruct (is_null att).
    - destruct (set sel "authenticatorAttachment" VUndefined) as [sel' | |];
        try discriminate. cbn [cbind] in H.
      repeat split; apply (get_set_other _ _ _ _ _ H); reflexivity.
    - injection H as <-. auto. }
  destruct Hsame as [-> [-> ->]]. destruct H3 as [Hc [Hu He]].
  split; [exact Hc |]. split.
  - exists user, user'. split; [| split; [exact Hu |]].
    + rewrite <- Eu. symmetry. apply (coerce_field_other _ _ _ _ E1). reflexivity.
    + split.
      * apply (coerce_field_same _ _ _ Ei).
      * intros k Hk. apply (coerce_field_other _ _ _ _ Ei Hk).
  - exists l, l'. repeat split.
    + rewrite <- Ex. symmetry.
      rewrite (get_set_other _ _ _ _ _ E2) by reflexivity.
      apply (coerce_field_other _ _ _ _ E1). reflexivity.
    + exact He.
    + apply decoded_ids, Hl.
Qed.

(** What [register_adapt] leaves alone: every property of the options but
    the four it names, and every property of [authenticatorSelection] but
    the attachment, which changes only from [null] to [undefined]. *)
Lemma register_adapt_rest options adapted :
  register_adapt options = Normal adapted ->
  (forall k,
     existsb (String.eqb k)
       ["challenge"; "user"; "excludeCredentials"; "authenticatorSelection"]
     = false ->
     get adapted k = get options k)
  /\ (exists selection selection' attachment,
        get options "authenticatorSelection" = Normal selection
        /\ get selection "authenticatorAttachment" = Normal attachment
        /\ get adapted "authenticatorSelection" = Normal selection'
        /\ get selection' "authenticatorAttachment"
           = Normal (if is_null attachment then VUndefined else attachment)
        /\ forall k, String.eqb k "authenticatorAttachment" = false ->
                     get selection' k = get selection k).
Proof.
  unfold register_adapt. intros H.
  destruct (coerce_field options "challenge") as [o1 | |] eqn:E1;
    try discriminate. cbn [cbind] in H.
  destruct (get o1 "user") as [user | |]; try discriminate. cbn [cbind] in H.
  destruct (coerce_field user "id") as [user' | |]; try discriminate.
  cbn [cbind] in H.
  destruct (set o1 "user" user') as [o2 | |] eqn:E2; try discriminate.
  cbn [cbind] in H.
  destruct (get o2 "excludeCredentials") as [ex | |]; try discriminate.
  cbn [cbind] in H.
  destruct (array_map "map" ex _) as [ex' | |]; try discriminate.
  cbn [cbind] in H.
  destruct (set o2 "excludeCredentials" ex') as [o3 | |] eqn:E3;
    try discriminate. cbn [cbind] in H.
  assert (H3 : forall k,
             String.eqb k "challenge" = false -> String.eqb k "user" = false ->
             String.eqb k "excludeCredentials" = false ->
             get o3 k = get options k).
  { intros k Hc Hu He.
    rewrite (get_set_other _ _ _ _ _ E3 He), (get_set_other _ _ _ _ _ E2 Hu).
    apply (coerce_field_other _ _ _ _ E1 Hc). }
  pose proof (H3 "authenticatorSelection" eq_refl eq_refl eq_refl) as Hsel.
  rewrite Hsel in H.
  destruct (get options "authenticatorSelection") as [sel | |] eqn:Es;
    try discriminate. cbn [cbind] in H.
  destruct (get sel "authenticatorAttachment") as [att | |] eqn:Ea;
    try discriminate. cbn [cbind] in H.
  destruct (is_null att) eqn:En.
  - destruct (set sel "authenticatorAttachment" VUndefined) as [sel' | |] eqn:E4;
      try discriminate. cbn [cbind] in H. split.
    + intros k Hk. cbn [existsb] in Hk. repeat rewrite orb_false_iff in Hk.
      destruct Hk as [Hc [Hu [He [Hs _]]]].
      rewrite (get_set_other _ _ _ _ _ H Hs). apply H3; assumption.
    + exists sel, sel', att. rewrite En. repeat split; try assumption.
      * apply (get_set_same _ _ _ _ H).
      * apply (get_set_same _ _ _ _ E4).
      * intros k Hk. apply (get_set_other _ _ _ _ _ E4 Hk).
  - injection H as <-. split.
    + intros k Hk. cbn [existsb] in Hk. repeat rewrite orb_false_iff in Hk.
      destruct Hk as [Hc [Hu [He _]]]. apply H3; assumption.
    + exists sel, sel, att. rewrite En.
      repeat split; try assumption; reflexivity.
Qed.

Lemma register_adapt_selection options adapted attachment :
  register_adapt options = Normal adapted ->
  get_path options ["authenticatorSelection"; "authenticatorAttachment"]
    = Normal attachment ->
  is_null attachment = false ->
  get adapted "authenticatorSelection" = get options "authenticatorSelection".
Proof.
  unfold register_adapt. intros H Hatt Hnn.
  destruct (coerce_field options "challenge") as [o1 | |] eqn:E1;
    try discriminate. cbn [cbind] in H.
  destruct (get o1 "user") as [user | |]; try discriminate. cbn [cbind] in H.
  destruct (coerce_field user "id") as [user' | |]; try discriminate.
  cbn [cbind] in H.
  destruct (set o1 "user" user') as [o2 | |] eqn:E2; try discriminate.
  cbn [cbind] in H.
  destruct (get o2 "excludeCredentials") as [ex | |]; try discriminate.
  cbn [cbind] in H.
  destruct (array_map "map" ex _) as [ex' | |]; try discriminate.
  cbn [cbind] in H.
  destruct (set o2 "excludeCredentials" ex') as [o3 | |] eqn:E3;
    try discriminate. cbn [cbind] in H.
  assert (Hsel : get o3 "authenticatorSelection"
                 = get options "authenticatorSelection").
  { rewrite (get_set_other _ _ _ _ _ E3) by reflexivity.
    rewrite (get_set_other _ _ _ _ _ E2) by reflexivity.
    apply (coerce_field_other _ _ _ _ E1). reflexivity. }
  rewrite <- Hsel. rewrite Hsel in H. cbn [get_path] in Hatt.
  destruct (get options "authenticatorSelection") as [sel | |];
    try discriminate. cbn [cbind] in H, Hatt.
  destruct (get sel "authenticatorAttachment") as [att | |];
    try discriminate. cbn [cbind] in H, Hatt.
  injection Hatt as ->. rewrite Hnn in H. injection H as <-. reflexivity.
Qed.

Lemma signin_adapt_fields options adapted :
  signin_adapt options = Normal adapted ->
  get adapted "challenge" = cbind (get options "challenge") coerceToArrayBuffer
  /\ (exists l l',
        get options "allowCredentials" = Normal (VArray l)
        /\ get adapted "allowCredentials" = Normal (VArray l')
        /\ Forall2 decoded_id l l').
Proof.
  unfold signin_adapt. intros H.
  destruct (coerce_field options "challenge") as [o1 | |] eqn:E1;
    try discriminate. cbn [cbind] in H.
  destruct (get o1 "allowCredentials") as [al | |] eqn:Ea; try discriminate.
  cbn [cbind] in H.
  destruct (array_map "forEach" al _) as [al' | |] eqn:Em; try discriminate.
  cbn [cbind] in H.
  destruct (array_map_inv _ _ _ _ Em) as [l [l' [-> [-> Hl]]]].
  split.
  - rewrite (get_set_other _ _ _ _ _ H) by reflexivity.
    apply (coerce_field_same _ _ _ E1).
  - exists l, l'. repeat split.
    + rewrite <- Ea. symmetry. apply (coerce_field_other _ _ _ _ E1). reflexivity.
    + apply (get_set_same _ _ _ _ H).
    + apply decoded_ids, Hl.
Qed.

(** What [signin_adapt] leaves alone. *)
Lemma signin_adapt_rest options adapted :
  signin_adapt options = Normal adapted ->
  forall k,
    existsb (String.eqb k) ["challenge"; "allowCredentials"] = false ->
    get adapted k = get options k.
Proof.
  unfold signin_adapt. intros H k Hk.
  cbn [existsb] in Hk. repeat rewrite orb_false_iff in Hk.
  destruct Hk as [Hc [Ha _]].
  destruct (coerce_field options "challenge") as [o1 | |] eqn:E1;
    try discriminate. cbn [cbind] in H.
  destruct (get o1 "allowCredentials") as [al | |]; try discriminate.
  cbn [cbind] in H.
  destruct (array_map "forEach" al _) as [al' | |]; try discriminate.
  cbn [cbind] in H.
  rewrite (get_set_other _ _ _ _ _ H Ha).
  apply (coerce_field_other _ _ _ _ E1 Hc).
Qed.

End Adaptation.

Section Payloads.

Open Scope string_scope.

Variable h : host.
Variable this : config.

(** What [register] hands to the platform: the options of the begin answer
    with the challenge, the user id and the id of every excluded credential
    decoded, each once, and a [null] attachment preference turned into
    [undefined]; every other property of the options, of the user, of the
    excluded credentials and of the authenticator selection is as the
    server sent it.  A challenge that is the encoding of some bytes arrives
    as these bytes. *)
Theorem register_options_decoded token j r w' arg :
  register h this token (fresh j) = (r, w') ->
  In (CredentialsCreate arg) (events w') ->
  exists b resp payload data adapted,
    In (Fetch (apiUrl this ++ "register/begin") b) (events w')
    /\ fetch h (apiUrl this ++ "register/begin") b = Normal resp
    /\ json resp = Normal payload
    /\ get payload "data" = Normal data
    /\ arg = VObject [("publicKey", adapted)]
    /\ get adapted "challenge"
       = cbind (get data "challenge") coerceToArrayBuffer
    /\ (forall bs, get data "challenge" = encode bs ->
                   get adapted "challenge" = Normal (VArrayBuffer bs))
    /\ (exists user user',
          get data "user" = Normal user /\ get adapted "user" = Normal user'
          /\ decoded_id user user')
    /\ (exists l l',
          get data "excludeCredentials" = Normal (VArray l)
          /\ get adapted "excludeCredentials" = Normal (VArray l')
          /\ Forall2 decoded_id l l')
    /\ (exists selection selection' attachment,
          get data "authenticatorSelection" = Normal selection
          /\ get selection "authenticatorAttachment" = Normal attachment
          /\ get adapted "authenticatorSelection" = Normal selection'
          /\ get selection' "authenticatorAttachment"
             = Normal (if is_null attachment then VUndefined else attachment)
          /\ forall k, String.eqb k "authenticatorAttachment" = false ->
                       get selection' k = get selection k)
    /\ (forall k,
          existsb (String.eqb k)
            ["challenge"; "user"; "excludeCredentials"; "authenticatorSelection"]
          = false ->
          get adapted k = get data k).
Proof.
  intros Hrun Hin. run Hrun; among Hin.
  all: injection Hin as <-.
  all: match goal with
       | Ha : register_adapt _ = Normal _ |- _ =>
           destruct (register_adapt_fields _ _ Ha) as [Hc [Hu He]];
           destruct (register_adapt_rest _ _ Ha) as [Hk Hs]
       end.
  all: do 5 eexists; split; [cbn [events In]; left; reflexivity |].
  all: split; [eassumption |]; split; [eassumption |]; split; [eassumption |].
  all: split; [reflexivity |]; split; [exact Hc |].
  all: split; [intros bs Hbs; apply (decoded_challenge _ _ _ Hc Hbs) |].
  all: split; [exact Hu |]; split; [exact He |]; split; [exact Hs | exact Hk].
Qed.

(** What [signin] hands to the platform: the options of the begin answer
    with the challenge and the id of every allowed credential decoded;
    every other property of the options and of the allowed credentials is
    as the server sent it. *)
Theorem signin_options_decoded username j r w' arg :
  signin h this username (fresh j) = (r, w') ->
  In (CredentialsGet arg) (events w') ->
  exists b resp payload data adapted,
    In (Fetch (apiUrl this ++ "signin/begin") b) (events w')
    /\ fetch h (apiUrl this ++ "signin/begin") b = Normal resp
    /\ json resp = Normal payload
    /\ get payload "data" = Normal data
    /\ arg = VObject [("publicKey", adapted)]
    /\ get adapted "challenge"
       = cbind (get data "challenge") coerceToArrayBuffer
    /\ (forall bs, get data "challenge" = encode bs ->
                   get adapted "challenge" = Normal (VArrayBuffer bs))
    /\ (exists l l',
          get data "allowCredentials" = Normal (VArray l)
          /\ get adapted "allowCredentials" = Normal (VArray l')
          /\ Forall2 decoded_id l l')
    /\ (forall k,
          existsb (String.eqb k) ["challenge"; "allowCredentials"] = false ->
          get adapted k = get data k).
Proof.
  intros Hrun Hin. run Hrun; among Hin.
  all: injection Hin as <-.
  all: match goal with
       | Ha : signin_adapt _ = Normal _ |- _ =>
           destruct (signin_adapt_fields _ _ Ha) as [Hc He];
           pose proof (signin_adapt_rest _ _ Ha) as Hk
       end.
  all: do 5 eexists; split; [cbn [events In]; left; reflexivity |].
  all: split; [eassumption |]; split; [eassumption |]; split; [eassumption |].
  all: split; [reflexivity |]; split; [exact Hc |].
  all: split; [intros bs Hbs; apply (decoded_challenge _ _ _ Hc Hbs) |].
  all: split; [exact He | exact Hk].
Qed.

(** An attachment preference other than [null] reaches the platform as the
    server sent it. *)
Theorem attachment_kept_unless_null
    token j r w' init resp payload attachment arg :
  register h this token (fresh j) = (r, w') ->
  In (Fetch (apiUrl this ++ "register/begin") init) (events w') ->
  fetch h (apiUrl this ++ "register/begin") init = Normal resp ->
  json resp = Normal payload ->
  get_path payload ["data"; "authenticatorSelection"; "authenticatorAttachment"]
    = Normal attachment ->
  is_null attachment = false ->
  In (CredentialsCreate arg) (events w') ->
  get_path arg ["publicKey"; "authenticatorSelection"]
  = get_path payload ["data"; "authenticatorSelection"]
  /\ get_path arg ["publicKey"; "authenticatorSelection";
                   "authenticatorAttachment"] = Normal attachment.
Proof.
  intros Hrun Hbegin Hresp Hjson Hatt Hnn Hcreate.
  run Hrun; among Hcreate.
  all: injection Hcreate as <-.
  all: among Hbegin; try (injection Hbegin as Hu _; same_url Hu).
  all: injection Hbegin as <-.
  all: match goal with
       | Ha : register_adapt ?data = Normal ?adapted,
         Hd : get ?p "data" = Normal ?data |- _ =>
           assert (p = payload) by congruence; subst p;
           cbn [get_path] in Hatt |- *; rewrite Hd in Hatt |- *;
           cbn [cbind get lookup String.eqb Ascii.eqb Bool.eqb] in Hatt |- *;
           pose proof (register_adapt_selection _ _ _ Ha Hatt Hnn) as Hsel
       end.
  all: split.
  all: match type of Hsel with
       | get ?x _ = get ?y _ =>
           destruct (get x "authenticatorSelection") as [s1 | |];
           destruct (get y "authenticatorSelection") as [s2 | |]
       end;
       try discriminate; cbn [cbind] in *; try congruence.
  all: injection Hsel as ->; exact Hatt.
Qed.

(** What [register] sends to [register/complete]: id, type and extension
    results of the credential as they are, and the raw id, the attestation
    object and the client data each as the URL-safe encoding of its bytes. *)
Theorem register_complete_body token j r w' init :
  register h this token (fresh j) = (r, w') ->
  In (Fetch (apiUrl this ++ "register/complete") init) (events w') ->
  exists arg credential raw attestation client,
    In (CredentialsCreate arg) (events w')
    /\ credentials_create h arg = Normal credential
    /\ cbind (get credential "rawId") new_Uint8Array = Normal raw
    /\ response_bytes credential "attestationObject" = Normal attestation
    /\ response_bytes credential "clientDataJSON" = Normal client
    /\ get_path (body init) ["response"; "id"] = get credential "id"
    /\ get_path (body init) ["response"; "type"] = get credential "type"
    /\ get_path (body init) ["response"; "extensions"]
       = call_method credential "getClientExtensionResults"
    /\ get_path (body init) ["response"; "rawId"] = encode raw
    /\ get_path (body init) ["response"; "response"; "AttestationObject"]
       = encode attestation
    /\ get_path (body init) ["response"; "response"; "clientDataJson"]
       = encode client.
Proof.
  intros Hrun Hin. run Hrun; among Hin.
  all: try (injection Hin as Hu _; same_url Hu).
  all: injection Hin as <-.
  all: do 5 eexists; split; [cbn [events In]; right; left; reflexivity |].
  all: split; [eassumption |].
  all: unfold response_bytes.
  all: split; [eassumption |]; split; [eassumption |]; split; [eassumption |].
  all: cbn [body get_path get lookup String.eqb Ascii.eqb Bool.eqb cbind].
  all: rewrite <- !encode_view.
  all: repeat split; congruence.
Qed.

(** What [signin] sends to [signin/complete]: the same, with the
    authenticator data, the client data and the signature. *)
Theorem signin_complete_body username j r w' init :
  signin h this username (fresh j) = (r, w') ->
  In (Fetch (apiUrl this ++ "signin/complete") init) (events w') ->
  exists arg credential raw authenticator client signature,
    In (CredentialsGet arg) (events w')
    /\ credentials_get h arg = Normal credential
    /\ cbind (get credential "rawId") new_Uint8Array = Normal raw
    /\ response_bytes credential "authenticatorData" = Normal authenticator
    /\ response_bytes credential "clientDataJSON" = Normal client
    /\ response_bytes credential "signature" = Normal signature
    /\ get_path (body init) ["response"; "id"] = get credential "id"
    /\ get_path (body init) ["response"; "type"] = get credential "type"
    /\ get_path (body init) ["response"; "extensions"]
       = call_method credential "getClientExtensionResults"
    /\ get_path (body init) ["response"; "rawId"] = encode raw
    /\ get_path (body init) ["response"; "response"; "authenticatorData"]
       = encode authenticator
    /\ get_path (body init) ["response"; "response"; "clientDataJson"]
       = encode client
    /\ get_path (body init) ["response"; "response"; "signature"]
       = encode signature.
Proof.
  intros Hrun Hin. run Hrun; among Hin.
  all: try (injection Hin as Hu _; same_url Hu).
  all: injection Hin as <-.
  all: do 6 eexists; split; [cbn [events In]; right; left; reflexivity |].
  all: split; [eassumption |].
  all: unfold response_bytes.
  all: split; [eassumption |]; split; [eassumption |]; split; [eassumption |].
  all: split; [eassumption |].
  all: cbn [body get_path get lookup String.eqb Ascii.eqb Bool.eqb cbind].
  all: rewrite <- !encode_view.
  all: repeat split; congruence.
Qed.

End Payloads.

(** ** The further properties on concrete ceremonies *)

Section FurtherScenarios.

Import Scenario Cases.

Open Scope string_scope.

Lemma hasPasswordlessHint_reads_cookie_witness :
  hasPasswordlessHint (client refusing) (fresh [("lang", "en")])
  = Normal (VBool false)
  /\ hasPasswordlessHint (client refusing) (fresh [("hint-passwordless", "0")])
     = Normal (VBool false).
Proof.
  split.
  - apply (proj1 (hasPasswordlessHint_reads_cookie (client refusing)
                    (fresh [("lang", "en")]) eq_refl eq_refl)).
    reflexivity.
  - apply (proj2 (hasPasswordlessHint_reads_cookie (client refusing)
                    (fresh [("hint-passwordless", "0")]) eq_refl eq_refl) "0");
      reflexivity.
Defined.

Lemma register_begin_failure_witness :
  fst (register_run offline) = Throw (HostError "Failed to fetch")
  /\ create_calls (events (snd (register_run offline))) = []
  /\ requests_to (api ++ "register/complete")
       (events (snd (register_run offline))) = []
  /\ In (Console "error" "Failed during register/begin" None)
       (events (snd (register_run offline)))
  /\ cookies (snd (register_run offline)) = [].
Proof.
  apply (register_begin_failure offline (client offline) (VStr "token") []
           (fst (register_run offline)) (snd (register_run offline))
           register_begin_request (HostError "Failed to fetch")).
  - reflexivity.
  - vm_compute. left. reflexivity.
  - reflexivity.
Defined.

Lemma signin_begin_failure_witness :
  fst (signin_run offline) = Throw (HostError "Failed to fetch")
  /\ get_calls (events (snd (signin_run offline))) = []
  /\ requests_to (api ++ "signin/complete")
       (events (snd (signin_run offline))) = []
  /\ In (Console "warn" "Failed during signin/begin"
           (Some (HostError "Failed to fetch")))
       (events (snd (signin_run offline)))
  /\ cookies (snd (signin_run offline)) = [].
Proof.
  apply (signin_begin_failure offline (client offline) (VStr "alice") []
           (fst (signin_run offline)) (snd (signin_run offline))
           signin_begin_request (HostError "Failed to fetch")).
  - reflexivity.
  - vm_compute. left. reflexivity.
  - reflexivity.
Defined.

Lemma signin_platform_rejection_witness :
  fst (signin_run refusing) = Throw (HostError "NotAllowedError")
  /\ requests_to (api ++ "signin/complete")
       (events (snd (signin_run refusing))) = []
  /\ In (Console "warn" "Failed during credentials.get in browser."
           (Some (HostError "NotAllowedError")))
       (events (snd (signin_run refusing)))
  /\ cookies (snd (signin_run refusing)) = [].
Proof.
  apply (signin_platform_rejection refusing (client refusing) (VStr "alice") []
           (fst (signin_run refusing)) (snd (signin_run refusing))
           (hd VUndefined (get_calls (events (snd (signin_run refusing)))))
           (HostError "NotAllowedError")).
  - reflexivity.
  - vm_compute. right. left. reflexivity.
  - reflexivity.
Defined.

Lemma register_never_rejects_after_create_witness :
  fst (register_run null_credential) = Normal tt
  /\ (forall e, fst (register_run null_credential) <> Throw e)
  /\ exists e,
       In (Console "warn" "Failed during register/complete" (Some e))
         (events (snd (register_run null_credential)))
       /\ cookies (snd (register_run null_credential)) = [].
Proof.
  destruct (register_never_rejects_after_create null_credential
              (client null_credential) (VStr "token") []
              (fst (register_run null_credential))
              (snd (register_run null_credential))
              (VObject [("publicKey", adapted_register_options)]) VNull)
    as [H1 H2].
  - reflexivity.
  - vm_compute. right. left. reflexivity.
  - reflexivity.
  - split; [reflexivity |]. split; [exact H1 |].
    apply H2; reflexivity.
Defined.

Lemma signin_hint_only_on_200_witness :
  cookies (snd (signin_run (asserting 500))) = []
  \/ exists init resp,
       In (Fetch (apiUrl (client (asserting 500)) ++ "signin/complete") init)
         (events (snd (signin_run (asserting 500))))
       /\ fetch (asserting 500)
            (apiUrl (client (asserting 500)) ++ "signin/complete") init
          = Normal resp
       /\ status resp = 200%Z
       /\ cookies (snd (signin_run (asserting 500)))
          = hinted (client (asserting 500)) [].
Proof.
  apply (signin_hint_only_on_200 (asserting 500) (client (asserting 500))
           (VStr "alice") [] (fst (signin_run (asserting 500)))).
  reflexivity.
Defined.

Lemma register_hint_only_after_answer_witness :
  cookies (snd (register_run refusing)) = []
  \/ exists init resp,
       In (Fetch (apiUrl (client refusing) ++ "register/complete") init)
         (events (snd (register_run refusing)))
       /\ fetch refusing (apiUrl (client refusing) ++ "register/complete") init
          = Normal resp
       /\ (status resp = 200%Z \/ exists payload, json resp = Normal payload)
       /\ (cookies (snd (register_run refusing)) = hinted (client refusing) []
           \/ cookies (snd (register_run refusing))
              = hinted (client refusing) (hinted (client refusing) [])).
Proof.
  apply (register_hint_only_after_answer refusing (client refusing)
           (VStr "token") [] (fst (register_run refusing))).
  reflexivity.
Defined.

Lemma effects_in_order_witness :
  effects (events (snd (register_run refusing))) = []
  \/ (exists b, effects (events (snd (register_run refusing)))
                = [Fetch (apiUrl (client refusing) ++ "register/begin") b])
  \/ (exists b a, effects (events (snd (register_run refusing)))
                  = [Fetch (apiUrl (client refusing) ++ "register/begin") b;
                     CredentialsCreate a])
  \/ (exists b a c, effects (events (snd (register_run refusing)))
                    = [Fetch (apiUrl (client refusing) ++ "register/begin") b;
                       CredentialsCreate a;
                       Fetch (apiUrl (client refusing) ++ "register/complete") c]).
Proof.
  apply (proj1 (effects_in_order refusing (client refusing)) (VStr "token") []
           (fst (register_run refusing))).
  reflexivity.
Defined.

Lemma register_begin_without_data_witness :
  fst (register_run failing_server) = Throw NativeTypeError
  /\ events (snd (register_run failing_server))
     = [Fetch (apiUrl (client failing_server) ++ "register/begin")
          register_begin_request]
  /\ cookies (snd (register_run failing_server)) = [].
Proof.
  apply (register_begin_without_data failing_server (client failing_server)
           (VStr "token") [] (fst (register_run failing_server))
           (snd (register_run failing_server)) register_begin_request
           {| status := 500;
              json := Normal (VObject [("error", VStr "unknown token")]) |}
           (VObject [("error", VStr "unknown token")])).
  - reflexivity.
  - vm_compute. left. reflexivity.
  - reflexivity.
  - reflexivity.
  - reflexivity.
Defined.

Lemma attachment_kept_unless_null_witness :
  get_path (VObject [("data", platform_options); ("sessionId", VStr "s-123")])
    ["data"; "authenticatorSelection"; "authenticatorAttachment"]
  = Normal (VStr "platform")
  /\ get_path (hd VUndefined
                 (create_calls (events (snd (register_run platform_site)))))
       ["publicKey"; "authenticatorSelection"; "authenticatorAttachment"]
     = Normal (VStr "platform").
Proof.
  split; [reflexivity |].
  apply (attachment_kept_unless_null platform_site (client platform_site)
           (VStr "token") [] (fst (register_run platform_site))
           (snd (register_run platform_site)) register_begin_request
           {| status := 200;
              json := Normal (VObject [("data", platform_options);
                                       ("sessionId", VStr "s-123")]) |}
           (VObject [("data", platform_options); ("sessionId", VStr "s-123")])
           (VStr "platform")).
  - reflexivity.
  - vm_compute. left. reflexivity.
  - reflexivity.
  - reflexivity.
  - reflexivity.
  - reflexivity.
  - vm_compute. right. left. reflexivity.
Defined.

End FurtherScenarios.

Section FurtherPayloads.

Import Scenario Cases.

Open Scope string_scope.

Lemma register_requests_witness :
  method register_begin_request = "POST"
  /\ get (body register_begin_request) "RPID"
     = Normal (VStr (RPID (client (enrolling 200))))
  /\ get (body register_begin_request) "Origin"
     = Normal (VStr (Origin (client (enrolling 200))))
  /\ (api ++ "register/begin" = apiUrl (client (enrolling 200)) ++ "register/begin"
      /\ get (body register_begin_request) "token" = Normal (VStr "token")
      \/ api ++ "register/begin"
         = apiUrl (client (enrolling 200)) ++ "register/complete"
         /\ exists b resp payload,
              In (Fetch (apiUrl (client (enrolling 200)) ++ "register/begin") b)
                (events (snd (register_run (enrolling 200))))
              /\ fetch (enrolling 200)
                   (apiUrl (client (enrolling 200)) ++ "register/begin") b
                 = Normal resp
              /\ json resp = Normal payload
              /\ get (body register_begin_request) "sessionId"
                 = get payload "sessionId").
Proof.
  apply (register_requests (enrolling 200) (client (enrolling 200))
           (VStr "token") [] (fst (register_run (enrolling 200)))
           (snd (register_run (enrolling 200)))
           (api ++ "register/begin") register_begin_request).
  - reflexivity.
  - vm_compute. left. reflexivity.
Defined.

Lemma signin_requests_witness :
  method signin_begin_request = "POST"
  /\ get (body signin_begin_request) "RPID"
     = Normal (VStr (RPID (client (asserting 200))))
  /\ get (body signin_begin_request) "Origin"
     = Normal (VStr (Origin (client (asserting 200))))
  /\ (api ++ "signin/begin" = apiUrl (client (asserting 200)) ++ "signin/begin"
      /\ get (body signin_begin_request) "username" = Normal (VStr "alice")
      \/ api ++ "signin/begin"
         = apiUrl (client (asserting 200)) ++ "signin/complete"
         /\ exists b resp payload,
              In (Fetch (apiUrl (client (asserting 200)) ++ "signin/begin") b)
                (events (snd (signin_run (asserting 200))))
              /\ fetch (asserting 200)
                   (apiUrl (client (asserting 200)) ++ "signin/begin") b
                 = Normal resp
              /\ json resp = Normal payload
              /\ get (body signin_begin_request) "sessionId"
                 = get payload "sessionId").
Proof.
  apply (signin_requests (asserting 200) (client (asserting 200))
           (VStr "alice") [] (fst (signin_run (asserting 200)))
           (snd (signin_run (asserting 200)))
           (api ++ "signin/begin") signin_begin_request).
  - reflexivity.
  - vm_compute. left. reflexivity.
Defined.

Lemma register_options_decoded_witness :
  exists b resp payload data adapted,
    In (Fetch (apiUrl (client (enrolling 200)) ++ "register/begin") b)
      (events (snd (register_run (enrolling 200))))
    /\ fetch (enrolling 200)
         (apiUrl (client (enrolling 200)) ++ "register/begin") b = Normal resp
    /\ json resp = Normal payload
    /\ get payload "data" = Normal data
    /\ VObject [("publicKey", adapted_register_options)]
       = VObject [("publicKey", adapted)]
    /\ get adapted "challenge"
       = cbind (get data "challenge") coerceToArrayBuffer
    /\ (forall bs, get data "challenge" = encode bs ->
                   get adapted "challenge" = Normal (VArrayBuffer bs))
    /\ (exists user user',
          get data "user" = Normal user /\ get adapted "user" = Normal user'
          /\ decoded_id user user')
    /\ (exists l l',
          get data "excludeCredentials" = Normal (VArray l)
          /\ get adapted "excludeCredentials" = Normal (VArray l')
          /\ Forall2 decoded_id l l')
    /\ (exists selection selection' attachment,
          get data "authenticatorSelection" = Normal selection
          /\ get selection "authenticatorAttachment" = Normal attachment
          /\ get adapted "authenticatorSelection" = Normal selection'
          /\ get selection' "authenticatorAttachment"
             = Normal (if is_null attachment then VUndefined else attachment)
          /\ forall k, String.eqb k "authenticatorAttachment" = false ->
                       get selection' k = get selection k)
    /\ (forall k,
          existsb (String.eqb k)
            ["challenge"; "user"; "excludeCredentials"; "authenticatorSelection"]
          = false ->
          get adapted k = get data k).
Proof.
  apply (register_options_decoded (enrolling 200) (client (enrolling 200))
           (VStr "token") [] (fst (register_run (enrolling 200)))
           (snd (register_run (enrolling 200)))
           (VObject [("publicKey", adapted_register_options)])).
  - reflexivity.
  - vm_compute. right. left. reflexivity.
Defined.

Lemma signin_options_decoded_witness :
  exists b resp payload data adapted,
    In (Fetch (apiUrl (client (asserting 200)) ++ "signin/begin") b)
      (events (snd (signin_run (asserting 200))))
    /\ fetch (asserting 200)
         (apiUrl (client (asserting 200)) ++ "signin/begin") b = Normal resp
    /\ json resp = Normal payload
    /\ get payload "data" = Normal data
    /\ hd VUndefined (get_calls (events (snd (signin_run (asserting 200)))))
       = VObject [("publicKey", adapted)]
    /\ get adapted "challenge"
       = cbind (get data "challenge") coerceToArrayBuffer
    /\ (forall bs, get data "challenge" = encode bs ->
                   get adapted "challenge" = Normal (VArrayBuffer bs))
    /\ (exists l l',
          get data "allowCredentials" = Normal (VArray l)
          /\ get adapted "allowCredentials" = Normal (VArray l')
          /\ Forall2 decoded_id l l')
    /\ (forall k,
          existsb (String.eqb k) ["challenge"; "allowCredentials"] = false ->
          get adapted k = get data k).
Proof.
  apply (signin_options_decoded (asserting 200) (client (asserting 200))
           (VStr "alice") [] (fst (signin_run (asserting 200)))
           (snd (signin_run (asserting 200)))
           (hd VUndefined
              (get_calls (events (snd (signin_run (asserting 200))))))).
  - reflexivity.
  - vm_compute. right. left. reflexivity.
Defined.

Lemma register_complete_body_witness :
  exists arg credential raw attestation client,
    In (CredentialsCreate arg) (events (snd (register_run (enrolling 200))))
    /\ credentials_create (enrolling 200) arg = Normal credential
    /\ cbind (get credential "rawId") new_Uint8Array = Normal raw
    /\ response_bytes credential "attestationObject" = Normal attestation
    /\ response_bytes credential "clientDataJSON" = Normal client
    /\ get_path
         (body (hd register_begin_request
                  (requests_to (api ++ "register/complete")
                     (events (snd (register_run (enrolling 200)))))))
         ["response"; "id"] = get credential "id"
    /\ get_path
         (body (hd register_begin_request
                  (requests_to (api ++ "register/complete")
                     (events (snd (register_run (enrolling 200)))))))
         ["response"; "type"] = get credential "type"
    /\ get_path
         (body (hd register_begin_request
                  (requests_to (api ++ "register/complete")
                     (events (snd (register_run (enrolling 200)))))))
         ["response"; "extensions"]
       = call_method credential "getClientExtensionResults"
    /\ get_path
         (body (hd register_begin_request
                  (requests_to (api ++ "register/complete")
                     (events (snd (register_run (enrolling 200)))))))
         ["response"; "rawId"] = encode raw
    /\ get_path
         (body (hd register_begin_request
                  (requests_to (api ++ "register/complete")
                     (events (snd (register_run (enrolling 200)))))))
         ["response"; "response"; "AttestationObject"] = encode attestation
    /\ get_path
         (body (hd register_begin_request
                  (requests_to (api ++ "register/complete")
                     (events (snd (register_run (enrolling 200)))))))
         ["response"; "response"; "clientDataJson"] = encode client.
Proof.
  apply (register_complete_body (enrolling 200) (client (enrolling 200))
           (VStr "token") [] (fst (register_run (enrolling 200)))
           (snd (register_run (enrolling 200)))).
  - reflexivity.
  - vm_compute. right. right. left. reflexivity.
Defined.

Lemma signin_complete_body_witness :
  exists arg credential raw authenticator client signature,
    In (CredentialsGet arg) (events (snd (signin_run (asserting 200))))
    /\ credentials_get (asserting 200) arg = Normal credential
    /\ cbind (get credential "rawId") new_Uint8Array = Normal raw
    /\ response_bytes credential "authenticatorData" = Normal authenticator
    /\ response_bytes credential "clientDataJSON" = Normal client
    /\ response_bytes credential "signature" = Normal signature
    /\ get_path
         (body (hd signin_begin_request
                  (requests_to (api ++ "signin/complete")
                     (events (snd (signin_run (asserting 200)))))))
         ["response"; "id"] = get credential "id"
    /\ get_path
         (body (hd signin_begin_request
                  (requests_to (api ++ "signin/complete")
                     (events (snd (signin_run (asserting 200)))))))
         ["response"; "type"] = get credential "type"
    /\ get_path
         (body (hd signin_begin_request
                  (requests_to (api ++ "signin/complete")
                     (events (snd (signin_run (asserting 200)))))))
         ["response"; "extensions"]
       = call_method credential "getClientExtensionResults"
    /\ get_path
         (body (hd signin_begin_request
                  (requests_to (api ++ "signin/complete")
                     (events (snd (signin_run (asserting 200)))))))
         ["response"; "rawId"] = encode raw
    /\ get_path
         (body (hd signin_begin_request
                  (requests_to (api ++ "signin/complete")
                     (events (snd (signin_run (asserting 200)))))))
         ["response"; "response"; "authenticatorData"] = encode authenticator
    /\ get_path
         (body (hd signin_begin_request
                  (requests_to (api ++ "signin/complete")
                     (events (snd (signin_run (asserting 200)))))))
         ["response"; "response"; "clientDataJson"] = encode client
    /\ get_path
         (body (hd signin_begin_request
                  (requests_to (api ++ "signin/complete")
                     (events (snd (signin_run (asserting 200)))))))
         ["response"; "response"; "signature"] = encode signature.
Proof.
  apply (signin_complete_body (asserting 200) (client (asserting 200))
           (VStr "alice") [] (fst (signin_run (asserting 200)))
           (snd (signin_run (asserting 200)))).
  - reflexivity.
  - vm_compute. right. right. left. reflexivity.
Defined.

End FurtherPayloads.
